(** * anomalyAENN: the data-shaping pipeline

    A shallow embedding of [src/data/basePreprocessor.py] and
    [data/exampleData.py]: loading, under-sampling, train/test splitting,
    normalisation, the normal/anomaly partition, the rebalancing accessor
    and the dataset factory.

    Conventions of the embedding.
    - A numpy array or tensor of shape (n, c) is a list of n rows, each a
      list of c cells.  Cells are exact rationals: rounding, overflow and
      the non-finite values of IEEE arithmetic are not represented.  The
      division of [Q] gives 0 for a zero divisor where the floating-point
      code gives NaN or an infinity, so statements about cell values are
      made for a non-degenerate range only.
    - The cast to single precision and the square root are operations of
      the numeric back end; they are taken as the two fields of
      [FloatOps].
    - A Python exception is the [Raise] outcome of [Py.result].
    - A pseudo-random generator is an oracle [rng]; a statement
      quantified over the oracle holds for every seed. *)

From Stdlib Require Import String.
From Stdlib Require Import List Arith PeanoNat Lia Bool ZArith.
From Stdlib Require Import QArith Qminmax Qround Lqa Permutation.
Import ListNotations.
Local Open Scope nat_scope.

Set Implicit Arguments.

(** ** Python outcomes *)

Module Py.

Inductive exn : Type :=
| FileNotFoundError
| ValueError
| IndexError
| KeyError.

Inductive result (A : Type) : Type :=
| Ok (a : A)
| Raise (e : exn).

Arguments Ok {A} a.
Arguments Raise {A} e.

Definition bind {A B : Type} (m : result A) (k : A -> result B) : result B :=
  match m with
  | Ok a => k a
  | Raise e => Raise e
  end.

End Py.

Import Py.

Notation "x <- m ;; k" := (Py.bind m (fun x => k))
  (at level 61, m at next level, right associativity).

(** ** Numbers, rows and tables *)

Definition row : Type := list Q.
Definition table : Type := list row.

(** The numeric back end: [tf.cast(_, tf.float32)] on one cell and
    [np.sqrt] on one cell. *)
Class FloatOps : Type := {
  cast_float32 : Q -> Q;
  np_sqrt : Q -> Q
}.

(** The oracle behind a random generator: the [i]-th raw draw. *)
Definition rng : Type := nat -> nat.

(** ** numpy *)

Module np.

(** [np.vstack((a, b))]: the rows of [a], then the rows of [b].  A table
    stands for a rectangular array, and the operands of every call below
    are cut from arrays of one width; numpy's refusal of operands of
    different widths is not represented here, and a statement that
    depends on it carries the common width as a hypothesis. *)
Definition vstack (A : Type) (a b : list A) : list A := a ++ b.

(** [np.expand_dims(v, axis=1)]: a vector as a one-column table. *)
Definition expand_dims (v : list Q) : table := map (fun l => [l]) v.

(** [np.hstack((x, y))]: rows joined side by side; the row counts must
    agree. *)
Fixpoint hstack (x y : table) : result table :=
  match x, y with
  | [], [] => Ok []
  | r :: x', s :: y' => t <- hstack x' y' ;; Ok ((r ++ s) :: t)
  | _, _ => Raise ValueError
  end.

(** [t[:, -1]]: the last cell of every row; a row without cells has no
    index -1. *)
Fixpoint col_last (t : table) : result (list Q) :=
  match t with
  | [] => Ok []
  | r :: t' =>
      match r with
      | [] => Raise IndexError
      | _ :: _ => ls <- col_last t' ;; Ok (last r 0%Q :: ls)
      end
  end.

(** [t[:, :-1]] and [t[:, 1:-1]]: slices never raise. *)
Definition drop_last_col (t : table) : table := map (@removelast Q) t.
Definition inner_cols (t : table) : table :=
  map (fun r => removelast (tl r)) t.

(** [t[:, -1] = v]: the last cell of row [i] becomes [v[i]]. *)
Fixpoint set_last_col (t : table) (v : list Q) : result table :=
  match t, v with
  | [], [] => Ok []
  | r :: t', x :: v' =>
      match r with
      | [] => Raise IndexError
      | _ :: _ => u <- set_last_col t' v' ;; Ok ((removelast r ++ [x]) :: u)
      end
  | _, _ => Raise ValueError
  end.

(** [np.flatnonzero(m)], also [np.where(m)[0]]: the positions of the true
    entries, ascending. *)
Fixpoint flatnonzero_from (i : nat) (m : list bool) : list nat :=
  match m with
  | [] => []
  | b :: m' =>
      if b then i :: flatnonzero_from (S i) m' else flatnonzero_from (S i) m'
  end.

Definition flatnonzero (m : list bool) : list nat := flatnonzero_from 0 m.

(** [t[idx]] for an integer index array: one row per index, in the order
    of [idx]. *)
Fixpoint take (A : Type) (t : list A) (idx : list nat) : result (list A) :=
  match idx with
  | [] => Ok []
  | i :: idx' =>
      match nth_error t i with
      | Some r => rs <- take t idx' ;; Ok (r :: rs)
      | None => Raise IndexError
      end
  end.

(** [t[m]] for a boolean mask: the rows at the true positions; the mask
    must be as long as the table. *)
Fixpoint mask_rows (A : Type) (t : list A) (m : list bool) : list A :=
  match t, m with
  | r :: t', b :: m' => if b then r :: mask_rows t' m' else mask_rows t' m'
  | _, _ => []
  end.

Definition mask (A : Type) (t : list A) (m : list bool) : result (list A) :=
  if length t =? length m then Ok (mask_rows t m) else Raise IndexError.

(** [v.astype(bool)]: every non-zero number is true. *)
Definition astype_bool (v : list Q) : list bool :=
  map (fun l => negb (Qeq_bool l 0)) v.

(** [~m] on a boolean array. *)
Definition invert (m : list bool) : list bool := map negb m.

(** [v == c], element by element. *)
Definition eq_scalar (v : list Q) (c : Q) : list bool :=
  map (fun l => Qeq_bool l c) v.

(** [np.unique(y)]: the distinct values of [y], ascending. *)
Fixpoint insert_unique (x : Q) (l : list Q) : list Q :=
  match l with
  | [] => [x]
  | y :: t =>
      match (x ?= y)%Q with
      | Lt => x :: l
      | Eq => l
      | Gt => y :: insert_unique x t
      end
  end.

Definition unique (y : list Q) : list Q := fold_right insert_unique [] y.

(** Sampling without replacement: [k] draws from [pool], each draw
    removing the element it picks. *)
Fixpoint remove_at (A : Type) (i : nat) (l : list A) : list A :=
  match l with
  | [] => []
  | x :: t =>
      match i with
      | 0 => t
      | S j => x :: remove_at j t
      end
  end.

Fixpoint draw (A : Type) (rnd : rng) (k : nat) (pool : list A) : list A :=
  match k with
  | 0 => []
  | S k' =>
      match pool with
      | [] => []
      | d :: _ =>
          let i := rnd k' mod length pool in
          nth i pool d :: draw rnd k' (remove_at i pool)
      end
  end.

(** [rng.permutation(n)]. *)
Definition permutation (rnd : rng) (n : nat) : list nat :=
  draw rnd n (seq 0 n).

(** [rng.choice(a, size, replace=False)]: a larger sample than the
    population is refused. *)
Definition choice (A : Type) (rnd : rng) (a : list A) (size : nat)
  : result (list A) :=
  if size <=? length a then Ok (draw rnd size a) else Raise ValueError.

End np.

(** ** tensorflow *)

Module tf.

(** [tf.reduce_min(t)] and [tf.reduce_max(t)]: over all cells of the
    table, not per column.  A table without cells has no finite extremum;
    0 stands for it here. *)
Definition reduce_min (t : table) : Q :=
  match concat t with
  | [] => 0%Q
  | x :: l => fold_left Qmin l x
  end.

Definition reduce_max (t : table) : Q :=
  match concat t with
  | [] => 0%Q
  | x :: l => fold_left Qmax l x
  end.

(** [tf.cast(t, tf.float32)], cell by cell. *)
Definition cast {F : FloatOps} (t : table) : table :=
  map (map cast_float32) t.

End tf.

(** ** scikit-learn *)

Module sklearn.

(** [ceil(test_size * n_samples)] of [_validate_shuffle_split]. *)
Definition n_test_of (test_size : Q) (n_samples : nat) : nat :=
  Z.to_nat (Qceiling (test_size * inject_Z (Z.of_nat n_samples))).

(** The number of entries of [y] equal to [c]. *)
Definition count_class (y : list Q) (c : Q) : nat :=
  length (np.flatnonzero (np.eq_scalar y c)).

(** The checks of [StratifiedShuffleSplit]: every class has two members
    at least, and neither side is smaller than the number of classes. *)
Definition stratify_ok (y : list Q) (n_train n_test : nat) : bool :=
  let classes := np.unique y in
  forallb (fun c => 2 <=? count_class y c) classes
  && (length classes <=? n_train)
  && (length classes <=? n_test).

(** [train_test_split(X, y, test_size=test_size, stratify=..., random_state=...)].
    The arrays must be equally long; the test side gets
    [ceil(test_size * n)] rows and the train side the rest, which must not
    be empty.  The rows are dealt out along one permutation of the row
    indices: its first [n_test] entries are the test rows, the following
    [n_train] the train rows.  With [stratify] the library draws only
    permutations that keep the class proportions; the oracle here may
    draw any permutation, so a statement for every oracle covers every
    stratified draw as well. *)
Definition train_test_split (rnd : rng) (test_size : Q) (stratify : bool)
    (X : table) (y : list Q) : result (table * table * list Q * list Q) :=
  let n_samples := length X in
  if negb (length y =? n_samples) then Raise ValueError else
  let n_test := n_test_of test_size n_samples in
  let n_train := n_samples - n_test in
  if n_train =? 0 then Raise ValueError else
  if stratify && negb (stratify_ok y n_train n_test) then Raise ValueError else
  let permutation := np.permutation rnd n_samples in
  let ind_test := firstn n_test permutation in
  let ind_train := firstn n_train (skipn n_test permutation) in
  X_train <- np.take X ind_train ;;
  X_test <- np.take X ind_test ;;
  y_train <- np.take y ind_train ;;
  y_test <- np.take y ind_test ;;
  Ok (X_train, X_test, y_train, y_test).

(** [StandardScaler] on one column: the fitted mean and scale. *)
Record StandardScaler : Type := {
  mean_ : Q;
  scale_ : Q
}.

Definition sum (v : list Q) : Q := fold_right Qplus 0%Q v.

Definition mean (v : list Q) : Q :=
  (sum v / inject_Z (Z.of_nat (length v)))%Q.

(** The population variance. *)
Definition var (v : list Q) : Q :=
  let m := mean v in
  (sum (map (fun x => (x - m) * (x - m)) v)
   / inject_Z (Z.of_nat (length v)))%Q.

(** [scaler.fit(col)]: an empty column is refused; a zero scale is
    replaced by 1. *)
Definition fit {F : FloatOps} (col : list Q) : result StandardScaler :=
  match col with
  | [] => Raise ValueError
  | _ :: _ =>
      let s := np_sqrt (var col) in
      Ok {| mean_ := mean col;
            scale_ := if Qeq_bool s 0 then 1%Q else s |}
  end.

(** [scaler.transform(col)]. *)
Definition transform (scaler : StandardScaler) (col : list Q)
  : result (list Q) :=
  match col with
  | [] => Raise ValueError
  | _ :: _ => Ok (map (fun x => ((x - mean_ scaler) / scale_ scaler)%Q) col)
  end.

End sklearn.

(** ** imbalanced-learn *)

Module imblearn.

(** A float label that is a whole number, as [type_of_target] asks of a
    binary target. *)
Definition is_integral (q : Q) : bool := Qeq_bool (inject_Z (Qfloor q)) q.

(** [RandomUnderSampler(sampling_strategy=alpha).fit_resample(X, y)] for a
    float [alpha].  The target must be binary.  [alpha] is the wanted
    ratio of the minority count to the majority count after resampling:
    the majority class keeps [int(n_minority / alpha)] rows, drawn without
    replacement, and asking for more rows than it has is refused.  The
    minority class is the first class of least count.  The output lists
    the classes in ascending order: the kept rows of the first class,
    then those of the second.

    This sampler does not compare the lengths of [X] and [y]: the kept
    positions are positions of [y], and [X] is indexed with them, which
    fails with an index error on a position past its last row.  Of the
    validation of [X] itself the refusal of a table without rows is
    modelled; its refusal of a table without feature columns is not (the
    fraud table has its feature columns). *)
Definition fit_resample (rnd : rng) (sampling_strategy : Q)
    (X : table) (y : list Q) : result (table * list Q) :=
  if length X =? 0 then Raise ValueError else
  match np.unique y with
  | [c0; c1] =>
      if negb (forallb is_integral y) then Raise ValueError else
      let idx0 := np.flatnonzero (np.eq_scalar y c0) in
      let idx1 := np.flatnonzero (np.eq_scalar y c1) in
      let n0 := length idx0 in
      let n1 := length idx1 in
      let minority_first := n0 <=? n1 in
      let n_minority := if minority_first then n0 else n1 in
      let n_majority := if minority_first then n1 else n0 in
      let n_samples :=
        Z.to_nat (Qfloor (inject_Z (Z.of_nat n_minority) / sampling_strategy))
      in
      if n_majority <? n_samples then Raise ValueError else
      kept0 <- (if minority_first then Ok idx0
                else pos <- np.choice rnd (seq 0 n0) n_samples ;;
                     np.take idx0 pos) ;;
      kept1 <- (if minority_first
                then pos <- np.choice rnd (seq 0 n1) n_samples ;;
                     np.take idx1 pos
                else Ok idx1) ;;
      let idx_under := kept0 ++ kept1 in
      X_res <- np.take X idx_under ;;
      y_res <- np.take y idx_under ;;
      Ok (X_res, y_res)
  | _ => Raise ValueError
  end.

End imblearn.

(** ** The outside world of a constructor *)

(** [src.utils.configuration] is not part of the sources: the two paths
    it exports are taken as given. *)
Record Configuration : Type := {
  credit_data_path : string;
  ecg_data_path : string
}.

(** What a constructor reads: the configuration, the tables behind the
    file names ([None]: no such file) and the random generators it
    consumes, one per random call. *)
Record World : Type := {
  config : Configuration;
  files : string -> option table;
  rng_under_sample : rng;
  rng_split : rng
}.

(** What a constructor does to the outside: it opens files. *)
Inductive event : Type :=
| ReadFile (path : string).

(** [pd.read_parquet(path)] and [pd.read_csv(path)], then [.values]. *)
Definition read_table (w : World) (path : string) : result table :=
  match files w path with
  | Some t => Ok t
  | None => Raise FileNotFoundError
  end.

(** ** class BasePreprocessor *)

Module BasePreprocessor.

(** The attributes [data] and [labels]. *)
Record Dataset : Type := {
  data : table;
  labels : list Q
}.

(** The attributes a split assigns. *)
Record Split : Type := {
  train_data : table;
  test_data : table;
  train_labels : list Q;
  test_labels : list Q
}.

(** The attributes the partition assigns. *)
Record Groups : Type := {
  normal_train : table;
  normal_test : table;
  anom_train : table;
  anom_test : table
}.

(** A constructed preprocessor. *)
Record t : Type := {
  name : string;
  raw_data : table;
  dataset : Dataset;
  split : Split;
  groups : Groups
}.

(** [__init__(self, file_path, name)]: reads the file. *)
Definition __init__ (w : World) (file_path : string) : result table :=
  read_table w file_path.

Definition _train_split_data (rnd : rng) (d : Dataset) : result Split :=
  r <- sklearn.train_test_split rnd (2 # 10) true (data d) (labels d) ;;
  let '(X_train, X_test, y_train, y_test) := r in
  Ok {| train_data := X_train; test_data := X_test;
        train_labels := y_train; test_labels := y_test |}.

Definition _split_normal_and_anomalies (s : Split) : result Groups :=
  let train_labels := np.astype_bool (train_labels s) in
  let test_labels := np.astype_bool (test_labels s) in
  normal_train <- np.mask (train_data s) train_labels ;;
  normal_test <- np.mask (test_data s) test_labels ;;
  anom_train <- np.mask (train_data s) (np.invert train_labels) ;;
  anom_test <- np.mask (test_data s) (np.invert test_labels) ;;
  Ok {| normal_train := normal_train; normal_test := normal_test;
        anom_train := anom_train; anom_test := anom_test |}.

Definition get_all_data (p : t)
  : table * table * table * table * table * table :=
  (train_data (split p), test_data (split p),
   normal_train (groups p), normal_test (groups p),
   anom_train (groups p), anom_test (groups p)).

(** [get_normalized_data(self)]; [rnd] is numpy's global generator. *)
Definition get_normalized_data (rnd : rng) (s : Split)
  : result (table * list Q) :=
  let x_stacked := np.vstack (train_data s) (test_data s) in
  let y_stacked :=
    np.vstack (np.expand_dims (train_labels s))
              (np.expand_dims (test_labels s)) in
  all_norm_data <- np.hstack x_stacked y_stacked ;;
  last_col <- np.col_last all_norm_data ;;
  let normal_idx := np.flatnonzero (np.eq_scalar last_col 0) in
  let anomaly_idx := np.flatnonzero (np.eq_scalar last_col 1) in
  both <-
    (if length anomaly_idx <? length normal_idx then
       under_sampled_idx <-
         np.choice rnd normal_idx (length anomaly_idx) ;;
       normal <- np.take all_norm_data under_sampled_idx ;;
       anomaly <- np.take all_norm_data anomaly_idx ;;
       Ok (normal, anomaly)
     else
       under_sampled_idx <-
         np.choice rnd anomaly_idx (length normal_idx) ;;
       normal <- np.take all_norm_data normal_idx ;;
       anomaly <- np.take all_norm_data under_sampled_idx ;;
       Ok (normal, anomaly)) ;;
  let evenly_distributed := np.vstack (fst both) (snd both) in
  let data := np.drop_last_col evenly_distributed in
  labels <- np.col_last evenly_distributed ;;
  Ok (data, labels).

End BasePreprocessor.

Import BasePreprocessor.

(** ** class CreditProcessor *)

Module CreditProcessor.

Definition _under_sample (rnd : rng) (d : Dataset) : result Dataset :=
  r <- imblearn.fit_resample rnd (1 # 10) (data d) (labels d) ;;
  Ok {| data := fst r; labels := snd r |}.

Definition _normalize {F : FloatOps} (s : Split) : result Split :=
  train_amounts <- np.col_last (train_data s) ;;
  test_amounts <- np.col_last (test_data s) ;;
  scaler <- sklearn.fit train_amounts ;;
  train_scaled <- sklearn.transform scaler train_amounts ;;
  train <- np.set_last_col (train_data s) train_scaled ;;
  test_scaled <- sklearn.transform scaler test_amounts ;;
  test <- np.set_last_col (test_data s) test_scaled ;;
  Ok {| train_data := tf.cast train; test_data := tf.cast test;
        train_labels := train_labels s; test_labels := test_labels s |}.

(** [self.labels = 1 - self.raw_data[:, -1]] and
    [self.data = self.raw_data[:, 1:-1]]. *)
Definition load (raw : table) : result Dataset :=
  cls <- np.col_last raw ;;
  Ok {| data := np.inner_cols raw;
        labels := map (fun c => (1 - c)%Q) cls |}.

Definition __init__ {F : FloatOps} (w : World)
  : list event * result BasePreprocessor.t :=
  let path := credit_data_path (config w) in
  ([ReadFile path],
   raw <- BasePreprocessor.__init__ w path ;;
   d <- load raw ;;
   balanced <- _under_sample (rng_under_sample w) d ;;
   s <- _train_split_data (rng_split w) balanced ;;
   s' <- _normalize s ;;
   g <- _split_normal_and_anomalies s' ;;
   Ok {| name := "Credit Card"; raw_data := raw; dataset := balanced;
         split := s'; groups := g |}).

End CreditProcessor.

(** ** class ECGProcessor *)

Module ECGProcessor.

Definition _normalize {F : FloatOps} (s : Split) : Split :=
  let min_val := tf.reduce_min (train_data s) in
  let max_val := tf.reduce_max (train_data s) in
  let train :=
    map (map (fun x => ((x - min_val) / (max_val - min_val))%Q))
        (train_data s) in
  let test :=
    map (map (fun x => ((x - min_val) / (max_val - min_val))%Q))
        (test_data s) in
  {| train_data := tf.cast train; test_data := tf.cast test;
     train_labels := train_labels s; test_labels := test_labels s |}.

(** [self.labels = self.raw_data[:, -1]] and
    [self.data = self.raw_data[:, :-1]]. *)
Definition load (raw : table) : result Dataset :=
  cls <- np.col_last raw ;;
  Ok {| data := np.drop_last_col raw; labels := cls |}.

Definition __init__ {F : FloatOps} (w : World)
  : list event * result BasePreprocessor.t :=
  let path := ecg_data_path (config w) in
  ([ReadFile path],
   raw <- BasePreprocessor.__init__ w path ;;
   d <- load raw ;;
   s <- _train_split_data (rng_split w) d ;;
   let s' := _normalize s in
   g <- _split_normal_and_anomalies s' ;;
   Ok {| name := "Electrocardiogram"; raw_data := raw; dataset := d;
         split := s'; groups := g |}).

End ECGProcessor.

(** ** class ExampleData *)

Module ExampleData.

Definition __train_split_data (rnd : rng) (d : Dataset) : result Split :=
  r <- sklearn.train_test_split rnd (2 # 10) false (data d) (labels d) ;;
  let '(X_train, X_test, y_train, y_test) := r in
  Ok {| train_data := X_train; test_data := X_test;
        train_labels := y_train; test_labels := y_test |}.

Definition __normalize {F : FloatOps} (s : Split) : Split :=
  let min_val := tf.reduce_min (train_data s) in
  let max_val := tf.reduce_max (train_data s) in
  let train :=
    map (map (fun x => ((x - min_val) / (max_val - min_val))%Q))
        (train_data s) in
  let test :=
    map (map (fun x => ((x - min_val) / (max_val - min_val))%Q))
        (test_data s) in
  {| train_data := tf.cast train; test_data := tf.cast test;
     train_labels := train_labels s; test_labels := test_labels s |}.

Definition __split_normal_and_anomalies (s : Split) : result Groups :=
  let train_labels := np.astype_bool (train_labels s) in
  let test_labels := np.astype_bool (test_labels s) in
  normal_train <- np.mask (train_data s) train_labels ;;
  normal_test <- np.mask (test_data s) test_labels ;;
  anom_train <- np.mask (train_data s) (np.invert train_labels) ;;
  anom_test <- np.mask (test_data s) (np.invert test_labels) ;;
  Ok {| normal_train := normal_train; normal_test := normal_test;
        anom_train := anom_train; anom_test := anom_test |}.

(** A constructed [ExampleData]. *)
Record t : Type := {
  raw_data : table;
  dataset : Dataset;
  split : Split;
  groups : Groups
}.

(** [__init__(self)] from the downloaded table on: [pd.read_csv] either
    raises, and then so does the constructor, or yields [values]. *)
Definition __init__ {F : FloatOps} (rnd : rng) (values : table) : result t :=
  labels <- np.col_last values ;;
  let d := {| data := np.drop_last_col values; labels := labels |} in
  s <- __train_split_data rnd d ;;
  let s' := __normalize s in
  g <- __split_normal_and_anomalies s' ;;
  Ok {| raw_data := values; dataset := d; split := s'; groups := g |}.

Definition get_all_training_data (p : t)
  : table * table * table * table * table * table :=
  (train_data (split p), test_data (split p),
   normal_train (groups p), normal_test (groups p),
   anom_train (groups p), anom_test (groups p)).

End ExampleData.

(** ** The factory *)

(** A Python [dict] with string keys, as the list of its entries. *)
Fixpoint dict_get (V : Type) (d : list (string * V)) (k : string) : option V :=
  match d with
  | [] => None
  | (k', v) :: d' => if String.eqb k k' then Some v else dict_get d' k
  end.

Definition dict_contains (V : Type) (d : list (string * V)) (k : string)
  : bool :=
  match dict_get d k with
  | Some _ => true
  | None => false
  end.

Definition __data_type_map {F : FloatOps}
  : list (string * (World -> list event * result BasePreprocessor.t)) :=
  [("ecg_data"%string, ECGProcessor.__init__);
   ("creditcard_data"%string, CreditProcessor.__init__)].

Definition data_factory {F : FloatOps} (w : World) (dataset_type : string)
  : list event * result BasePreprocessor.t :=
  if negb (dict_contains __data_type_map dataset_type) then
    ([], Raise FileNotFoundError)
  else
    match dict_get __data_type_map dataset_type with
    | Some constructor => constructor w
    | None => ([], Raise KeyError)
    end.

(** ** Auxiliary definitions of the proofs *)

(** The rows of [X], each with its label appended: what [np.hstack]
    builds from a table and a one-column table. *)
Definition glue (X : table) (lab : list Q) : table :=
  map (fun p => fst p ++ [snd p]) (combine X lab).

(** The number of entries of [v] equal to [c]. *)
Definition count_eq (c : Q) (v : list Q) : nat :=
  length (filter (fun l => Qeq_bool l c) v).

(** The rows of [t], the entries of [v], at the positions [idx]. *)
Definition rows_at (t : table) (idx : list nat) : table :=
  map (fun i => nth i t []) idx.

Definition values_at (v : list Q) (idx : list nat) : list Q :=
  map (fun i => nth i v 0%Q) idx.

(** A label vector of zeros and ones. *)
Definition binary (y : list Q) : Prop :=
  Forall (fun l => Qeq_bool l 0 = true \/ Qeq_bool l 1 = true) y.

(** The positions [get_normalized_data] selects in the stacked table:
    those of label 0, then those of label 1. *)
Definition selected_positions (rnd : rng) (lab : list Q)
  : list nat * list nat :=
  let normal_idx := np.flatnonzero (np.eq_scalar lab 0) in
  let anomaly_idx := np.flatnonzero (np.eq_scalar lab 1) in
  if length anomaly_idx <? length normal_idx
  then (np.draw rnd (length anomaly_idx) normal_idx, anomaly_idx)
  else (normal_idx, np.draw rnd (length normal_idx) anomaly_idx).

(** The positions [fit_resample] keeps of a 0/1 target at the ratio
    1 to 10. *)
Definition resampled_positions (rnd : rng) (y : list Q) : list nat :=
  let idx0 := np.flatnonzero (np.eq_scalar y 0) in
  let idx1 := np.flatnonzero (np.eq_scalar y 1) in
  if length idx0 <=? length idx1
  then idx0 ++ map (fun p => nth p idx1 0)
                   (np.draw rnd (10 * length idx0) (seq 0 (length idx1)))
  else map (fun p => nth p idx0 0)
           (np.draw rnd (10 * length idx1) (seq 0 (length idx0)))
       ++ idx1.

(** ** Concrete inputs *)

(** The exact back end: every value is representable, and the square root
    is the integer square root of numerator and denominator. *)
Definition exact_ops : FloatOps :=
  {| cast_float32 := fun x => x;
     np_sqrt := fun x =>
       (inject_Z (Z.sqrt (Qnum x))
        / inject_Z (Z.sqrt (Zpos (Qden x))))%Q |}.

(** A generator stuck at 0: every draw picks the first remaining item. *)
Definition rng_zero : rng := fun _ => 0.

(** The fraud scenario of the specification: 50 rows of the minority
    label 0 (fraud) and then 1000 rows of the majority label 1, with the
    row number as the only feature. *)
Definition fraud_scenario : Dataset :=
  {| data := map (fun i => [inject_Z (Z.of_nat i)]) (seq 0 1050);
     labels := repeat 0%Q 50 ++ repeat 1%Q 1000 |}.

(** A smaller data set of the same kind: 2 minority rows, 25 majority
    rows. *)
Definition small_fraud : Dataset :=
  {| data := map (fun i => [inject_Z (Z.of_nat i)]) (seq 0 27);
     labels := repeat 0%Q 2 ++ repeat 1%Q 25 |}.

(** The row positions a split deals to the train side and to the test
    side of [n] rows at the test share 0.2. *)
Definition split_indices (rnd : rng) (n : nat) : list nat * list nat :=
  let n_test := (n + 4) / 5 in
  let permutation := np.permutation rnd n in
  (firstn (n - n_test) (skipn n_test permutation), firstn n_test permutation).

(** What a split returns on these positions. *)
Definition split_at (X : table) (y : list Q) (ind : list nat * list nat)
  : Split :=
  {| train_data := rows_at X (fst ind); test_data := rows_at X (snd ind);
     train_labels := values_at y (fst ind);
     test_labels := values_at y (snd ind) |}.

(** Train and test partitions whose tables are as long as their label
    vectors. *)
Definition aligned (s : Split) : Prop :=
  length (train_data s) = length (train_labels s)
  /\ length (test_data s) = length (test_labels s).

(** Min-max scaling and standardisation of one cell, and the fraud
    normaliser's action on one row. *)
Definition min_max_scale {F : FloatOps} (lo hi x : Q) : Q :=
  cast_float32 ((x - lo) / (hi - lo))%Q.

Definition standardize_last {F : FloatOps} (scaler : sklearn.StandardScaler)
    (r : row) : row :=
  map cast_float32
      (removelast r
       ++ [((last r 0 - sklearn.mean_ scaler) / sklearn.scale_ scaler)%Q]).

(** The cells of a table lie in the closed unit interval. *)
Definition in_unit_interval (t : table) : Prop :=
  Forall (Forall (fun x => (0 <= x)%Q /\ (x <= 1)%Q)) t.

(** A small split: three train rows, two test rows, two columns. *)
Definition small_split : Split :=
  {| train_data := [[1; 2]; [3; 4]; [5; 6]]%Q;
     test_data := [[7; 8]; [0; 9]]%Q;
     train_labels := [1; 0; 1]%Q;
     test_labels := [0; 0]%Q |}.

(** A small world: a fraud file of 27 rows (time, one feature, amount,
    class; the first two rows are frauds) and an ECG file of 10 rows (two
    signal values and the label). *)
Definition small_credit_raw : table :=
  map (fun i => [inject_Z (Z.of_nat i);
                 inject_Z (Z.of_nat (i * i mod 7));
                 inject_Z (Z.of_nat (3 * i + 1));
                 if i <? 2 then 1%Q else 0%Q])
      (seq 0 27).

Definition small_ecg_raw : table :=
  map (fun i => [inject_Z (Z.of_nat i) / 4;
                 inject_Z (Z.of_nat (i * i mod 5));
                 if i mod 3 =? 0 then 0 else 1]%Q)
      (seq 0 10).

Definition small_world : World :=
  {| config := {| credit_data_path := "creditcard.parquet";
                  ecg_data_path := "ecg.parquet" |};
     files := fun path =>
       if String.eqb path "creditcard.parquet" then Some small_credit_raw
       else if String.eqb path "ecg.parquet" then Some small_ecg_raw
       else None;
     rng_under_sample := fun i => 7 * i + 3;
     rng_split := fun i => 5 * i + 2 |}.

(** [small_split] with other test rows and the same training rows. *)
Definition small_split_other_test : Split :=
  {| train_data := [[1; 2]; [3; 4]; [5; 6]]%Q;
     test_data := [[100; -50]]%Q;
     train_labels := [1; 0; 1]%Q;
     test_labels := [1]%Q |}.



(** A data set in which the label 0 has a single row. *)
Definition lone_fraud : Dataset :=
  {| data := map (fun i => [inject_Z (Z.of_nat i)]) (seq 0 10);
     labels := 0%Q :: repeat 1%Q 9 |}.

(** Two frauds and nineteen other rows: fewer than ten majority rows for
    every minority row. *)
Definition short_majority : Dataset :=
  {| data := map (fun i => [inject_Z (Z.of_nat i)]) (seq 0 21);
     labels := repeat 0%Q 2 ++ repeat 1%Q 19 |}.

(** A table of 27 rows with 22 labels only: five rows have no label. *)
Definition surplus_rows : Dataset :=
  {| data := map (fun i => [inject_Z (Z.of_nat i)]) (seq 0 27);
     labels := repeat 0%Q 2 ++ repeat 1%Q 20 |}.

(** A table of 20 rows with 22 labels: the two frauds are labels without
    a row. *)
Definition missing_rows : Dataset :=
  {| data := map (fun i => [inject_Z (Z.of_nat i)]) (seq 0 20);
     labels := repeat 1%Q 20 ++ repeat 0%Q 2 |}.

(** A back end whose square root reduces the fraction first, and so is
    exact on the squares of rationals. *)
Definition reduced_ops : FloatOps :=
  {| cast_float32 := fun x => x;
     np_sqrt := fun x =>
       let r := Qred x in
       (inject_Z (Z.sqrt (Qnum r))
        / inject_Z (Z.sqrt (Zpos (Qden r))))%Q |}.

(** A split whose training amounts 2 and 6 have mean 4 and deviation 2. *)
Definition amount_split : Split :=
  {| train_data := [[1; 2]; [3; 6]]%Q;
     test_data := [[7; 10]]%Q;
     train_labels := [1; 0]%Q;
     test_labels := [1]%Q |}.

(** A split whose training amounts are all 5. *)
Definition constant_amount_split : Split :=
  {| train_data := [[1; 5]; [3; 5]]%Q;
     test_data := [[7; 9]]%Q;
     train_labels := [1; 0]%Q;
     test_labels := [1]%Q |}.

(** Three train rows with two labels and one test row with two labels:
    each part is misaligned, the totals agree. *)
Definition cancelling_split : Split :=
  {| train_data := [[1; 2]; [3; 4]; [5; 6]]%Q;
     test_data := [[7; 8]]%Q;
     train_labels := [1; 0]%Q;
     test_labels := [0; 1]%Q |}.
(** * Proofs *)

(** ** Outcomes *)

Lemma bind_Ok (A B : Type) (m : result A) (k : A -> result B) (b : B) :
  (x <- m ;; k x) = Ok b -> exists a, m = Ok a /\ k a = Ok b.
Proof.
  destruct m as [a | e]; simpl; intro H.
  - exists a. split; [reflexivity | exact H].
  - discriminate H.
Qed.

Ltac bind_inv H :=
  let a := fresh "a" in
  let Ha := fresh "Ha" in
  apply bind_Ok in H; destruct H as [a [Ha H]].

(** ** Sampling without replacement *)

Section Draw.

Variable A : Type.

Lemma remove_at_length (i : nat) (l : list A) :
  i < length l -> length (np.remove_at i l) = length l - 1.
Proof.
  revert i. induction l as [| x l IH]; intros i Hi; simpl in *.
  - lia.
  - destruct i as [| j]; simpl.
    + lia.
    + rewrite IH by lia. lia.
Qed.

Lemma remove_at_perm (i : nat) (l : list A) (d : A) :
  i < length l -> Permutation (nth i l d :: np.remove_at i l) l.
Proof.
  revert i. induction l as [| x l IH]; intros i Hi; simpl in *.
  - lia.
  - destruct i as [| j].
    + apply Permutation_refl.
    + eapply perm_trans; [apply perm_swap |].
      apply perm_skip. apply IH. lia.
Qed.

Lemma draw_S (rnd : rng) (k : nat) (d : A) (pool : list A) :
  np.draw rnd (S k) (d :: pool) =
  nth (rnd k mod length (d :: pool)) (d :: pool) d
  :: np.draw rnd k (np.remove_at (rnd k mod length (d :: pool)) (d :: pool)).
Proof. reflexivity. Qed.

Lemma draw_length (rnd : rng) (k : nat) (pool : list A) :
  k <= length pool -> length (np.draw rnd k pool) = k.
Proof.
  revert pool. induction k as [| k IH]; intros pool Hk.
  - reflexivity.
  - destruct pool as [| d pool']; [simpl in Hk; lia |].
    rewrite draw_S.
    assert (Hi : rnd k mod length (d :: pool') < length (d :: pool')).
    { apply Nat.mod_upper_bound. simpl. lia. }
    set (i := rnd k mod length (d :: pool')) in *.
    change (S (length (np.draw rnd k (np.remove_at i (d :: pool')))) = S k).
    f_equal. apply IH.
    rewrite remove_at_length by exact Hi. lia.
Qed.

Lemma draw_perm (rnd : rng) (k : nat) (pool : list A) :
  exists rest, Permutation (np.draw rnd k pool ++ rest) pool.
Proof.
  revert pool. induction k as [| k IH]; intros pool.
  - exists pool. apply Permutation_refl.
  - destruct pool as [| d pool'].
    + exists []. apply Permutation_refl.
    + rewrite draw_S.
      assert (Hi : rnd k mod length (d :: pool') < length (d :: pool')).
      { apply Nat.mod_upper_bound. simpl. lia. }
      set (i := rnd k mod length (d :: pool')) in *.
      destruct (IH (np.remove_at i (d :: pool'))) as [rest Hrest].
      exists rest. rewrite <- app_comm_cons.
      eapply perm_trans; [apply perm_skip; exact Hrest |].
      apply remove_at_perm. exact Hi.
Qed.

Lemma draw_incl (rnd : rng) (k : nat) (pool : list A) :
  incl (np.draw rnd k pool) pool.
Proof.
  destruct (draw_perm rnd k pool) as [rest H].
  intros x Hx. eapply Permutation_in; [exact H |].
  apply in_or_app. left. exact Hx.
Qed.

Lemma draw_NoDup (rnd : rng) (k : nat) (pool : list A) :
  NoDup pool -> NoDup (np.draw rnd k pool).
Proof.
  intro Hnd. destruct (draw_perm rnd k pool) as [rest H].
  apply Permutation_sym in H.
  apply (Permutation_NoDup H) in Hnd.
  apply NoDup_app_remove_r in Hnd. exact Hnd.
Qed.

Lemma choice_Ok (rnd : rng) (a : list A) (size : nat) :
  size <= length a -> np.choice rnd a size = Ok (np.draw rnd size a).
Proof.
  intro H. unfold np.choice.
  destruct (Nat.leb_spec size (length a)); [reflexivity | lia].
Qed.

End Draw.

Lemma permutation_perm (rnd : rng) (n : nat) :
  Permutation (np.permutation rnd n) (seq 0 n).
Proof.
  unfold np.permutation.
  destruct (draw_perm rnd n (seq 0 n)) as [rest H].
  assert (Hlen : length (np.draw rnd n (seq 0 n)) = n).
  { apply draw_length. rewrite length_seq. lia. }
  assert (Hrest : rest = []).
  { apply Permutation_length in H.
    rewrite length_app, Hlen, length_seq in H.
    destruct rest; [reflexivity | simpl in H; lia]. }
  subst rest. rewrite app_nil_r in H. exact H.
Qed.

(** ** Indexing *)

Section Indexing.

Variable A : Type.

Lemma take_map_nth (t : list A) (idx : list nat) (d : A) :
  Forall (fun i => i < length t) idx ->
  np.take t idx = Ok (map (fun i => nth i t d) idx).
Proof.
  induction idx as [| i idx IH]; intro H; simpl.
  - reflexivity.
  - inversion H as [| ? ? Hi Hidx]; subst.
    destruct (nth_error t i) as [r |] eqn:E.
    + rewrite (IH Hidx). simpl.
      rewrite (nth_error_nth _ _ d E). reflexivity.
    + apply nth_error_None in E. lia.
Qed.

Lemma take_Ok_bound (t : list A) (idx : list nat) (rs : list A) :
  np.take t idx = Ok rs -> Forall (fun i => i < length t) idx.
Proof.
  revert rs. induction idx as [| i idx IH]; intros rs H; simpl in H.
  - constructor.
  - destruct (nth_error t i) as [r |] eqn:E; [| discriminate H].
    bind_inv H. constructor.
    + apply nth_error_Some. rewrite E. discriminate.
    + eapply IH. exact Ha.
Qed.

Lemma take_Ok_length (t : list A) (idx : list nat) (rs : list A) :
  np.take t idx = Ok rs -> length rs = length idx.
Proof.
  intro H. destruct t as [| d t'].
  - destruct idx as [| i idx]; simpl in H.
    + inversion H. reflexivity.
    + destruct i; discriminate H.
  - pose proof (take_Ok_bound _ _ H) as Hb.
    rewrite take_map_nth with (d := d) in H by exact Hb.
    inversion H. apply length_map.
Qed.

Lemma mask_rows_length_le (t : list A) (m : list bool) :
  length (np.mask_rows t m) <= length t.
Proof.
  revert m. induction t as [| r t IH]; intro m; simpl.
  - lia.
  - destruct m as [| b m]; simpl; [lia |].
    specialize (IH m). destruct b; simpl; lia.
Qed.

Lemma mask_rows_partition (t : list A) (m : list bool) :
  length t = length m ->
  Permutation (np.mask_rows t m ++ np.mask_rows t (np.invert m)) t.
Proof.
  revert m. induction t as [| r t IH]; intros m H.
  - reflexivity.
  - destruct m as [| b m]; [discriminate H |].
    injection H as H. specialize (IH m H).
    destruct b; simpl.
    + apply perm_skip. exact IH.
    + apply Permutation_sym. apply Permutation_cons_app.
      apply Permutation_sym. exact IH.
Qed.

Lemma map_nth_flatnonzero (d : A) (m : list bool) :
  forall (t pre : list A),
    length m <= length t ->
    map (fun i => nth i (pre ++ t) d) (np.flatnonzero_from (length pre) m)
    = np.mask_rows t m.
Proof.
  induction m as [| b m IH]; intros t pre H.
  - destruct t; reflexivity.
  - destruct t as [| r t]; [simpl in H; lia |].
    simpl in H.
    assert (Htl :
      map (fun i => nth i (pre ++ r :: t) d)
          (np.flatnonzero_from (S (length pre)) m) = np.mask_rows t m).
    { specialize (IH t (pre ++ [r])).
      rewrite length_app, <- app_assoc in IH. simpl in IH.
      rewrite Nat.add_1_r in IH. apply IH. lia. }
    simpl. destruct b; simpl.
    + rewrite Htl. rewrite nth_middle. reflexivity.
    + exact Htl.
Qed.

End Indexing.

Lemma flatnonzero_from_bound (s : nat) (m : list bool) :
  Forall (fun i => s <= i < s + length m) (np.flatnonzero_from s m).
Proof.
  revert s. induction m as [| b m IH]; intro s; simpl.
  - constructor.
  - assert (Htl : Forall (fun i => s <= i < s + S (length m))
                         (np.flatnonzero_from (S s) m)).
    { eapply Forall_impl; [| apply IH]. simpl. intros. lia. }
    destruct b; [constructor; [lia | exact Htl] | exact Htl].
Qed.

Lemma flatnonzero_from_NoDup (s : nat) (m : list bool) :
  NoDup (np.flatnonzero_from s m).
Proof.
  revert s. induction m as [| b m IH]; intro s; simpl.
  - constructor.
  - destruct b; [| apply IH].
    constructor; [| apply IH].
    intro Hin.
    pose proof (flatnonzero_from_bound (S s) m) as Hb.
    rewrite Forall_forall in Hb. specialize (Hb _ Hin). lia.
Qed.

Lemma flatnonzero_from_length (s : nat) (m : list bool) :
  length (np.flatnonzero_from s m) = length (filter (fun b => b) m).
Proof.
  revert s. induction m as [| b m IH]; intro s; simpl.
  - reflexivity.
  - destruct b; simpl; rewrite IH; reflexivity.
Qed.

Lemma flatnonzero_from_partition (s : nat) (m : list bool) :
  Permutation
    (np.flatnonzero_from s m ++ np.flatnonzero_from s (np.invert m))
    (seq s (length m)).
Proof.
  revert s. induction m as [| b m IH]; intro s; simpl.
  - reflexivity.
  - specialize (IH (S s)). destruct b; simpl.
    + apply perm_skip. exact IH.
    + apply Permutation_sym. apply Permutation_cons_app.
      apply Permutation_sym. exact IH.
Qed.

Lemma flatnonzero_from_true (s : nat) (m : list bool) :
  Forall (fun i => nth (i - s) m false = true) (np.flatnonzero_from s m).
Proof.
  revert s. induction m as [| b m IH]; intro s; simpl.
  - constructor.
  - assert (Htl : Forall (fun i => nth (i - s) (b :: m) false = true)
                         (np.flatnonzero_from (S s) m)).
    { pose proof (flatnonzero_from_bound (S s) m) as Hb.
      specialize (IH (S s)).
      rewrite Forall_forall in *. intros i Hi.
      specialize (Hb i Hi). specialize (IH i Hi).
      replace (i - s) with (S (i - S s)) by lia. exact IH. }
    destruct b; [| exact Htl].
    constructor; [| exact Htl].
    rewrite Nat.sub_diag. reflexivity.
Qed.

Lemma take_flatnonzero (A : Type) (t : list A) (m : list bool) :
  length m <= length t ->
  np.take t (np.flatnonzero m) = Ok (np.mask_rows t m).
Proof.
  intro H. destruct t as [| d t'].
  - destruct m; [reflexivity | simpl in H; lia].
  - rewrite take_map_nth with (d := d).
    + f_equal. apply (map_nth_flatnonzero d m (d :: t') [] H).
    + eapply Forall_impl; [| apply flatnonzero_from_bound].
      simpl in *. intros. lia.
Qed.

(** ** The normal/anomaly partition *)

Lemma flatnonzero_from_map (f : Q -> bool) (s : nat) (v : list Q) :
  Forall (fun i => s <= i < s + length v /\ f (nth (i - s) v 0%Q) = true)
         (np.flatnonzero_from s (map f v)).
Proof.
  revert s. induction v as [| x v IH]; intro s; simpl.
  - constructor.
  - assert (Htl :
      Forall (fun i => s <= i < s + S (length v) /\
                       f (nth (i - s) (x :: v) 0%Q) = true)
             (np.flatnonzero_from (S s) (map f v))).
    { eapply Forall_impl; [| apply (IH (S s))].
      intros i [Hi Hf]. split; [lia |].
      replace (i - s) with (S (i - S s)) by lia. exact Hf. }
    destruct (f x) eqn:E; [| exact Htl].
    constructor; [| exact Htl].
    split; [lia |]. rewrite Nat.sub_diag. exact E.
Qed.

Lemma mask_rows_app_l (A : Type) (t u : list A) (m : list bool) :
  length m = length t -> np.mask_rows (t ++ u) m = np.mask_rows t m.
Proof.
  revert m. induction t as [| r t IH]; intros m H.
  - destruct m; [| discriminate H]. destruct u; reflexivity.
  - destruct m as [| b m]; [discriminate H |].
    injection H as H. simpl. rewrite (IH m H). reflexivity.
Qed.

Lemma mask_Ok (A : Type) (t : list A) (m : list bool) :
  length t = length m -> np.mask t m = Ok (np.mask_rows t m).
Proof.
  intro H. unfold np.mask. rewrite H, Nat.eqb_refl. reflexivity.
Qed.

Lemma astype_bool_length (v : list Q) :
  length (np.astype_bool v) = length v.
Proof. apply length_map. Qed.

Lemma invert_length (m : list bool) : length (np.invert m) = length m.
Proof. apply length_map. Qed.

Lemma split_normal_and_anomalies_Ok (s : Split) :
  length (train_data s) = length (train_labels s) ->
  length (test_data s) = length (test_labels s) ->
  _split_normal_and_anomalies s =
  Ok {| normal_train :=
          np.mask_rows (train_data s) (np.astype_bool (train_labels s));
        normal_test :=
          np.mask_rows (test_data s) (np.astype_bool (test_labels s));
        anom_train :=
          np.mask_rows (train_data s)
                       (np.invert (np.astype_bool (train_labels s)));
        anom_test :=
          np.mask_rows (test_data s)
                       (np.invert (np.astype_bool (test_labels s))) |}.
Proof.
  intros Htr Hte. unfold _split_normal_and_anomalies.
  rewrite !mask_Ok
    by (rewrite ?invert_length, ?astype_bool_length; assumption).
  reflexivity.
Qed.

Lemma ExampleData_split_same (s : Split) :
  ExampleData.__split_normal_and_anomalies s = _split_normal_and_anomalies s.
Proof. reflexivity. Qed.

Lemma group_rows_train (s : Split) (m : list bool) :
  length m = length (train_data s) ->
  rows_at (train_data s ++ test_data s) (np.flatnonzero_from 0 m)
  = np.mask_rows (train_data s) m.
Proof.
  intro H. unfold rows_at.
  assert (Hlen : length m <= length (train_data s ++ test_data s)).
  { rewrite length_app, H. apply Nat.le_add_r. }
  transitivity (np.mask_rows (train_data s ++ test_data s) m).
  - exact (map_nth_flatnonzero [] m (train_data s ++ test_data s) [] Hlen).
  - apply mask_rows_app_l. exact H.
Qed.

Lemma group_rows_test (s : Split) (m : list bool) :
  length m = length (test_data s) ->
  rows_at (train_data s ++ test_data s)
          (np.flatnonzero_from (length (train_data s)) m)
  = np.mask_rows (test_data s) m.
Proof.
  intro H. unfold rows_at.
  exact (map_nth_flatnonzero [] m (test_data s) (train_data s)
                              (Nat.eq_le_incl _ _ H)).
Qed.

Lemma group_positions_cover (n1 : nat) (m1 m2 : list bool) :
  length m1 = n1 ->
  Permutation
    (np.flatnonzero_from 0 m1 ++ np.flatnonzero_from 0 (np.invert m1)
     ++ np.flatnonzero_from n1 m2 ++ np.flatnonzero_from n1 (np.invert m2))
    (seq 0 (n1 + length m2)).
Proof.
  intro H. rewrite seq_app. rewrite app_assoc.
  apply Permutation_app.
  - rewrite <- H. apply flatnonzero_from_partition.
  - apply flatnonzero_from_partition.
Qed.

Lemma group_labels (f : Q -> bool) (l1 l2 : list Q) :
  Forall (fun i => f (nth i (l1 ++ l2) 0%Q) = true)
         (np.flatnonzero_from 0 (map f l1)
          ++ np.flatnonzero_from (length l1) (map f l2)).
Proof.
  apply Forall_app. split.
  - eapply Forall_impl; [| apply flatnonzero_from_map].
    intros i [Hi Hf]. rewrite Nat.sub_0_r in Hf.
    rewrite app_nth1 by lia. exact Hf.
  - eapply Forall_impl; [| apply flatnonzero_from_map].
    intros i [Hi Hf]. rewrite app_nth2 by lia. exact Hf.
Qed.

(** C3.  The partitioner splits each of train and test into the rows
    with a truthy label (normal) and the rows with a falsy label
    (anomaly): on aligned tables it returns, normal-train with
    anomaly-train is a rearrangement of train and likewise for test; the
    four groups sit at pairwise different row positions of the stacked
    table train-over-test and their positions together are all of its
    positions; every normal position carries a non-zero label and every
    anomaly position a zero label.  [ExampleData] partitions alike. *)
Theorem partition_groups_cover_train_and_test (s : Split) :
  length (train_data s) = length (train_labels s) ->
  length (test_data s) = length (test_labels s) ->
  let stacked := train_data s ++ test_data s in
  let labels := train_labels s ++ test_labels s in
  let n := length (train_data s) in
  let p_nt := np.flatnonzero_from 0 (np.astype_bool (train_labels s)) in
  let p_at :=
    np.flatnonzero_from 0 (np.invert (np.astype_bool (train_labels s))) in
  let p_ne := np.flatnonzero_from n (np.astype_bool (test_labels s)) in
  let p_ae :=
    np.flatnonzero_from n (np.invert (np.astype_bool (test_labels s))) in
  exists g,
    _split_normal_and_anomalies s = Ok g /\
    ExampleData.__split_normal_and_anomalies s = Ok g /\
    Permutation (normal_train g ++ anom_train g) (train_data s) /\
    Permutation (normal_test g ++ anom_test g) (test_data s) /\
    normal_train g = rows_at stacked p_nt /\
    anom_train g = rows_at stacked p_at /\
    normal_test g = rows_at stacked p_ne /\
    anom_test g = rows_at stacked p_ae /\
    NoDup (p_nt ++ p_at ++ p_ne ++ p_ae) /\
    Permutation (p_nt ++ p_at ++ p_ne ++ p_ae) (seq 0 (length stacked)) /\
    Forall (fun i => Qeq_bool (nth i labels 0%Q) 0 = false) (p_nt ++ p_ne) /\
    Forall (fun i => Qeq_bool (nth i labels 0%Q) 0 = true) (p_at ++ p_ae).
Proof.
  intros Htr Hte stacked labels n p_nt p_at p_ne p_ae.
  assert (Hcover :
    Permutation (p_nt ++ p_at ++ p_ne ++ p_ae) (seq 0 (length stacked))).
  { unfold stacked. rewrite length_app, Hte.
    rewrite <- (astype_bool_length (test_labels s)).
    apply group_positions_cover.
    rewrite astype_bool_length. unfold n. symmetry. exact Htr. }
  eexists. split; [apply split_normal_and_anomalies_Ok; assumption |].
  split; [rewrite ExampleData_split_same;
          apply split_normal_and_anomalies_Ok; assumption |].
  cbn [normal_train anom_train normal_test anom_test].
  repeat split.
  - apply mask_rows_partition. rewrite astype_bool_length. exact Htr.
  - apply mask_rows_partition. rewrite astype_bool_length. exact Hte.
  - symmetry. apply group_rows_train.
    rewrite astype_bool_length. symmetry. exact Htr.
  - symmetry. apply group_rows_train.
    rewrite invert_length, astype_bool_length. symmetry. exact Htr.
  - symmetry. apply group_rows_test.
    rewrite astype_bool_length. symmetry. exact Hte.
  - symmetry. apply group_rows_test.
    rewrite invert_length, astype_bool_length. symmetry. exact Hte.
  - eapply Permutation_NoDup;
      [apply Permutation_sym; exact Hcover | apply seq_NoDup].
  - exact Hcover.
  - unfold p_nt, p_ne, n, np.astype_bool. rewrite Htr.
    eapply Forall_impl;
      [| apply (group_labels (fun l => negb (Qeq_bool l 0))
                             (train_labels s) (test_labels s))].
    intros i Hi. apply negb_true_iff in Hi. exact Hi.
  - unfold p_at, p_ae, n, np.astype_bool, np.invert. rewrite Htr.
    rewrite !map_map.
    eapply Forall_impl;
      [| apply (group_labels (fun l => negb (negb (Qeq_bool l 0)))
                             (train_labels s) (test_labels s))].
    intros i Hi. cbv beta in Hi. rewrite negb_involutive in Hi. exact Hi.
Qed.

(** ** The rebalancing accessor *)

Lemma hstack_expand_dims (X : table) (lab : list Q) :
  length X = length lab ->
  np.hstack X (np.expand_dims lab) = Ok (glue X lab).
Proof.
  revert lab. induction X as [| r X IH]; intros lab H.
  - destruct lab; [reflexivity | discriminate H].
  - destruct lab as [| l lab]; [discriminate H |].
    injection H as H. simpl. rewrite (IH lab H). reflexivity.
Qed.

Lemma col_last_snoc (r : row) (l : Q) (t : table) :
  np.col_last ((r ++ [l]) :: t) = (ls <- np.col_last t ;; Ok (l :: ls)).
Proof.
  cbn [np.col_last].
  destruct (r ++ [l]) as [| c cs] eqn:E.
  - destruct r; discriminate E.
  - rewrite <- E, last_last. reflexivity.
Qed.

Lemma col_last_glue (X : table) (lab : list Q) :
  length X = length lab -> np.col_last (glue X lab) = Ok lab.
Proof.
  revert lab. induction X as [| r X IH]; intros lab H.
  - destruct lab; [reflexivity | discriminate H].
  - destruct lab as [| l lab]; [discriminate H |].
    injection H as H. unfold glue in *. cbn [combine map fst snd].
    rewrite col_last_snoc, (IH lab H). reflexivity.
Qed.

Lemma drop_last_col_glue (X : table) (lab : list Q) :
  length X = length lab -> np.drop_last_col (glue X lab) = X.
Proof.
  revert lab. induction X as [| r X IH]; intros lab H.
  - destruct lab; [reflexivity | discriminate H].
  - destruct lab as [| l lab]; [discriminate H |].
    injection H as H. unfold glue, np.drop_last_col in *. simpl.
    rewrite removelast_last. rewrite (IH lab H). reflexivity.
Qed.

Lemma nth_glue (X : table) (lab : list Q) (i : nat) :
  length X = length lab -> i < length X ->
  nth i (glue X lab) [] = nth i X [] ++ [nth i lab 0%Q].
Proof.
  revert lab i. induction X as [| r X IH]; intros lab i H Hi.
  - simpl in Hi. lia.
  - destruct lab as [| l lab]; [discriminate H |].
    injection H as H. destruct i as [| i].
    + reflexivity.
    + simpl in Hi. apply (IH lab i H). lia.
Qed.

Lemma take_glue (X : table) (lab : list Q) (idx : list nat) :
  length X = length lab ->
  Forall (fun i => i < length X) idx ->
  np.take (glue X lab) idx = Ok (glue (rows_at X idx) (values_at lab idx)).
Proof.
  intros H Hidx.
  assert (Hlen : length (glue X lab) = length X).
  { unfold glue. rewrite length_map, length_combine, <- H. apply Nat.min_id. }
  assert (Hidx' : Forall (fun i => i < length (glue X lab)) idx).
  { eapply Forall_impl; [| exact Hidx].
    intros i Hi. cbv beta. rewrite Hlen. exact Hi. }
  rewrite take_map_nth with (d := @nil Q) by exact Hidx'.
  clear Hidx'.
  apply f_equal. unfold rows_at, values_at.
  induction Hidx as [| i idx Hi Hidx IH].
  - reflexivity.
  - cbn [map]. rewrite IH. rewrite nth_glue by assumption. reflexivity.
Qed.

Lemma glue_app (X1 X2 : table) (l1 l2 : list Q) :
  length X1 = length l1 ->
  glue X1 l1 ++ glue X2 l2 = glue (X1 ++ X2) (l1 ++ l2).
Proof.
  intro H. unfold glue. rewrite <- map_app. f_equal.
  revert l1 H. induction X1 as [| r X1 IH]; intros l1 H.
  - destruct l1; [reflexivity | discriminate H].
  - destruct l1 as [| l l1]; [discriminate H |].
    injection H as H. simpl. rewrite (IH l1 H). reflexivity.
Qed.

Lemma rows_at_length (t : table) (idx : list nat) :
  length (rows_at t idx) = length idx.
Proof. apply length_map. Qed.

Lemma values_at_length (v : list Q) (idx : list nat) :
  length (values_at v idx) = length idx.
Proof. apply length_map. Qed.

Lemma eq_scalar_positions (lab : list Q) (c : Q) :
  Forall (fun i => i < length lab /\ Qeq_bool (nth i lab 0%Q) c = true)
         (np.flatnonzero (np.eq_scalar lab c)).
Proof.
  unfold np.flatnonzero, np.eq_scalar.
  eapply Forall_impl;
    [| apply (flatnonzero_from_map (fun l => Qeq_bool l c) 0 lab)].
  intros i [Hi Hf]. rewrite Nat.sub_0_r in Hf. split; [lia | exact Hf].
Qed.

Lemma eq_scalar_count (lab : list Q) (c : Q) :
  length (np.flatnonzero (np.eq_scalar lab c)) = count_eq c lab.
Proof.
  unfold np.flatnonzero, np.eq_scalar, count_eq.
  rewrite flatnonzero_from_length.
  induction lab as [| l lab IH]; simpl.
  - reflexivity.
  - destruct (Qeq_bool l c); simpl; rewrite IH; reflexivity.
Qed.

(** What the accessor returns, in closed form: the rows and labels of the
    stacked table at the selected positions, label 0 first.  Only the
    stacked table and the stacked labels need to be equally long. *)
Lemma get_normalized_data_stacked (rnd : rng) (s : Split) :
  let X := train_data s ++ test_data s in
  let lab := train_labels s ++ test_labels s in
  let sel := selected_positions rnd lab in
  length X = length lab ->
  get_normalized_data rnd s =
  Ok (rows_at X (fst sel ++ snd sel), values_at lab (fst sel ++ snd sel)).
Proof.
  intros X lab sel HX.
  unfold get_normalized_data, np.vstack.
  unfold np.expand_dims. rewrite <- map_app.
  fold (np.expand_dims (train_labels s ++ test_labels s)).
  fold X. fold lab.
  rewrite (hstack_expand_dims X lab HX). cbn [Py.bind].
  rewrite (col_last_glue X lab HX). cbn [Py.bind].
  pose proof (eq_scalar_positions lab 0) as H0.
  pose proof (eq_scalar_positions lab 1) as H1.
  set (normal_idx := np.flatnonzero (np.eq_scalar lab 0)) in *.
  set (anomaly_idx := np.flatnonzero (np.eq_scalar lab 1)) in *.
  assert (B0 : Forall (fun i => i < length X) normal_idx).
  { eapply Forall_impl; [| exact H0]. intros i [Hi _]. rewrite HX. exact Hi. }
  assert (B1 : Forall (fun i => i < length X) anomaly_idx).
  { eapply Forall_impl; [| exact H1]. intros i [Hi _]. rewrite HX. exact Hi. }
  assert (Hsel : sel =
    if length anomaly_idx <? length normal_idx
    then (np.draw rnd (length anomaly_idx) normal_idx, anomaly_idx)
    else (normal_idx, np.draw rnd (length normal_idx) anomaly_idx)).
  { reflexivity. }
  assert (Bsel : Forall (fun i => i < length X) (fst sel)
                 /\ Forall (fun i => i < length X) (snd sel)).
  { rewrite Hsel.
    destruct (length anomaly_idx <? length normal_idx); cbn [fst snd].
    - split; [| exact B1]. rewrite Forall_forall in *.
      intros i Hi. apply B0. eapply draw_incl. exact Hi.
    - split; [exact B0 |]. rewrite Forall_forall in *.
      intros i Hi. apply B1. eapply draw_incl. exact Hi. }
  destruct Bsel as [Bs0 Bs1].
  assert (Hboth :
    (if length anomaly_idx <? length normal_idx
     then under_sampled_idx <-
            np.choice rnd normal_idx (length anomaly_idx) ;;
          normal <- np.take (glue X lab) under_sampled_idx ;;
          anomaly <- np.take (glue X lab) anomaly_idx ;;
          Ok (normal, anomaly)
     else under_sampled_idx <-
            np.choice rnd anomaly_idx (length normal_idx) ;;
          normal <- np.take (glue X lab) normal_idx ;;
          anomaly <- np.take (glue X lab) under_sampled_idx ;;
          Ok (normal, anomaly))
    = Ok (glue (rows_at X (fst sel)) (values_at lab (fst sel)),
          glue (rows_at X (snd sel)) (values_at lab (snd sel)))).
  { rewrite Hsel in *.
    destruct (Nat.ltb_spec (length anomaly_idx) (length normal_idx)) as [L | L];
      cbn [fst snd] in *.
    - rewrite choice_Ok by lia. cbn [Py.bind].
      rewrite (take_glue X lab HX Bs0). cbn [Py.bind].
      rewrite (take_glue X lab HX Bs1). reflexivity.
    - rewrite choice_Ok by lia. cbn [Py.bind].
      rewrite (take_glue X lab HX Bs0). cbn [Py.bind].
      rewrite (take_glue X lab HX Bs1). reflexivity. }
  rewrite Hboth. cbn [Py.bind fst snd].
  rewrite glue_app
    by (unfold rows_at, values_at; rewrite !length_map; reflexivity).
  assert (Hr : rows_at X (fst sel) ++ rows_at X (snd sel)
               = rows_at X (fst sel ++ snd sel)).
  { unfold rows_at. rewrite map_app. reflexivity. }
  assert (Hv : values_at lab (fst sel) ++ values_at lab (snd sel)
               = values_at lab (fst sel ++ snd sel)).
  { unfold values_at. rewrite map_app. reflexivity. }
  rewrite Hr, Hv.
  assert (Hg : length (rows_at X (fst sel ++ snd sel))
               = length (values_at lab (fst sel ++ snd sel))).
  { unfold rows_at, values_at. rewrite !length_map. reflexivity. }
  rewrite (col_last_glue _ _ Hg). cbn [Py.bind].
  rewrite (drop_last_col_glue _ _ Hg). reflexivity.
Qed.

Lemma get_normalized_data_eq (rnd : rng) (s : Split) :
  length (train_data s) = length (train_labels s) ->
  length (test_data s) = length (test_labels s) ->
  let X := train_data s ++ test_data s in
  let lab := train_labels s ++ test_labels s in
  let sel := selected_positions rnd lab in
  get_normalized_data rnd s =
  Ok (rows_at X (fst sel ++ snd sel), values_at lab (fst sel ++ snd sel)).
Proof.
  intros Htr Hte X lab sel. apply get_normalized_data_stacked.
  rewrite !length_app. congruence.
Qed.

Lemma label_one_not_zero (x : Q) :
  Qeq_bool x 1 = true -> Qeq_bool x 0 = false.
Proof.
  intro H1. destruct (Qeq_bool x 0) eqn:H0; [| reflexivity].
  apply Qeq_bool_iff in H0, H1. rewrite H0 in H1. discriminate H1.
Qed.

Lemma label_zero_not_one (x : Q) :
  Qeq_bool x 0 = true -> Qeq_bool x 1 = false.
Proof.
  intro H0. destruct (Qeq_bool x 1) eqn:H1; [| reflexivity].
  apply label_one_not_zero in H1. congruence.
Qed.

Lemma count_eq_all (c : Q) (v : list Q) :
  Forall (fun l => Qeq_bool l c = true) v -> count_eq c v = length v.
Proof.
  unfold count_eq. induction 1 as [| l v Hl Hv IH]; simpl.
  - reflexivity.
  - rewrite Hl. simpl. rewrite IH. reflexivity.
Qed.

Lemma count_eq_none (c : Q) (v : list Q) :
  Forall (fun l => Qeq_bool l c = false) v -> count_eq c v = 0.
Proof.
  unfold count_eq. induction 1 as [| l v Hl Hv IH]; simpl.
  - reflexivity.
  - rewrite Hl. exact IH.
Qed.

Lemma count_eq_app (c : Q) (u v : list Q) :
  count_eq c (u ++ v) = count_eq c u + count_eq c v.
Proof. unfold count_eq. rewrite filter_app, length_app. reflexivity. Qed.

Lemma values_at_Forall (P : Q -> Prop) (lab : list Q) (idx : list nat) :
  Forall (fun i => P (nth i lab 0%Q)) idx -> Forall P (values_at lab idx).
Proof.
  unfold values_at. induction 1; simpl; constructor; assumption.
Qed.

(** The positions the accessor selects: [k] of each class, each position
    once, the smaller class whole. *)
Lemma selected_positions_spec (rnd : rng) (lab : list Q) :
  let normal_idx := np.flatnonzero (np.eq_scalar lab 0) in
  let anomaly_idx := np.flatnonzero (np.eq_scalar lab 1) in
  let k := Nat.min (count_eq 0 lab) (count_eq 1 lab) in
  let sel := selected_positions rnd lab in
  length (fst sel) = k /\ length (snd sel) = k /\
  incl (fst sel) normal_idx /\ incl (snd sel) anomaly_idx /\
  NoDup (fst sel) /\ NoDup (snd sel) /\
  (count_eq 0 lab <= count_eq 1 lab -> fst sel = normal_idx) /\
  (count_eq 1 lab < count_eq 0 lab -> snd sel = anomaly_idx).
Proof.
  intros normal_idx anomaly_idx k sel.
  pose proof (eq_scalar_count lab 0) as C0.
  pose proof (eq_scalar_count lab 1) as C1.
  fold normal_idx in C0. fold anomaly_idx in C1.
  assert (N0 : NoDup normal_idx) by apply flatnonzero_from_NoDup.
  assert (N1 : NoDup anomaly_idx) by apply flatnonzero_from_NoDup.
  unfold sel, selected_positions.
  fold normal_idx. fold anomaly_idx. unfold k. rewrite <- C0, <- C1.
  destruct (Nat.ltb_spec (length anomaly_idx) (length normal_idx)) as [L | L];
    cbn [fst snd].
  - repeat split.
    + rewrite draw_length by lia. lia.
    + lia.
    + apply draw_incl.
    + apply incl_refl.
    + apply draw_NoDup. exact N0.
    + exact N1.
    + intro. lia.
  - repeat split.
    + lia.
    + rewrite draw_length by lia. lia.
    + apply incl_refl.
    + apply draw_incl.
    + exact N0.
    + apply draw_NoDup. exact N1.
    + intro. lia.
Qed.

Lemma selected_positions_labels (rnd : rng) (lab : list Q) :
  let sel := selected_positions rnd lab in
  Forall (fun i => i < length lab /\ Qeq_bool (nth i lab 0%Q) 0 = true)
         (fst sel) /\
  Forall (fun i => i < length lab /\ Qeq_bool (nth i lab 0%Q) 1 = true)
         (snd sel).
Proof.
  intro sel.
  pose proof (selected_positions_spec rnd lab) as S. cbv zeta in S.
  destruct S as (_ & _ & I0 & I1 & _).
  fold sel in I0, I1.
  split.
  - exact (incl_Forall I0 (eq_scalar_positions lab 0)).
  - exact (incl_Forall I1 (eq_scalar_positions lab 1)).
Qed.



(** C10.  The accessor's output is grouped by class: on aligned
    partitions it returns the selected label-0 rows as one block followed
    by the selected label-1 rows as one block, in the feature matrix and
    in the label vector alike, so every label 0 of the output stands
    before every label 1; nothing is shuffled after the stacking. *)
Theorem get_normalized_data_grouped_by_class (rnd : rng) (s : Split) :
  length (train_data s) = length (train_labels s) ->
  length (test_data s) = length (test_labels s) ->
  let X := train_data s ++ test_data s in
  let lab := train_labels s ++ test_labels s in
  exists data labels sel0 sel1,
    get_normalized_data rnd s = Ok (data, labels) /\
    data = rows_at X sel0 ++ rows_at X sel1 /\
    labels = values_at lab sel0 ++ values_at lab sel1 /\
    Forall (fun l => Qeq_bool l 0 = true) (values_at lab sel0) /\
    Forall (fun l => Qeq_bool l 1 = true) (values_at lab sel1) /\
    (forall i j,
        i < length labels -> j < length labels ->
        Qeq_bool (nth i labels 0%Q) 0 = true ->
        Qeq_bool (nth j labels 0%Q) 1 = true -> i < j).
Proof.
  intros Htr Hte X lab.
  pose proof (get_normalized_data_eq rnd s Htr Hte) as E.
  cbv zeta in E. fold X in E. fold lab in E.
  pose proof (selected_positions_labels rnd lab) as [L0 L1].
  set (sel := selected_positions rnd lab) in *.
  assert (Z0 : Forall (fun l => Qeq_bool l 0 = true) (values_at lab (fst sel))).
  { apply values_at_Forall. eapply Forall_impl; [| exact L0].
    intros i [_ Hi]. exact Hi. }
  assert (O1 : Forall (fun l => Qeq_bool l 1 = true) (values_at lab (snd sel))).
  { apply values_at_Forall. eapply Forall_impl; [| exact L1].
    intros i [_ Hi]. exact Hi. }
  exists (rows_at X (fst sel) ++ rows_at X (snd sel)),
         (values_at lab (fst sel) ++ values_at lab (snd sel)),
         (fst sel), (snd sel).
  split.
  { rewrite E. unfold rows_at, values_at. rewrite !map_app. reflexivity. }
  split; [reflexivity |].
  split; [reflexivity |].
  split; [exact Z0 |].
  split; [exact O1 |].
  intros i j Hi Hj Hzero Hone.
  set (L := values_at lab (fst sel)) in *.
  set (R := values_at lab (snd sel)) in *.
  rewrite Forall_forall in Z0, O1.
  assert (Hi' : i < length L).
  { destruct (Nat.lt_ge_cases i (length L)) as [Hlt | Hge]; [exact Hlt |].
    rewrite app_nth2 in Hzero by exact Hge.
    rewrite length_app in Hi.
    assert (Hin : In (nth (i - length L) R 0%Q) R) by (apply nth_In; lia).
    apply O1 in Hin. apply label_one_not_zero in Hin. congruence. }
  assert (Hj' : length L <= j).
  { destruct (Nat.lt_ge_cases j (length L)) as [Hlt | Hge]; [| exact Hge].
    rewrite app_nth1 in Hone by exact Hlt.
    assert (Hin : In (nth j L 0%Q) L) by (apply nth_In; exact Hlt).
    apply Z0 in Hin. apply label_zero_not_one in Hin. congruence. }
  lia.
Qed.

(** ** The balancer *)

Lemma Qeq_bool_congr (l c c' : Q) :
  (c == c')%Q -> Qeq_bool l c = Qeq_bool l c'.
Proof.
  intro H. destruct (Qeq_bool l c') eqn:E.
  - apply Qeq_bool_iff in E. apply Qeq_bool_iff. rewrite E, H. reflexivity.
  - destruct (Qeq_bool l c) eqn:E'; [| reflexivity].
    apply Qeq_bool_iff in E'. rewrite H in E'.
    apply Qeq_bool_iff in E'. congruence.
Qed.

Lemma eq_scalar_congr (y : list Q) (c c' : Q) :
  (c == c')%Q -> np.eq_scalar y c = np.eq_scalar y c'.
Proof.
  intro H. unfold np.eq_scalar. apply map_ext.
  intro l. apply Qeq_bool_congr. exact H.
Qed.

Lemma Qcompare_congr (l c a b : Q) :
  (l == a)%Q -> (c == b)%Q -> (l ?= c)%Q = (a ?= b)%Q.
Proof. intros Hl Hc. rewrite Hl, Hc. reflexivity. Qed.

(** The classes [np.unique] finds in a vector of zeros and ones. *)
Lemma unique_binary (y : list Q) :
  Forall (fun l => Qeq_bool l 0 = true \/ Qeq_bool l 1 = true) y ->
  match count_eq 0 y, count_eq 1 y with
  | 0, 0 => np.unique y = []
  | S _, 0 => exists c, np.unique y = [c] /\ (c == 0)%Q
  | 0, S _ => exists c, np.unique y = [c] /\ (c == 1)%Q
  | S _, S _ =>
      exists c0 c1, np.unique y = [c0; c1] /\ (c0 == 0)%Q /\ (c1 == 1)%Q
  end.
Proof.
  induction 1 as [| l y Hl Hy IH].
  - reflexivity.
  - unfold count_eq in *. cbn [filter np.unique fold_right].
    fold (np.unique y).
    destruct Hl as [Hl | Hl].
    + rewrite Hl, (label_zero_not_one _ Hl). cbn [length].
      apply Qeq_bool_iff in Hl.
      destruct (length (filter (fun l0 => Qeq_bool l0 0) y)) as [| a];
        destruct (length (filter (fun l0 => Qeq_bool l0 1) y)) as [| b].
      * rewrite IH. exists l. split; [reflexivity | exact Hl].
      * destruct IH as (c & -> & Hc). exists l, c.
        cbn [np.insert_unique]. rewrite (Qcompare_congr Hl Hc).
        split; [reflexivity | split; assumption].
      * destruct IH as (c & -> & Hc). exists c.
        cbn [np.insert_unique]. rewrite (Qcompare_congr Hl Hc).
        split; [reflexivity | exact Hc].
      * destruct IH as (c0 & c1 & -> & Hc0 & Hc1). exists c0, c1.
        cbn [np.insert_unique]. rewrite (Qcompare_congr Hl Hc0).
        split; [reflexivity | split; assumption].
    + rewrite Hl, (label_one_not_zero _ Hl). cbn [length].
      apply Qeq_bool_iff in Hl.
      destruct (length (filter (fun l0 => Qeq_bool l0 0) y)) as [| a];
        destruct (length (filter (fun l0 => Qeq_bool l0 1) y)) as [| b].
      * rewrite IH. exists l. split; [reflexivity | exact Hl].
      * destruct IH as (c & -> & Hc). exists c.
        cbn [np.insert_unique]. rewrite (Qcompare_congr Hl Hc).
        split; [reflexivity | exact Hc].
      * destruct IH as (c & -> & Hc). exists c, l.
        cbn [np.insert_unique]. rewrite (Qcompare_congr Hl Hc).
        split; [reflexivity | split; assumption].
      * destruct IH as (c0 & c1 & -> & Hc0 & Hc1). exists c0, c1.
        cbn [np.insert_unique].
        rewrite (Qcompare_congr Hl Hc0), (Qcompare_congr Hl Hc1).
        split; [reflexivity | split; assumption].
Qed.

Lemma is_integral_binary (y : list Q) :
  Forall (fun l => Qeq_bool l 0 = true \/ Qeq_bool l 1 = true) y ->
  forallb imblearn.is_integral y = true.
Proof.
  intro H. apply forallb_forall. rewrite Forall_forall in H.
  intros l Hin. unfold imblearn.is_integral. apply Qeq_bool_iff.
  destruct (H l Hin) as [E | E]; apply Qeq_bool_iff in E;
    rewrite (Qfloor_comp _ _ E), E; reflexivity.
Qed.

(** [int(m / 0.1)] is [10 * m]. *)
Lemma n_samples_ten (m : nat) :
  Z.to_nat (Qfloor (inject_Z (Z.of_nat m) / (1 # 10))) = 10 * m.
Proof.
  assert (E : (inject_Z (Z.of_nat m) / (1 # 10)
               == inject_Z (Z.of_nat (10 * m)))%Q).
  { unfold Qdiv, Qinv, Qmult, Qeq. simpl. lia. }
  rewrite (Qfloor_comp _ _ E), Qfloor_Z, Nat2Z.id. reflexivity.
Qed.

Lemma sampled_positions (rnd : rng) (k : nat) (idx : list nat) :
  k <= length idx ->
  let pos := np.draw rnd k (seq 0 (length idx)) in
  np.take idx pos = Ok (map (fun p => nth p idx 0) pos)
  /\ length (map (fun p => nth p idx 0) pos) = k
  /\ incl (map (fun p => nth p idx 0) pos) idx
  /\ (NoDup idx -> NoDup (map (fun p => nth p idx 0) pos)).
Proof.
  intros Hk pos.
  assert (Hb : Forall (fun p => p < length idx) pos).
  { apply Forall_forall. intros p Hp.
    apply (draw_incl rnd k (seq 0 (length idx))) in Hp.
    apply in_seq in Hp. lia. }
  split; [apply take_map_nth; exact Hb |].
  split; [rewrite length_map; apply draw_length; rewrite length_seq; exact Hk |].
  split.
  - intros i Hi. apply in_map_iff in Hi. destruct Hi as (p & <- & Hp).
    rewrite Forall_forall in Hb. apply nth_In. apply Hb. exact Hp.
  - intro Hnd. apply NoDup_map_NoDup_ForallPairs.
    + intros p q Hp Hq E. rewrite Forall_forall in Hb.
      apply (proj1 (NoDup_nth idx 0) Hnd p q (Hb p Hp) (Hb q Hq) E).
    + apply draw_NoDup. apply seq_NoDup.
Qed.

(** What the sampler does on a binary target that has ten majority
    rows at least for every minority row, whatever the length of the
    table: it indexes the table with the kept positions of the target. *)
Lemma fit_resample_positions (rnd : rng) (X : table) (y : list Q) :
  X <> [] ->
  binary y ->
  let n0 := count_eq 0 y in
  let n1 := count_eq 1 y in
  0 < Nat.min n0 n1 ->
  10 * Nat.min n0 n1 <= Nat.max n0 n1 ->
  imblearn.fit_resample rnd (1 # 10) X y =
  (X_res <- np.take X (resampled_positions rnd y) ;;
   Ok (X_res, values_at y (resampled_positions rnd y))).
Proof.
  intros HX Hbin n0 n1 Hm HM.
  pose proof (unique_binary Hbin) as U. fold n0 in U. fold n1 in U.
  destruct n0 as [| a] eqn:E0; [simpl in Hm; lia |].
  destruct n1 as [| b] eqn:E1; [rewrite Nat.min_0_r in Hm; lia |].
  destruct U as (c0 & c1 & U & Hc0 & Hc1).
  unfold imblearn.fit_resample, resampled_positions.
  assert (EX : (length X =? 0) = false)
    by (destruct X; [contradiction | reflexivity]).
  rewrite EX, U.
  rewrite (is_integral_binary Hbin). cbn [negb].
  rewrite (eq_scalar_congr y Hc0), (eq_scalar_congr y Hc1).
  pose proof (eq_scalar_positions y 0) as P0.
  pose proof (eq_scalar_positions y 1) as P1.
  pose proof (eq_scalar_count y 0) as C0.
  pose proof (eq_scalar_count y 1) as C1.
  set (idx0 := np.flatnonzero (np.eq_scalar y 0)) in *.
  set (idx1 := np.flatnonzero (np.eq_scalar y 1)) in *.
  unfold n0 in E0. unfold n1 in E1. rewrite E0 in C0. rewrite E1 in C1.
  assert (B0 : Forall (fun i => i < length y) idx0).
  { eapply Forall_impl; [| exact P0]. intros i [Hi _]. exact Hi. }
  assert (B1 : Forall (fun i => i < length y) idx1).
  { eapply Forall_impl; [| exact P1]. intros i [Hi _]. exact Hi. }
  rewrite C0, C1 in *.
  destruct (Nat.leb_spec (S a) (S b)) as [L | L].
  - rewrite Nat.min_l in HM by lia. rewrite Nat.max_r in HM by lia.
    rewrite n_samples_ten.
    destruct (Nat.ltb_spec (S b) (10 * S a)) as [G | G]; [lia |].
    cbn [Py.bind]. rewrite <- C1.
    rewrite choice_Ok by (rewrite length_seq; lia).
    cbn [Py.bind].
    assert (K : 10 * S a <= length idx1) by lia.
    pose proof (@sampled_positions rnd _ _ K) as S. cbv zeta in S.
    destruct S as (T & _ & I & _).
    rewrite T. cbn [Py.bind].
    assert (B : Forall (fun i => i < length y)
                  (idx0 ++ map (fun p => nth p idx1 0)
                     (np.draw rnd (10 * S a) (seq 0 (length idx1))))).
    { apply Forall_app. split; [exact B0 |]. exact (incl_Forall I B1). }
    destruct (np.take X _) as [Xr | e]; cbn [Py.bind]; [| reflexivity].
    rewrite take_map_nth with (d := 0%Q) by exact B.
    reflexivity.
  - rewrite Nat.min_r in HM by lia. rewrite Nat.max_l in HM by lia.
    rewrite n_samples_ten.
    destruct (Nat.ltb_spec (S a) (10 * S b)) as [G | G]; [lia |].
    rewrite <- C0.
    rewrite choice_Ok by (rewrite length_seq; lia).
    cbn [Py.bind].
    assert (K : 10 * S b <= length idx0) by lia.
    pose proof (@sampled_positions rnd _ _ K) as S. cbv zeta in S.
    destruct S as (T & _ & I & _).
    rewrite T. cbn [Py.bind].
    assert (B : Forall (fun i => i < length y)
                  (map (fun p => nth p idx0 0)
                     (np.draw rnd (10 * S b) (seq 0 (length idx0)))
                   ++ idx1)).
    { apply Forall_app. split; [| exact B1]. exact (incl_Forall I B0). }
    destruct (np.take X _) as [Xr | e]; cbn [Py.bind]; [| reflexivity].
    rewrite take_map_nth with (d := 0%Q) by exact B.
    reflexivity.
Qed.

(** The kept positions are positions of the target. *)
Lemma resampled_positions_bound (rnd : rng) (y : list Q) :
  10 * Nat.min (count_eq 0 y) (count_eq 1 y)
  <= Nat.max (count_eq 0 y) (count_eq 1 y) ->
  Forall (fun i => i < length y) (resampled_positions rnd y).
Proof.
  intro HM. unfold resampled_positions.
  pose proof (eq_scalar_positions y 0) as P0.
  pose proof (eq_scalar_positions y 1) as P1.
  pose proof (eq_scalar_count y 0) as C0.
  pose proof (eq_scalar_count y 1) as C1.
  set (idx0 := np.flatnonzero (np.eq_scalar y 0)) in *.
  set (idx1 := np.flatnonzero (np.eq_scalar y 1)) in *.
  assert (B0 : Forall (fun i => i < length y) idx0).
  { eapply Forall_impl; [| exact P0]. intros i [Hi _]. exact Hi. }
  assert (B1 : Forall (fun i => i < length y) idx1).
  { eapply Forall_impl; [| exact P1]. intros i [Hi _]. exact Hi. }
  destruct (Nat.leb_spec (length idx0) (length idx1)) as [L | L].
  - assert (K : 10 * length idx0 <= length idx1) by lia.
    pose proof (@sampled_positions rnd _ _ K) as S. cbv zeta in S.
    destruct S as (_ & _ & I & _).
    apply Forall_app. split; [exact B0 | exact (incl_Forall I B1)].
  - assert (K : 10 * length idx1 <= length idx0) by lia.
    pose proof (@sampled_positions rnd _ _ K) as S. cbv zeta in S.
    destruct S as (_ & _ & I & _).
    apply Forall_app. split; [exact (incl_Forall I B0) | exact B1].
Qed.

(** What the sampler returns on a binary target that has ten majority
    rows at least for every minority row, in closed form. *)
Lemma fit_resample_binary (rnd : rng) (X : table) (y : list Q) :
  length X = length y ->
  binary y ->
  let n0 := count_eq 0 y in
  let n1 := count_eq 1 y in
  0 < Nat.min n0 n1 ->
  10 * Nat.min n0 n1 <= Nat.max n0 n1 ->
  imblearn.fit_resample rnd (1 # 10) X y =
  Ok (rows_at X (resampled_positions rnd y),
      values_at y (resampled_positions rnd y)).
Proof.
  intros HX Hbin n0 n1 Hm HM.
  assert (NX : X <> []).
  { intro E. rewrite E in HX. cbn [length] in HX.
    symmetry in HX. apply length_zero_iff_nil in HX.
    unfold n0, n1 in Hm. rewrite HX in Hm. cbn in Hm. lia. }
  rewrite (fit_resample_positions rnd NX Hbin Hm HM).
  pose proof (resampled_positions_bound rnd y HM) as B.
  rewrite <- HX in B.
  rewrite take_map_nth with (d := @nil Q) by exact B.
  reflexivity.
Qed.

Lemma binary_check (y : list Q) :
  forallb (fun l => Qeq_bool l 0 || Qeq_bool l 1) y = true -> binary y.
Proof.
  intro H. apply Forall_forall. intros l Hl.
  rewrite forallb_forall in H. apply H in Hl.
  apply orb_true_iff in Hl. exact Hl.
Qed.

Lemma NoDup_app_labels (lab : list Q) (a b : list nat) :
  NoDup a -> NoDup b ->
  Forall (fun i => Qeq_bool (nth i lab 0%Q) 0 = true) a ->
  Forall (fun i => Qeq_bool (nth i lab 0%Q) 1 = true) b ->
  NoDup (a ++ b) /\ NoDup (b ++ a).
Proof.
  intros Na Nb Za Ob. rewrite Forall_forall in Za, Ob.
  split; apply NoDup_app; try assumption; intros i Hi Hi'.
  - apply Za in Hi. apply Ob in Hi'.
    apply label_one_not_zero in Hi'. congruence.
  - apply Za in Hi'. apply Ob in Hi.
    apply label_one_not_zero in Hi. congruence.
Qed.

(** The balancer on a binary data set, in full. *)
Lemma under_sample_spec (rnd : rng) (d : Dataset) :
  length (data d) = length (labels d) ->
  binary (labels d) ->
  let n0 := count_eq 0 (labels d) in
  let n1 := count_eq 1 (labels d) in
  let m := Nat.min n0 n1 in
  0 < m ->
  10 * m <= Nat.max n0 n1 ->
  exists d' idx,
    CreditProcessor._under_sample rnd d = Ok d' /\
    data d' = rows_at (data d) idx /\
    labels d' = values_at (labels d) idx /\
    NoDup idx /\
    length (data d') = 11 * m /\ length (labels d') = 11 * m /\
    (n0 <= n1 ->
     incl (np.flatnonzero (np.eq_scalar (labels d) 0)) idx /\
     count_eq 0 (labels d') = m /\ count_eq 1 (labels d') = 10 * m) /\
    (n1 < n0 ->
     incl (np.flatnonzero (np.eq_scalar (labels d) 1)) idx /\
     count_eq 1 (labels d') = m /\ count_eq 0 (labels d') = 10 * m).
Proof.
  intros HX Hbin n0 n1 m Hm HM.
  pose proof (fit_resample_binary rnd (data d) HX Hbin Hm HM) as E.
  set (y := labels d) in *.
  exists {| data := rows_at (data d) (resampled_positions rnd y);
            labels := values_at y (resampled_positions rnd y) |},
         (resampled_positions rnd y).
  split.
  { unfold CreditProcessor._under_sample. fold y. rewrite E. reflexivity. }
  cbn [data labels].
  split; [reflexivity |]. split; [reflexivity |].
  rewrite rows_at_length, values_at_length.
  pose proof (eq_scalar_positions y 0) as P0.
  pose proof (eq_scalar_positions y 1) as P1.
  pose proof (eq_scalar_count y 0) as C0. fold n0 in C0.
  pose proof (eq_scalar_count y 1) as C1. fold n1 in C1.
  assert (N0 : NoDup (np.flatnonzero (np.eq_scalar y 0)))
    by apply flatnonzero_from_NoDup.
  assert (N1 : NoDup (np.flatnonzero (np.eq_scalar y 1)))
    by apply flatnonzero_from_NoDup.
  unfold resampled_positions.
  set (idx0 := np.flatnonzero (np.eq_scalar y 0)) in *.
  set (idx1 := np.flatnonzero (np.eq_scalar y 1)) in *.
  assert (Z0 : Forall (fun i => Qeq_bool (nth i y 0%Q) 0 = true) idx0).
  { eapply Forall_impl; [| exact P0]. intros i [_ Hi]. exact Hi. }
  assert (O1 : Forall (fun i => Qeq_bool (nth i y 0%Q) 1 = true) idx1).
  { eapply Forall_impl; [| exact P1]. intros i [_ Hi]. exact Hi. }
  rewrite C0, C1.
  destruct (Nat.leb_spec n0 n1) as [L | L].
  - assert (Em : m = n0) by (unfold m; lia).
    assert (K : 10 * n0 <= length idx1) by lia.
    pose proof (@sampled_positions rnd _ _ K) as S. cbv zeta in S.
    rewrite C1 in S. destruct S as (_ & SL & SI & SN).
    set (s1 := map (fun p => nth p idx1 0)
                   (np.draw rnd (10 * n0) (seq 0 n1))) in *.
    assert (O1' : Forall (fun i => Qeq_bool (nth i y 0%Q) 1 = true) s1)
      by exact (incl_Forall SI O1).
    split; [exact (proj1 (NoDup_app_labels y N0 (SN N1) Z0 O1')) |].
    split; [rewrite length_app; lia |].
    split; [rewrite length_app; lia |].
    split; [| intro; lia].
    intros _. split; [apply incl_appl; apply incl_refl |].
    unfold values_at. rewrite map_app.
    fold (values_at y idx0). fold (values_at y s1).
    rewrite !count_eq_app.
    rewrite (@count_eq_all 0%Q (values_at y idx0))
      by (apply values_at_Forall; exact Z0).
    rewrite (@count_eq_none 0%Q (values_at y s1))
      by (apply values_at_Forall;
          eapply Forall_impl; [| exact O1']; intro; apply label_one_not_zero).
    rewrite (@count_eq_none 1%Q (values_at y idx0))
      by (apply values_at_Forall;
          eapply Forall_impl; [| exact Z0]; intro; apply label_zero_not_one).
    rewrite (@count_eq_all 1%Q (values_at y s1))
      by (apply values_at_Forall; exact O1').
    rewrite !values_at_length. lia.
  - assert (Em : m = n1) by (unfold m; lia).
    assert (K : 10 * n1 <= length idx0) by lia.
    pose proof (@sampled_positions rnd _ _ K) as S. cbv zeta in S.
    rewrite C0 in S. destruct S as (_ & SL & SI & SN).
    set (s0 := map (fun p => nth p idx0 0)
                   (np.draw rnd (10 * n1) (seq 0 n0))) in *.
    assert (Z0' : Forall (fun i => Qeq_bool (nth i y 0%Q) 0 = true) s0)
      by exact (incl_Forall SI Z0).
    split; [exact (proj1 (NoDup_app_labels y (SN N0) N1 Z0' O1)) |].
    split; [rewrite length_app; lia |].
    split; [rewrite length_app; lia |].
    split; [intro; lia |].
    intros _. split; [apply incl_appr; apply incl_refl |].
    unfold values_at. rewrite map_app.
    fold (values_at y idx1). fold (values_at y s0).
    rewrite !count_eq_app.
    rewrite (@count_eq_all 0%Q (values_at y s0))
      by (apply values_at_Forall; exact Z0').
    rewrite (@count_eq_none 0%Q (values_at y idx1))
      by (apply values_at_Forall;
          eapply Forall_impl; [| exact O1]; intro; apply label_one_not_zero).
    rewrite (@count_eq_none 1%Q (values_at y s0))
      by (apply values_at_Forall;
          eapply Forall_impl; [| exact Z0']; intro; apply label_zero_not_one).
    rewrite (@count_eq_all 1%Q (values_at y idx1))
      by (apply values_at_Forall; exact O1).
    rewrite !values_at_length. lia.
Qed.


(** C1, as the code has it.  The balancer under-samples the majority
    class of a binary (0/1) data set, before any split, to the ratio the
    sampler is configured with: one minority row for ten majority rows.
    For [m >= 1] minority rows and at least [10 * m] majority rows it
    returns, every minority row is kept, the majority count becomes
    [10 * m], so the result has [11 * m] rows (1000 majority and 50
    minority rows become 500 and 50); no row is used twice.  This holds
    for every outcome of the random choice. *)
Theorem under_sample_ten_to_one (rnd : rng) (d : Dataset) :
  length (data d) = length (labels d) ->
  binary (labels d) ->
  let n0 := count_eq 0 (labels d) in
  let n1 := count_eq 1 (labels d) in
  let m := Nat.min n0 n1 in
  0 < m ->
  10 * m <= Nat.max n0 n1 ->
  exists d' idx,
    CreditProcessor._under_sample rnd d = Ok d' /\
    data d' = rows_at (data d) idx /\
    labels d' = values_at (labels d) idx /\
    NoDup idx /\
    length (data d') = 11 * m /\ length (labels d') = 11 * m /\
    (n0 <= n1 ->
     incl (np.flatnonzero (np.eq_scalar (labels d) 0)) idx /\
     count_eq 0 (labels d') = m /\ count_eq 1 (labels d') = 10 * m) /\
    (n1 < n0 ->
     incl (np.flatnonzero (np.eq_scalar (labels d) 1)) idx /\
     count_eq 1 (labels d') = m /\ count_eq 0 (labels d') = 10 * m).
Proof. exact (under_sample_spec rnd d). Qed.

(** C1 as the specification words it fails: were the majority class cut
    down to nine times the minority count, the fraud scenario (50
    minority rows, 1000 majority rows) would come out with 450 majority
    rows; whatever the random choice, the sampler leaves 500. *)
Lemma under_sample_fraud_scenario_keeps_500 :
  length (data fraud_scenario) = length (labels fraud_scenario)
  /\ count_eq 0 (labels fraud_scenario) = 50
  /\ count_eq 1 (labels fraud_scenario) = 1000
  /\ forall rnd : rng,
       exists d',
         CreditProcessor._under_sample rnd fraud_scenario = Ok d'
         /\ count_eq 0 (labels d') = 50
         /\ count_eq 1 (labels d') = 500
         /\ count_eq 1 (labels d') <> 9 * 50.
Proof.
  assert (Hbin : binary (labels fraud_scenario))
    by (apply binary_check; vm_compute; reflexivity).
  assert (Hlen : length (data fraud_scenario) = length (labels fraud_scenario))
    by (vm_compute; reflexivity).
  assert (C0 : count_eq 0 (labels fraud_scenario) = 50)
    by (vm_compute; reflexivity).
  assert (C1 : count_eq 1 (labels fraud_scenario) = 1000)
    by (vm_compute; reflexivity).
  split; [exact Hlen |]. split; [exact C0 |]. split; [exact C1 |].
  intro rnd.
  pose proof (under_sample_spec rnd fraud_scenario Hlen Hbin) as S.
  cbv zeta in S. rewrite C0, C1 in S.
  change (Nat.min 50 1000) with 50 in S.
  change (Nat.max 50 1000) with 1000 in S.
  destruct S as (d' & idx & E & _ & _ & _ & _ & _ & Hmin & _); [lia | lia |].
  destruct Hmin as (_ & K0 & K1); [lia |].
  exists d'. split; [exact E |]. split; [exact K0 |].
  split; [exact K1 |]. rewrite K1. discriminate.
Qed.

(** ** The splitter *)

(** [ceil(0.2 * n)] is [n / 5] rounded up. *)
Lemma n_test_of_fifth (n : nat) : sklearn.n_test_of (2 # 10) n = (n + 4) / 5.
Proof.
  unfold sklearn.n_test_of, Qceiling, Qfloor, Qmult, Qopp, inject_Z.
  cbn [Qnum Qden].
  change (Z.pos (10 * 1)) with 10%Z.
  apply Nat2Z.inj. rewrite Nat2Z.inj_div, Nat2Z.inj_add.
  change (Z.of_nat 4) with 4%Z. change (Z.of_nat 5) with 5%Z.
  pose proof (Nat2Z.is_nonneg n) as Hn.
  rewrite Z2Nat.id.
  - generalize dependent (Z.of_nat n). intros z Hz.
    Z.div_mod_to_equations. lia.
  - generalize dependent (Z.of_nat n). intros z Hz.
    Z.div_mod_to_equations. lia.
Qed.

Lemma fifth_bounds (n : nat) :
  (n + 4) / 5 <= n /\ (n - (n + 4) / 5 = 0 <-> n < 2).
Proof.
  pose proof (Nat.div_mod_eq (n + 4) 5) as E.
  pose proof (Nat.mod_upper_bound (n + 4) 5) as B.
  lia.
Qed.

Lemma split_indices_spec (rnd : rng) (n : nat) :
  let ind := split_indices rnd n in
  length (fst ind) = n - (n + 4) / 5
  /\ length (snd ind) = (n + 4) / 5
  /\ Permutation (fst ind ++ snd ind) (seq 0 n).
Proof.
  intro ind. unfold ind, split_indices. cbn [fst snd].
  pose proof (permutation_perm rnd n) as P.
  pose proof (Permutation_length P) as L. rewrite length_seq in L.
  destruct (fifth_bounds n) as [B _].
  set (p := np.permutation rnd n) in *.
  set (k := (n + 4) / 5) in *.
  assert (Hsk : firstn (n - k) (skipn k p) = skipn k p).
  { apply firstn_all2. rewrite length_skipn. lia. }
  rewrite Hsk. split; [rewrite length_skipn; lia |].
  split; [rewrite length_firstn; lia |].
  eapply perm_trans; [apply Permutation_app_comm |].
  rewrite firstn_skipn. exact P.
Qed.

Lemma split_indices_bound (rnd : rng) (n : nat) :
  Forall (fun i => i < n) (fst (split_indices rnd n))
  /\ Forall (fun i => i < n) (snd (split_indices rnd n)).
Proof.
  destruct (split_indices_spec rnd n) as (_ & _ & P).
  apply Forall_app. apply Forall_forall. intros i Hi.
  apply (Permutation_in _ P) in Hi. apply in_seq in Hi. lia.
Qed.

Lemma rows_at_seq (X : table) : rows_at X (seq 0 (length X)) = X.
Proof.
  unfold rows_at. induction X as [| r X IH]; simpl.
  - reflexivity.
  - f_equal. rewrite <- seq_shift, map_map. exact IH.
Qed.

Lemma labelled_at (X : table) (y : list Q) (idx : list nat) :
  combine (rows_at X idx) (values_at y idx)
  = map (fun i => (nth i X [], nth i y 0%Q)) idx.
Proof.
  unfold rows_at, values_at.
  induction idx as [| i idx IH]; simpl; [| rewrite IH]; reflexivity.
Qed.

Lemma labelled_seq (X : table) (y : list Q) :
  length y = length X ->
  map (fun i => (nth i X [], nth i y 0%Q)) (seq 0 (length X)) = combine X y.
Proof.
  revert y. induction X as [| r X IH]; intros y H.
  - reflexivity.
  - destruct y as [| l y]; [discriminate H |].
    injection H as H. simpl. f_equal.
    rewrite <- seq_shift, map_map. apply IH. exact H.
Qed.

(** A split that returns is the split at [split_indices]. *)
Lemma train_test_split_inv (rnd : rng) (stratify : bool)
    (X : table) (y : list Q) (r : table * table * list Q * list Q) :
  sklearn.train_test_split rnd (2 # 10) stratify X y = Ok r ->
  length y = length X
  /\ 2 <= length X
  /\ r = (rows_at X (fst (split_indices rnd (length X))),
          rows_at X (snd (split_indices rnd (length X))),
          values_at y (fst (split_indices rnd (length X))),
          values_at y (snd (split_indices rnd (length X)))).
Proof.
  unfold sklearn.train_test_split. rewrite n_test_of_fifth.
  destruct (Nat.eqb_spec (length y) (length X)) as [E | E];
    [| discriminate].
  cbn [negb].
  destruct (Nat.eqb_spec (length X - (length X + 4) / 5) 0) as [Z | Z];
    [discriminate |].
  destruct (stratify && negb _); [discriminate |].
  destruct (split_indices_bound rnd (length X)) as [Btr Bte].
  change (firstn (length X - (length X + 4) / 5)
            (skipn ((length X + 4) / 5) (np.permutation rnd (length X))))
    with (fst (split_indices rnd (length X))).
  change (firstn ((length X + 4) / 5) (np.permutation rnd (length X)))
    with (snd (split_indices rnd (length X))).
  assert (Btr' : Forall (fun i => i < length y)
                        (fst (split_indices rnd (length X))))
    by (rewrite E; exact Btr).
  assert (Bte' : Forall (fun i => i < length y)
                        (snd (split_indices rnd (length X))))
    by (rewrite E; exact Bte).
  rewrite (take_map_nth X (@nil Q) Btr). cbn [Py.bind].
  rewrite (take_map_nth X (@nil Q) Bte). cbn [Py.bind].
  rewrite (take_map_nth y 0%Q Btr'). cbn [Py.bind].
  rewrite (take_map_nth y 0%Q Bte'). cbn [Py.bind].
  intro H. injection H as <-.
  split; [exact E |]. split; [| reflexivity].
  apply Nat.nlt_ge. intro Hlt. apply Z. apply fifth_bounds. exact Hlt.
Qed.

(** When the checks of the split pass, it returns. *)
Lemma train_test_split_Ok (rnd : rng) (stratify : bool)
    (X : table) (y : list Q) :
  length y = length X ->
  2 <= length X ->
  (stratify = true ->
   sklearn.stratify_ok y (length X - (length X + 4) / 5)
                       ((length X + 4) / 5) = true) ->
  exists r, sklearn.train_test_split rnd (2 # 10) stratify X y = Ok r.
Proof.
  intros E Hn Hs.
  unfold sklearn.train_test_split. rewrite n_test_of_fifth.
  rewrite E, Nat.eqb_refl. cbn [negb].
  destruct (Nat.eqb_spec (length X - (length X + 4) / 5) 0) as [Z | Z].
  { apply fifth_bounds in Z. lia. }
  assert (G : stratify
              && negb (sklearn.stratify_ok y
                         (length X - (length X + 4) / 5)
                         ((length X + 4) / 5)) = false).
  { destruct stratify; [| reflexivity]. rewrite (Hs eq_refl). reflexivity. }
  rewrite G.
  destruct (split_indices_bound rnd (length X)) as [Btr Bte].
  change (firstn (length X - (length X + 4) / 5)
            (skipn ((length X + 4) / 5) (np.permutation rnd (length X))))
    with (fst (split_indices rnd (length X))).
  change (firstn ((length X + 4) / 5) (np.permutation rnd (length X)))
    with (snd (split_indices rnd (length X))).
  assert (Btr' : Forall (fun i => i < length y)
                        (fst (split_indices rnd (length X))))
    by (rewrite E; exact Btr).
  assert (Bte' : Forall (fun i => i < length y)
                        (snd (split_indices rnd (length X))))
    by (rewrite E; exact Bte).
  rewrite (take_map_nth X (@nil Q) Btr). cbn [Py.bind].
  rewrite (take_map_nth X (@nil Q) Bte). cbn [Py.bind].
  rewrite (take_map_nth y 0%Q Btr'). cbn [Py.bind].
  rewrite (take_map_nth y 0%Q Bte'). cbn [Py.bind].
  eexists. reflexivity.
Qed.

Lemma train_test_split_small (rnd : rng) (stratify : bool)
    (X : table) (y : list Q) :
  length X < 2 ->
  sklearn.train_test_split rnd (2 # 10) stratify X y = Raise ValueError.
Proof.
  intro Hn. unfold sklearn.train_test_split. rewrite n_test_of_fifth.
  destruct (negb (length y =? length X)); [reflexivity |].
  apply fifth_bounds in Hn. rewrite Hn. reflexivity.
Qed.

Lemma train_split_data_inv (rnd : rng) (d : Dataset) (s : Split) :
  _train_split_data rnd d = Ok s
  \/ ExampleData.__train_split_data rnd d = Ok s ->
  length (labels d) = length (data d)
  /\ 2 <= length (data d)
  /\ s = split_at (data d) (labels d)
                  (split_indices rnd (length (data d))).
Proof.
  intros [H | H];
    [unfold _train_split_data in H
    | unfold ExampleData.__train_split_data in H];
    bind_inv H; apply train_test_split_inv in Ha;
    destruct Ha as (E & N & ->); injection H as <-;
    (split; [exact E | split; [exact N | reflexivity]]).
Qed.

Lemma split_at_counts (X : table) (y : list Q) (rnd : rng) :
  length y = length X ->
  let n := length X in
  let s := split_at X y (split_indices rnd n) in
  length (train_data s) = n - (n + 4) / 5
  /\ length (test_data s) = (n + 4) / 5
  /\ length (train_labels s) = n - (n + 4) / 5
  /\ length (test_labels s) = (n + 4) / 5
  /\ Permutation
       (combine (train_data s) (train_labels s)
        ++ combine (test_data s) (test_labels s))
       (combine X y).
Proof.
  intros E n s.
  destruct (split_indices_spec rnd n) as (Ltr & Lte & P).
  unfold s, split_at.
  cbn [train_data test_data train_labels test_labels].
  rewrite !rows_at_length, !values_at_length.
  repeat split; try assumption.
  rewrite !labelled_at, <- map_app, <- (@labelled_seq X y E).
  apply Permutation_map. exact P.
Qed.

(** C6.  The splitter deals a data set of [n] rows, with as many labels,
    into a train and a test partition without dropping or duplicating a
    row: whenever it returns, the labelled rows of train and test
    together are a rearrangement of the labelled rows of the input, the
    test partition has [ceil(n / 5)] rows (20 percent, rounded up) and the
    train partition the other [n - ceil(n / 5)], so the two counts add up
    to [n].  This holds alike for the stratified split of
    [BasePreprocessor] and the plain split of [ExampleData], and for
    every outcome of the shuffle.  The plain split returns for every
    [n >= 2], the stratified one for every [n >= 2] that passes the
    stratification checks; below two rows both raise. *)
Theorem split_drops_and_duplicates_no_row (rnd : rng) (d : Dataset) :
  let n := length (data d) in
  length (labels d) = n ->
  (forall s,
      _train_split_data rnd d = Ok s
      \/ ExampleData.__train_split_data rnd d = Ok s ->
      length (train_data s) + length (test_data s) = n
      /\ length (test_data s) = (n + 4) / 5
      /\ length (train_data s) = n - (n + 4) / 5
      /\ Permutation
           (combine (train_data s) (train_labels s)
            ++ combine (test_data s) (test_labels s))
           (combine (data d) (labels d)))
  /\ (2 <= n -> exists s, ExampleData.__train_split_data rnd d = Ok s)
  /\ (2 <= n ->
      sklearn.stratify_ok (labels d) (n - (n + 4) / 5) ((n + 4) / 5) = true ->
      exists s, _train_split_data rnd d = Ok s)
  /\ (n < 2 ->
      ExampleData.__train_split_data rnd d = Raise ValueError
      /\ _train_split_data rnd d = Raise ValueError).
Proof.
  intros n E. split; [| split; [| split]].
  - intros s H. apply train_split_data_inv in H.
    destruct H as (_ & _ & ->).
    destruct (split_at_counts (data d) (labels d) rnd E)
      as (Ltr & Lte & _ & _ & P).
    cbv zeta in Ltr, Lte, P.
    destruct (fifth_bounds n) as [B _]. unfold n in *.
    repeat split; try assumption. rewrite Ltr, Lte. lia.
  - intro N. unfold ExampleData.__train_split_data.
    destruct (@train_test_split_Ok rnd false (data d) (labels d) E N)
      as [[[[a b] c] e] R]; [discriminate |].
    rewrite R. eexists. reflexivity.
  - intros N S. unfold _train_split_data.
    destruct (@train_test_split_Ok rnd true (data d) (labels d) E N)
      as [[[[a b] c] e] R]; [intros _; exact S |].
    rewrite R. eexists. reflexivity.
  - intro N. unfold ExampleData.__train_split_data, _train_split_data.
    rewrite !train_test_split_small by exact N. split; reflexivity.
Qed.

(** ** The normalisers *)

Lemma fold_left_Qmin_le (l : list Q) (x : Q) :
  (fold_left Qmin l x <= x)%Q
  /\ Forall (fun y => (fold_left Qmin l x <= y)%Q) l.
Proof.
  revert x. induction l as [| a l IH]; intro x; simpl.
  - split; [apply Qle_refl | constructor].
  - destruct (IH (Qmin x a)) as [H1 H2]. split.
    + eapply Qle_trans; [exact H1 | apply Q.le_min_l].
    + constructor; [| exact H2].
      eapply Qle_trans; [exact H1 | apply Q.le_min_r].
Qed.

Lemma fold_left_Qmax_ge (l : list Q) (x : Q) :
  (x <= fold_left Qmax l x)%Q
  /\ Forall (fun y => (y <= fold_left Qmax l x)%Q) l.
Proof.
  revert x. induction l as [| a l IH]; intro x; simpl.
  - split; [apply Qle_refl | constructor].
  - destruct (IH (Qmax x a)) as [H1 H2]. split.
    + eapply Qle_trans; [apply Q.le_max_l | exact H1].
    + constructor; [| exact H2].
      eapply Qle_trans; [apply Q.le_max_r | exact H1].
Qed.

(** Every cell lies between the global minimum and the global maximum. *)
Lemma reduce_min_max_bounds (t : table) :
  Forall (Forall (fun x =>
            (tf.reduce_min t <= x)%Q /\ (x <= tf.reduce_max t)%Q)) t.
Proof.
  assert (H : Forall (fun x =>
            (tf.reduce_min t <= x)%Q /\ (x <= tf.reduce_max t)%Q)
            (concat t)).
  { unfold tf.reduce_min, tf.reduce_max.
    destruct (concat t) as [| x l]; [constructor |].
    destruct (fold_left_Qmin_le l x) as [A1 A2].
    destruct (fold_left_Qmax_ge l x) as [B1 B2].
    constructor; [split; assumption |].
    rewrite Forall_forall in *. intros y Hy. split; auto. }
  rewrite Forall_forall in *. intros r Hr.
  rewrite Forall_forall. intros x Hx. apply H.
  apply in_concat. exists r. split; assumption.
Qed.

Lemma min_max_fraction (lo hi x : Q) :
  (lo < hi)%Q -> (lo <= x)%Q -> (x <= hi)%Q ->
  (0 <= (x - lo) / (hi - lo))%Q /\ ((x - lo) / (hi - lo) <= 1)%Q.
Proof.
  intros Hlt Hlo Hhi.
  assert (Hpos : (0 < hi - lo)%Q) by lra.
  split.
  - apply Qle_shift_div_l; [exact Hpos | lra].
  - apply Qle_shift_div_r; [exact Hpos | lra].
Qed.

Lemma ecg_normalize_eq (F : FloatOps) (s : Split) :
  let lo := tf.reduce_min (train_data s) in
  let hi := tf.reduce_max (train_data s) in
  ECGProcessor._normalize s =
  {| train_data := map (map (min_max_scale lo hi)) (train_data s);
     test_data := map (map (min_max_scale lo hi)) (test_data s);
     train_labels := train_labels s; test_labels := test_labels s |}.
Proof.
  unfold ECGProcessor._normalize, tf.cast, min_max_scale. cbv zeta.
  rewrite !map_map. f_equal; apply map_ext; intro r; apply map_map.
Qed.

Lemma example_normalize_same (F : FloatOps) (s : Split) :
  ExampleData.__normalize s = ECGProcessor._normalize s.
Proof. reflexivity. Qed.

Lemma set_last_col_map (f : Q -> Q) (t : table) (v : list Q) :
  np.col_last t = Ok v ->
  np.set_last_col t (map f v)
  = Ok (map (fun r => removelast r ++ [f (last r 0%Q)]) t).
Proof.
  revert v. induction t as [| r t IH]; intros v H.
  - injection H as <-. reflexivity.
  - cbn [np.col_last] in H. destruct r as [| c r]; [discriminate H |].
    bind_inv H. injection H as <-.
    cbn [map np.set_last_col]. rewrite (IH a Ha). reflexivity.
Qed.

Lemma col_last_length (t : table) (v : list Q) :
  np.col_last t = Ok v -> length v = length t.
Proof.
  revert v. induction t as [| r t IH]; intros v H.
  - injection H as <-. reflexivity.
  - cbn [np.col_last] in H. destruct r as [| c r]; [discriminate H |].
    bind_inv H. injection H as <-. simpl. f_equal. apply IH. exact Ha.
Qed.

Lemma col_last_Ok (t : table) :
  Forall (fun r => r <> []) t -> np.col_last t = Ok (map (fun r => last r 0%Q) t).
Proof.
  induction 1 as [| r t Hr Ht IH].
  - reflexivity.
  - cbn [np.col_last map]. destruct r as [| c r]; [contradiction |].
    rewrite IH. reflexivity.
Qed.

Lemma col_last_Ok_inv (t : table) (v : list Q) :
  np.col_last t = Ok v -> Forall (fun r => r <> []) t.
Proof.
  revert v. induction t as [| r t IH]; intros v H.
  - constructor.
  - cbn [np.col_last] in H. destruct r as [| c r]; [discriminate H |].
    bind_inv H. constructor; [discriminate | exact (IH a Ha)].
Qed.

Lemma transform_Ok_inv (scaler : sklearn.StandardScaler) (col out : list Q) :
  sklearn.transform scaler col = Ok out ->
  col <> []
  /\ out = map (fun x => ((x - sklearn.mean_ scaler)
                          / sklearn.scale_ scaler)%Q) col.
Proof.
  unfold sklearn.transform. destruct col as [| c col]; [discriminate |].
  intro H. injection H as <-. split; [discriminate | reflexivity].
Qed.

(** What the fraud normaliser returns, when it returns. *)
Lemma credit_normalize_inv (F : FloatOps) (s s' : Split) :
  CreditProcessor._normalize s = Ok s' ->
  exists scaler,
    (amounts <- np.col_last (train_data s) ;; sklearn.fit amounts) = Ok scaler
    /\ train_data s <> [] /\ test_data s <> []
    /\ Forall (fun r => r <> []) (train_data s)
    /\ Forall (fun r => r <> []) (test_data s)
    /\ s' = {| train_data := map (standardize_last scaler) (train_data s);
               test_data := map (standardize_last scaler) (test_data s);
               train_labels := train_labels s;
               test_labels := test_labels s |}.
Proof.
  unfold CreditProcessor._normalize. intro H.
  apply bind_Ok in H. destruct H as (tr & Htr & H).
  apply bind_Ok in H. destruct H as (te & Hte & H).
  apply bind_Ok in H. destruct H as (scaler & Hfit & H).
  apply bind_Ok in H. destruct H as (trs & Htrs & H).
  apply bind_Ok in H. destruct H as (train & Htrain & H).
  apply bind_Ok in H. destruct H as (tes & Htes & H).
  apply bind_Ok in H. destruct H as (test & Htest & H).
  injection H as <-.
  apply transform_Ok_inv in Htrs. destruct Htrs as [Ntr ->].
  apply transform_Ok_inv in Htes. destruct Htes as [Nte ->].
  rewrite (set_last_col_map _ _ Htr) in Htrain. injection Htrain as <-.
  rewrite (set_last_col_map _ _ Hte) in Htest. injection Htest as <-.
  exists scaler. rewrite Htr. cbn [Py.bind].
  split; [exact Hfit |].
  split.
  { intro E. apply col_last_length in Htr. rewrite E in Htr.
    destruct tr; [contradiction | discriminate]. }
  split.
  { intro E. apply col_last_length in Hte. rewrite E in Hte.
    destruct te; [contradiction | discriminate]. }
  split; [exact (col_last_Ok_inv _ Htr) |].
  split; [exact (col_last_Ok_inv _ Hte) |].
  unfold tf.cast, standardize_last. rewrite !map_map. reflexivity.
Qed.

(** The fraud normaliser returns on non-empty partitions whose rows have
    a last column. *)
Lemma credit_normalize_Ok (F : FloatOps) (s : Split) :
  train_data s <> [] -> test_data s <> [] ->
  Forall (fun r => r <> []) (train_data s) ->
  Forall (fun r => r <> []) (test_data s) ->
  exists s', CreditProcessor._normalize s = Ok s'.
Proof.
  intros Ntr Nte Ctr Cte. unfold CreditProcessor._normalize.
  rewrite (col_last_Ok Ctr), (col_last_Ok Cte). cbn [Py.bind].
  destruct (train_data s) as [| r tr] eqn:Etr; [contradiction |].
  destruct (test_data s) as [| q te] eqn:Ete; [contradiction |].
  cbn [map sklearn.fit Py.bind sklearn.transform].
  pose proof (@set_last_col_map
    (fun x => ((x - sklearn.mean (last r 0 :: map (fun r0 => last r0 0) tr))
               / (if Qeq_bool
                       (np_sqrt (sklearn.var
                          (last r 0 :: map (fun r0 => last r0 0) tr))) 0
                  then 1
                  else np_sqrt (sklearn.var
                          (last r 0 :: map (fun r0 => last r0 0) tr))))%Q)
    (r :: tr) _ (col_last_Ok Ctr)) as S1.
  cbn [map] in S1. cbn [sklearn.mean_ sklearn.scale_]. rewrite S1.
  cbn [Py.bind].
  pose proof (@set_last_col_map
    (fun x => ((x - sklearn.mean (last r 0 :: map (fun r0 => last r0 0) tr))
               / (if Qeq_bool
                       (np_sqrt (sklearn.var
                          (last r 0 :: map (fun r0 => last r0 0) tr))) 0
                  then 1
                  else np_sqrt (sklearn.var
                          (last r 0 :: map (fun r0 => last r0 0) tr))))%Q)
    (q :: te) _ (col_last_Ok Cte)) as S2.
  cbn [map] in S2. rewrite S2. cbn [Py.bind].
  eexists. reflexivity.
Qed.

Lemma in_unit_interval_min_max (F : FloatOps) (t : table) :
  (forall x y, (x <= y)%Q -> (cast_float32 x <= cast_float32 y)%Q) ->
  (cast_float32 0 == 0)%Q ->
  (cast_float32 1 == 1)%Q ->
  (tf.reduce_min t < tf.reduce_max t)%Q ->
  in_unit_interval
    (map (map (min_max_scale (tf.reduce_min t) (tf.reduce_max t))) t).
Proof.
  intros Hmono H0 H1 Hlt. unfold in_unit_interval.
  apply Forall_map.
  eapply Forall_impl; [| apply (reduce_min_max_bounds t)].
  intros r Hr. apply Forall_map.
  eapply Forall_impl; [| exact Hr].
  intros x [Hlo Hhi]. unfold min_max_scale.
  destruct (min_max_fraction Hlt Hlo Hhi) as [A B].
  split.
  - rewrite <- H0. apply Hmono. exact A.
  - rewrite <- H1. apply Hmono. exact B.
Qed.

(** C4.  Global min-max normalisation puts the training table into the
    closed unit interval: when the minimum of the training table is
    strictly below its maximum, every cell of the normalised training
    table is at least 0 and at most 1, for [ECGProcessor] and for
    [ExampleData].  The cast to single precision enters as a rounding
    that keeps the order and represents 0 and 1.  Nothing is stated for
    the test table. *)
Theorem min_max_train_in_unit_interval (F : FloatOps) (s : Split) :
  (forall x y, (x <= y)%Q -> (cast_float32 x <= cast_float32 y)%Q) ->
  (cast_float32 0 == 0)%Q ->
  (cast_float32 1 == 1)%Q ->
  (tf.reduce_min (train_data s) < tf.reduce_max (train_data s))%Q ->
  in_unit_interval (train_data (ECGProcessor._normalize s))
  /\ in_unit_interval (train_data (ExampleData.__normalize s)).
Proof.
  intros Hmono H0 H1 Hlt.
  change (ExampleData.__normalize s) with (ECGProcessor._normalize s).
  rewrite ecg_normalize_eq.
  cbn [train_data].
  split; apply in_unit_interval_min_max; assumption.
Qed.

(** C2.  The normalisers fit their statistics on the training partition
    alone.  For two states with the same training table and any test
    tables: the ECG normaliser (and that of [ExampleData]) produces the
    same normalised training table, and scales either test table with
    the minimum and maximum of the common training table; the fraud
    normaliser, where it returns on both, produces the same normalised
    training table and standardises either test table with the one
    scaler fitted on the amount column of the common training table. *)
Theorem statistics_fitted_on_train_only (F : FloatOps) (s1 s2 : Split) :
  train_data s1 = train_data s2 ->
  let lo := tf.reduce_min (train_data s1) in
  let hi := tf.reduce_max (train_data s1) in
  train_data (ECGProcessor._normalize s1)
  = train_data (ECGProcessor._normalize s2)
  /\ test_data (ECGProcessor._normalize s1)
     = map (map (min_max_scale lo hi)) (test_data s1)
  /\ test_data (ECGProcessor._normalize s2)
     = map (map (min_max_scale lo hi)) (test_data s2)
  /\ train_data (ExampleData.__normalize s1)
     = train_data (ExampleData.__normalize s2)
  /\ (forall s1' s2',
         CreditProcessor._normalize s1 = Ok s1' ->
         CreditProcessor._normalize s2 = Ok s2' ->
         train_data s1' = train_data s2'
         /\ exists scaler,
              (amounts <- np.col_last (train_data s1) ;;
               sklearn.fit amounts) = Ok scaler
              /\ test_data s1' = map (standardize_last scaler) (test_data s1)
              /\ test_data s2' = map (standardize_last scaler) (test_data s2)).
Proof.
  intros E lo hi.
  change (ExampleData.__normalize s1) with (ECGProcessor._normalize s1).
  change (ExampleData.__normalize s2) with (ECGProcessor._normalize s2).
  rewrite !ecg_normalize_eq.
  cbn [train_data test_data]. unfold lo, hi. rewrite <- E.
  split; [reflexivity |]. split; [reflexivity |].
  split; [reflexivity |]. split; [reflexivity |].
  intros s1' s2' N1 N2.
  apply credit_normalize_inv in N1.
  destruct N1 as (sc1 & F1 & _ & _ & _ & _ & ->).
  apply credit_normalize_inv in N2.
  destruct N2 as (sc2 & F2 & _ & _ & _ & _ & ->).
  rewrite <- E in F2. rewrite F1 in F2. injection F2 as <-.
  cbn [train_data test_data]. rewrite <- E.
  split; [reflexivity |].
  exists sc1. split; [exact F1 |]. split; reflexivity.
Qed.

Lemma standardize_last_cells (F : FloatOps)
    (scaler : sklearn.StandardScaler) (r : row) :
  r <> [] ->
  length (standardize_last scaler r) = length r
  /\ (forall j, j < length r - 1 ->
        nth j (standardize_last scaler r) 0%Q = cast_float32 (nth j r 0%Q))
  /\ last (standardize_last scaler r) 0%Q
     = cast_float32 ((last r 0 - sklearn.mean_ scaler)
                     / sklearn.scale_ scaler)%Q.
Proof.
  intro Hr. unfold standardize_last.
  destruct (exists_last Hr) as (front & c & ->).
  rewrite removelast_last, last_last, map_app. cbn [map].
  rewrite last_last, !length_app, length_map. cbn [length].
  split; [reflexivity |]. split; [| reflexivity].
  intros j Hj.
  rewrite !app_nth1 by (rewrite ?length_map; lia).
  rewrite nth_indep with (d' := cast_float32 0%Q)
    by (rewrite length_map; lia).
  apply map_nth.
Qed.

Lemma fit_of_amounts (F : FloatOps) (t : table)
    (scaler : sklearn.StandardScaler) :
  (amounts <- np.col_last t ;; sklearn.fit amounts) = Ok scaler ->
  let amounts := map (fun r => last r 0%Q) t in
  let std := np_sqrt (sklearn.var amounts) in
  sklearn.mean_ scaler = sklearn.mean amounts
  /\ sklearn.scale_ scaler = (if Qeq_bool std 0 then 1%Q else std).
Proof.
  intros H amounts std. bind_inv H.
  pose proof (col_last_Ok (col_last_Ok_inv _ Ha)) as E.
  rewrite E in Ha. injection Ha as <-. fold amounts in H.
  unfold sklearn.fit in H. fold std in H.
  destruct amounts as [| x amounts']; [discriminate H |].
  injection H as <-. cbn [sklearn.mean_ sklearn.scale_].
  split; reflexivity.
Qed.

(** C9.  The fraud normaliser rescales the last column and nothing else.
    When it returns, the train and the test table keep their shape;
    every cell outside the last column is the old cell cast to single
    precision; and the last cell of every row, in train and in test, is
    [(x - mean) / divisor] of the old last cell, cast likewise.  Here
    [mean] is the mean of the last column of the training table, and
    [divisor] its standard deviation (the square root of the population
    variance) unless that is zero, as on a constant column, where the
    scaler divides by 1 instead. *)
Theorem fraud_normalizer_rescales_last_column_only (F : FloatOps)
    (s s' : Split) :
  CreditProcessor._normalize s = Ok s' ->
  let amounts := map (fun r => last r 0%Q) (train_data s) in
  let mean := sklearn.mean amounts in
  let std := np_sqrt (sklearn.var amounts) in
  let divisor := if Qeq_bool std 0 then 1%Q else std in
  forall t t',
    (t = train_data s /\ t' = train_data s')
    \/ (t = test_data s /\ t' = test_data s') ->
    length t' = length t
    /\ forall i, i < length t ->
         let r := nth i t [] in
         let r' := nth i t' [] in
         length r' = length r
         /\ (forall j, j < length r - 1 ->
               nth j r' 0%Q = cast_float32 (nth j r 0%Q))
         /\ last r' 0%Q = cast_float32 ((last r 0 - mean) / divisor)%Q
         /\ (Qeq_bool std 0 = false ->
             last r' 0%Q = cast_float32 ((last r 0 - mean) / std)%Q)
         /\ (Qeq_bool std 0 = true ->
             last r' 0%Q = cast_float32 ((last r 0 - mean) / 1)%Q).
Proof.
  intros N amounts mean std divisor. apply credit_normalize_inv in N.
  destruct N as (scaler & Hfit & _ & _ & Ctr & Cte & ->).
  destruct (@fit_of_amounts F _ _ Hfit) as [Em Es].
  fold amounts in Em, Es. fold mean in Em. fold std in Es.
  fold divisor in Es.
  cbn [train_data test_data].
  assert (G : forall t, Forall (fun r => r <> []) t ->
    length (map (standardize_last scaler) t) = length t
    /\ forall i, i < length t ->
         let r := nth i t [] in
         let r' := nth i (map (standardize_last scaler) t) [] in
         length r' = length r
         /\ (forall j, j < length r - 1 ->
               nth j r' 0%Q = cast_float32 (nth j r 0%Q))
         /\ last r' 0%Q = cast_float32 ((last r 0 - mean) / divisor)%Q
         /\ (Qeq_bool std 0 = false ->
             last r' 0%Q = cast_float32 ((last r 0 - mean) / std)%Q)
         /\ (Qeq_bool std 0 = true ->
             last r' 0%Q = cast_float32 ((last r 0 - mean) / 1)%Q)).
  { intros t Ct. split; [apply length_map |].
    intros i Hi r r'.
    assert (Er : r' = standardize_last scaler r).
    { unfold r', r.
      rewrite nth_indep with (d' := standardize_last scaler [])
        by (rewrite length_map; exact Hi).
      apply map_nth. }
    rewrite Er.
    assert (Hr : r <> []).
    { rewrite Forall_forall in Ct. apply Ct. apply nth_In. exact Hi. }
    destruct (@standardize_last_cells F scaler r Hr) as (A & B & C).
    rewrite Em, Es in C.
    split; [exact A |]. split; [exact B |]. split; [exact C |].
    split; intro Z; rewrite C; unfold divisor; rewrite Z; reflexivity. }
  intros t t' [[-> ->] | [-> ->]]; apply G; assumption.
Qed.

(** ** Alignment of tables and label vectors *)

Lemma credit_load_aligned (raw : table) (d : Dataset) :
  CreditProcessor.load raw = Ok d ->
  length (data d) = length raw /\ length (labels d) = length raw.
Proof.
  unfold CreditProcessor.load. intro H. bind_inv H. injection H as <-.
  cbn [data labels]. unfold np.inner_cols. rewrite !length_map.
  split; [reflexivity | exact (col_last_length _ Ha)].
Qed.

Lemma ecg_load_aligned (raw : table) (d : Dataset) :
  ECGProcessor.load raw = Ok d ->
  length (data d) = length raw /\ length (labels d) = length raw.
Proof.
  unfold ECGProcessor.load. intro H. bind_inv H. injection H as <-.
  cbn [data labels]. unfold np.drop_last_col. rewrite length_map.
  split; [reflexivity | exact (col_last_length _ Ha)].
Qed.

Lemma fit_resample_aligned (rnd : rng) (alpha : Q) (X : table) (y : list Q)
    (r : table * list Q) :
  imblearn.fit_resample rnd alpha X y = Ok r ->
  length (fst r) = length (snd r).
Proof.
  unfold imblearn.fit_resample.
  destruct (length X =? 0); [discriminate |].
  destruct (np.unique y) as [| c0 [| c1 [| c2 u]]]; try discriminate.
  destruct (negb (forallb imblearn.is_integral y)); [discriminate |].
  cbv zeta. destruct (_ <? _); [discriminate |].
  intro H.
  apply bind_Ok in H. destruct H as (k0 & _ & H).
  apply bind_Ok in H. destruct H as (k1 & _ & H).
  apply bind_Ok in H. destruct H as (Xr & HX & H).
  apply bind_Ok in H. destruct H as (yr & Hy & H).
  injection H as <-. cbn [fst snd].
  rewrite (take_Ok_length _ _ HX), (take_Ok_length _ _ Hy). reflexivity.
Qed.

Lemma under_sample_aligned (rnd : rng) (d d' : Dataset) :
  CreditProcessor._under_sample rnd d = Ok d' ->
  length (data d') = length (labels d').
Proof.
  unfold CreditProcessor._under_sample. intro H. bind_inv H.
  injection H as <-. cbn [data labels].
  exact (fit_resample_aligned _ _ _ _ Ha).
Qed.

Lemma train_split_data_aligned (rnd : rng) (d : Dataset) (s : Split) :
  _train_split_data rnd d = Ok s
  \/ ExampleData.__train_split_data rnd d = Ok s ->
  aligned s.
Proof.
  intro H. apply train_split_data_inv in H. destruct H as (_ & _ & ->).
  unfold aligned, split_at.
  cbn [train_data test_data train_labels test_labels].
  rewrite !rows_at_length, !values_at_length. split; reflexivity.
Qed.

Lemma credit_normalize_aligned (F : FloatOps) (s s' : Split) :
  aligned s -> CreditProcessor._normalize s = Ok s' -> aligned s'.
Proof.
  intros [A B] H. apply credit_normalize_inv in H.
  destruct H as (scaler & _ & _ & _ & _ & _ & ->).
  unfold aligned. cbn [train_data test_data train_labels test_labels].
  rewrite !length_map. split; assumption.
Qed.

Lemma ecg_normalize_aligned (F : FloatOps) (s : Split) :
  aligned s -> aligned (ECGProcessor._normalize s).
Proof.
  intros [A B]. rewrite ecg_normalize_eq. unfold aligned.
  cbn [train_data test_data train_labels test_labels].
  rewrite !length_map. split; assumption.
Qed.

(** C7.  Tables and label vectors stay aligned through the pipeline.
    After loading, the feature table and the label vector have as many
    entries as the raw table has rows; the balancer returns a table and a
    label vector of equal length; either splitter returns train and test
    tables as long as their label vectors; either normaliser keeps them
    so; hence a constructed fraud or ECG preprocessor holds a data table
    as long as its labels and train and test tables as long as
    theirs. *)
Theorem row_count_equals_label_count (F : FloatOps) :
  (forall raw d,
      CreditProcessor.load raw = Ok d \/ ECGProcessor.load raw = Ok d ->
      length (data d) = length raw /\ length (labels d) = length raw)
  /\ (forall rnd d d',
         CreditProcessor._under_sample rnd d = Ok d' ->
         length (data d') = length (labels d'))
  /\ (forall rnd d s,
         _train_split_data rnd d = Ok s
         \/ ExampleData.__train_split_data rnd d = Ok s ->
         length (train_data s) = length (train_labels s)
         /\ length (test_data s) = length (test_labels s))
  /\ (forall s s',
         aligned s -> CreditProcessor._normalize s = Ok s' ->
         length (train_data s') = length (train_labels s')
         /\ length (test_data s') = length (test_labels s'))
  /\ (forall s,
         aligned s ->
         aligned (ECGProcessor._normalize s)
         /\ aligned (ExampleData.__normalize s))
  /\ (forall w p,
         snd (CreditProcessor.__init__ w) = Ok p
         \/ snd (ECGProcessor.__init__ w) = Ok p ->
         length (data (dataset p)) = length (labels (dataset p))
         /\ length (train_data (split p)) = length (train_labels (split p))
         /\ length (test_data (split p)) = length (test_labels (split p))).
Proof.
  split; [| split; [| split; [| split; [| split]]]].
  - intros raw d [H | H];
      [exact (credit_load_aligned _ H) | exact (ecg_load_aligned _ H)].
  - intros rnd d d' H. exact (under_sample_aligned _ _ H).
  - intros rnd d s H. exact (train_split_data_aligned _ _ H).
  - intros s s' A H. exact (@credit_normalize_aligned F s s' A H).
  - intros s A. split; exact (@ecg_normalize_aligned F s A).
  - intros w p [H | H].
    + unfold CreditProcessor.__init__ in H. cbn [snd] in H.
      apply bind_Ok in H. destruct H as (raw & _ & H).
      apply bind_Ok in H. destruct H as (d & _ & H).
      apply bind_Ok in H. destruct H as (balanced & Hb & H).
      apply bind_Ok in H. destruct H as (s & Hs & H).
      apply bind_Ok in H. destruct H as (s' & Hn & H).
      apply bind_Ok in H. destruct H as (g & _ & H).
      injection H as <-. cbn [dataset split].
      split; [exact (under_sample_aligned _ _ Hb) |].
      apply (@credit_normalize_aligned F s s'); [| exact Hn].
      eapply train_split_data_aligned. left. exact Hs.
    + unfold ECGProcessor.__init__ in H. cbn [snd] in H.
      apply bind_Ok in H. destruct H as (raw & _ & H).
      apply bind_Ok in H. destruct H as (d & Hd & H).
      apply bind_Ok in H. destruct H as (s & Hs & H).
      apply bind_Ok in H. destruct H as (g & _ & H).
      injection H as <-. cbn [dataset split].
      destruct (ecg_load_aligned _ Hd) as [D1 D2].
      split; [congruence |].
      apply ecg_normalize_aligned.
      eapply train_split_data_aligned. left. exact Hs.
Qed.

(** The constructors return on the small world. *)
Example constructors_return_on_small_world :
  (exists p,
      snd (@CreditProcessor.__init__ exact_ops small_world) = Ok p
      /\ length (data (dataset p)) = 22
      /\ length (train_data (split p)) = 17
      /\ length (test_data (split p)) = 5)
  /\ (exists p,
         snd (@ECGProcessor.__init__ exact_ops small_world) = Ok p
         /\ length (train_data (split p)) = 8
         /\ length (test_data (split p)) = 2).
Proof.
  split.
  - destruct (snd (@CreditProcessor.__init__ exact_ops small_world))
      as [p | e] eqn:E.
    + exists p. split; [reflexivity |].
      revert E. vm_compute. intro E. injection E as <-.
      repeat split.
    + revert E. vm_compute. discriminate.
  - destruct (snd (@ECGProcessor.__init__ exact_ops small_world))
      as [p | e] eqn:E.
    + exists p. split; [reflexivity |].
      revert E. vm_compute. intro E. injection E as <-.
      repeat split.
    + revert E. vm_compute. discriminate.
Qed.

(** ** The factory *)

(** C8.  The factory is a pure dispatch on the key.  On ['ecg_data'] it
    is the ECG constructor and on ['creditcard_data'] the credit-card
    constructor, whatever these return; on every other key it raises the
    not-found error and nothing is constructed: no file is opened,
    whereas either constructor opens its file first. *)
Theorem data_factory_dispatch (F : FloatOps) (w : World) (key : string) :
  data_factory w "ecg_data" = ECGProcessor.__init__ w
  /\ data_factory w "creditcard_data" = CreditProcessor.__init__ w
  /\ (key <> "ecg_data"%string -> key <> "creditcard_data"%string ->
      data_factory w key = ([], Raise FileNotFoundError))
  /\ fst (ECGProcessor.__init__ w) = [ReadFile (ecg_data_path (config w))]
  /\ fst (CreditProcessor.__init__ w)
     = [ReadFile (credit_data_path (config w))].
Proof.
  split; [reflexivity |]. split; [reflexivity |].
  split; [| split; reflexivity].
  intros Hecg Hcredit.
  unfold data_factory, dict_contains, __data_type_map. cbn [dict_get].
  destruct (String.eqb_spec key "ecg_data") as [E | _]; [contradiction |].
  destruct (String.eqb_spec key "creditcard_data") as [E | _];
    [contradiction |].
  reflexivity.
Qed.

(** * The theorems at concrete inputs *)

Lemma under_sample_ten_to_one_witness :
  length (data small_fraud) = length (labels small_fraud)
  /\ binary (labels small_fraud)
  /\ exists d',
       CreditProcessor._under_sample rng_zero small_fraud = Ok d'
       /\ length (data d') = 22 /\ length (labels d') = 22
       /\ count_eq 0 (labels d') = 2 /\ count_eq 1 (labels d') = 20.
Proof.
  assert (Hlen : length (data small_fraud) = length (labels small_fraud))
    by reflexivity.
  assert (Hbin : binary (labels small_fraud))
    by (apply binary_check; reflexivity).
  assert (Hm : 0 < Nat.min (count_eq 0 (labels small_fraud))
                           (count_eq 1 (labels small_fraud)))
    by (vm_compute; lia).
  assert (HM : 10 * Nat.min (count_eq 0 (labels small_fraud))
                            (count_eq 1 (labels small_fraud))
               <= Nat.max (count_eq 0 (labels small_fraud))
                          (count_eq 1 (labels small_fraud)))
    by (vm_compute; lia).
  split; [exact Hlen |]. split; [exact Hbin |].
  destruct (under_sample_ten_to_one rng_zero small_fraud Hlen Hbin Hm HM)
    as (d' & idx & E & _ & _ & _ & L1 & L2 & Hmin & _).
  assert (Hle : count_eq 0 (labels small_fraud)
                <= count_eq 1 (labels small_fraud))
    by (vm_compute; lia).
  destruct (Hmin Hle) as (_ & K0 & K1).
  exists d'. split; [exact E |]. split; [exact L1 |]. split; [exact L2 |].
  split; [exact K0 | exact K1].
Defined.

Lemma statistics_fitted_on_train_only_witness :
  train_data small_split = train_data small_split_other_test
  /\ test_data small_split <> test_data small_split_other_test
  /\ train_data (@ECGProcessor._normalize exact_ops small_split)
     = train_data (@ECGProcessor._normalize exact_ops small_split_other_test).
Proof.
  assert (E : train_data small_split = train_data small_split_other_test)
    by reflexivity.
  split; [exact E |]. split; [discriminate |].
  exact (proj1 (@statistics_fitted_on_train_only exact_ops small_split
                  small_split_other_test E)).
Defined.

Lemma partition_groups_cover_train_and_test_witness :
  length (train_data small_split) = length (train_labels small_split)
  /\ length (test_data small_split) = length (test_labels small_split)
  /\ exists g,
       _split_normal_and_anomalies small_split = Ok g
       /\ Permutation (normal_train g ++ anom_train g)
                      (train_data small_split)
       /\ Permutation (normal_test g ++ anom_test g)
                      (test_data small_split).
Proof.
  assert (A1 : length (train_data small_split)
               = length (train_labels small_split)) by reflexivity.
  assert (A2 : length (test_data small_split)
               = length (test_labels small_split)) by reflexivity.
  split; [exact A1 |]. split; [exact A2 |].
  destruct (partition_groups_cover_train_and_test small_split A1 A2)
    as (g & E & _ & P1 & P2 & _).
  exists g. split; [exact E |]. split; [exact P1 | exact P2].
Defined.

Lemma min_max_train_in_unit_interval_witness :
  (tf.reduce_min (train_data small_split)
   < tf.reduce_max (train_data small_split))%Q
  /\ in_unit_interval
       (train_data (@ECGProcessor._normalize exact_ops small_split)).
Proof.
  assert (Hlt : (tf.reduce_min (train_data small_split)
                 < tf.reduce_max (train_data small_split))%Q)
    by reflexivity.
  split; [exact Hlt |].
  exact (proj1 (@min_max_train_in_unit_interval exact_ops small_split
                  (fun x y H => H) (Qeq_refl 0) (Qeq_refl 1) Hlt)).
Defined.


Lemma split_drops_and_duplicates_no_row_witness :
  length (labels small_fraud) = length (data small_fraud)
  /\ exists s,
       ExampleData.__train_split_data rng_zero small_fraud = Ok s
       /\ length (train_data s) + length (test_data s) = 27
       /\ length (test_data s) = 6
       /\ length (train_data s) = 21.
Proof.
  assert (E : length (labels small_fraud) = length (data small_fraud))
    by reflexivity.
  split; [exact E |].
  destruct (split_drops_and_duplicates_no_row rng_zero small_fraud E)
    as (Hcount & Hplain & _ & _).
  assert (N : 2 <= length (data small_fraud)) by (vm_compute; lia).
  destruct (Hplain N) as [s Hs].
  destruct (Hcount s (or_intror Hs)) as (L1 & L2 & L3 & _).
  exists s. split; [exact Hs |]. split; [exact L1 |].
  split; [exact L2 | exact L3].
Defined.

Lemma fraud_normalizer_rescales_last_column_only_witness :
  exists s',
    @CreditProcessor._normalize reduced_ops amount_split = Ok s'
    /\ length (train_data s') = 2 /\ length (test_data s') = 1
    /\ nth 0 (nth 0 (train_data s') []) 0%Q = 1%Q
    /\ nth 0 (nth 1 (train_data s') []) 0%Q = 3%Q
    /\ nth 0 (nth 0 (test_data s') []) 0%Q = 7%Q
    /\ Qeq_bool (last (nth 0 (train_data s') []) 0%Q) (-1) = true
    /\ Qeq_bool (last (nth 1 (train_data s') []) 0%Q) 1 = true
    /\ Qeq_bool (last (nth 0 (test_data s') []) 0%Q) 3 = true.
Proof.
  destruct (@CreditProcessor._normalize reduced_ops amount_split)
    as [s' | e] eqn:E.
  - pose proof (@fraud_normalizer_rescales_last_column_only reduced_ops
                  amount_split s' E) as H.
    cbv zeta in H.
    destruct (H _ _ (or_introl (conj eq_refl eq_refl))) as [Ltr Ctr].
    destruct (H _ _ (or_intror (conj eq_refl eq_refl))) as [Lte Cte].
    assert (Z : Qeq_bool
                  (@np_sqrt reduced_ops
                     (sklearn.var (map (fun r => last r 0%Q)
                                       (train_data amount_split)))) 0
                = false) by reflexivity.
    destruct (Ctr 0) as (_ & A0 & _ & S0 & _); [vm_compute; lia |].
    destruct (Ctr 1) as (_ & A1 & _ & S1 & _); [vm_compute; lia |].
    destruct (Cte 0) as (_ & A2 & _ & S2 & _); [vm_compute; lia |].
    exists s'. split; [reflexivity |].
    split; [exact Ltr |]. split; [exact Lte |].
    split; [rewrite A0 by (vm_compute; lia); reflexivity |].
    split; [rewrite A1 by (vm_compute; lia); reflexivity |].
    split; [rewrite A2 by (vm_compute; lia); reflexivity |].
    split; [rewrite (S0 Z); reflexivity |].
    split; [rewrite (S1 Z); reflexivity |].
    rewrite (S2 Z). reflexivity.
  - exfalso. revert E. vm_compute. discriminate.
Defined.

(** On a constant amount column the deviation is zero and the scaler
    divides by 1: the test amount 9 against the training amounts 5 and 5
    becomes 9 - 5 = 4. *)
Example fraud_normalizer_constant_amounts :
  Qeq_bool (@np_sqrt reduced_ops
              (sklearn.var (map (fun r => last r 0%Q)
                                (train_data constant_amount_split)))) 0
  = true
  /\ exists s',
       @CreditProcessor._normalize reduced_ops constant_amount_split = Ok s'
       /\ Qeq_bool (last (nth 0 (train_data s') []) 0%Q) 0 = true
       /\ Qeq_bool (last (nth 0 (test_data s') []) 0%Q) 4 = true.
Proof.
  split; [reflexivity |].
  eexists. split; [vm_compute; reflexivity |].
  split; reflexivity.
Qed.

Lemma get_normalized_data_grouped_by_class_witness :
  length (train_data small_split) = length (train_labels small_split)
  /\ length (test_data small_split) = length (test_labels small_split)
  /\ exists data labels,
       get_normalized_data rng_zero small_split = Ok (data, labels)
       /\ forall i j,
            i < length labels -> j < length labels ->
            Qeq_bool (nth i labels 0%Q) 0 = true ->
            Qeq_bool (nth j labels 0%Q) 1 = true -> i < j.
Proof.
  assert (A1 : length (train_data small_split)
               = length (train_labels small_split)) by reflexivity.
  assert (A2 : length (test_data small_split)
               = length (test_labels small_split)) by reflexivity.
  split; [exact A1 |]. split; [exact A2 |].
  destruct (get_normalized_data_grouped_by_class rng_zero small_split A1 A2)
    as (data & labels & sel0 & sel1 & E & _ & _ & _ & _ & Hord).
  exists data, labels. split; [exact E | exact Hord].
Defined.

(** The bound of C4 is one of the training table only: the test table of
    [small_split] leaves the unit interval. *)
Example test_values_may_leave_unit_interval :
  ~ in_unit_interval
      (test_data (@ECGProcessor._normalize exact_ops small_split)).
Proof.
  intro H. unfold in_unit_interval in H.
  inversion H as [| r t Hr _]; subst.
  inversion Hr as [| x l [_ Hx] _]; subst.
  revert Hx. vm_compute. intro Hx. apply Hx. reflexivity.
Qed.

(** Between nine and ten majority rows per minority row the sampler
    refuses: it would have to add majority rows. *)
Example under_sample_refuses_short_majority :
  CreditProcessor._under_sample rng_zero
    {| data := map (fun i => [inject_Z (Z.of_nat i)]) (seq 0 21);
       labels := repeat 0%Q 2 ++ repeat 1%Q 19 |}
  = Raise ValueError.
Proof. vm_compute. reflexivity. Qed.

(** * Further properties of the code *)

(** ** The rebalancing accessor: errors and edge cases *)

Lemma hstack_expand_dims_mismatch (X : table) (lab : list Q) :
  length X <> length lab ->
  np.hstack X (np.expand_dims lab) = Raise ValueError.
Proof.
  revert lab. induction X as [| r X IH]; intros lab H.
  - destruct lab; [contradiction | reflexivity].
  - destruct lab as [| l lab]; [reflexivity |].
    cbn [np.expand_dims map np.hstack].
    fold (np.expand_dims lab). rewrite IH; [reflexivity |].
    intro E. apply H. simpl. rewrite E. reflexivity.
Qed.

(** On train and test tables of one width, the accessor checks one thing
    only: that the stacked table and the stacked label vector are equally
    long.  When they are it returns rows of that width, with a label
    each, for every outcome of the random choice, also when train and
    test are each misaligned and the differences cancel; when they are
    not it raises the value error of [np.hstack]. *)
Theorem get_normalized_data_raises_iff_lengths_differ
    (rnd : rng) (s : Split) (w : nat) :
  Forall (fun r => length r = w) (train_data s) ->
  Forall (fun r => length r = w) (test_data s) ->
  (length (train_data s) + length (test_data s)
   = length (train_labels s) + length (test_labels s) ->
   exists data labels,
     get_normalized_data rnd s = Ok (data, labels)
     /\ length data = length labels
     /\ Forall (fun r => length r = w) data)
  /\ (length (train_data s) + length (test_data s)
      <> length (train_labels s) + length (test_labels s) ->
      get_normalized_data rnd s = Raise ValueError).
Proof.
  intros Wtr Wte. split.
  - intro H.
    assert (HX : length (train_data s ++ test_data s)
                 = length (train_labels s ++ test_labels s))
      by (rewrite !length_app; exact H).
    pose proof (get_normalized_data_stacked rnd s) as E. cbv zeta in E.
    rewrite E by exact HX.
    eexists. eexists. split; [reflexivity |].
    split; [rewrite rows_at_length, values_at_length; reflexivity |].
    pose proof (selected_positions_labels rnd
                  (train_labels s ++ test_labels s)) as L.
    cbv zeta in L. destruct L as [L0 L1].
    assert (W : Forall (fun r => length r = w)
                  (train_data s ++ test_data s))
      by (apply Forall_app; split; assumption).
    unfold rows_at. apply Forall_map. apply Forall_app. split.
    + eapply Forall_impl; [| exact L0]. intros i [Hi _]. cbv beta.
      rewrite Forall_forall in W. apply W. apply nth_In.
      rewrite HX. exact Hi.
    + eapply Forall_impl; [| exact L1]. intros i [Hi _]. cbv beta.
      rewrite Forall_forall in W. apply W. apply nth_In.
      rewrite HX. exact Hi.
  - intro H. unfold get_normalized_data, np.vstack.
    unfold np.expand_dims at 1 2. rewrite <- map_app.
    fold (np.expand_dims (train_labels s ++ test_labels s)).
    rewrite hstack_expand_dims_mismatch; [reflexivity |].
    rewrite !length_app. exact H.
Qed.





(** ** The balancer: refusals and the order of its output *)

Lemma fit_resample_binary_refused (rnd : rng) (X : table) (y : list Q) :
  binary y ->
  Nat.min (count_eq 0 y) (count_eq 1 y) = 0
  \/ Nat.max (count_eq 0 y) (count_eq 1 y)
     < 10 * Nat.min (count_eq 0 y) (count_eq 1 y) ->
  imblearn.fit_resample rnd (1 # 10) X y = Raise ValueError.
Proof.
  intros Hbin Hbad. unfold imblearn.fit_resample.
  destruct (length X =? 0); [reflexivity |].
  pose proof (unique_binary Hbin) as U.
  pose proof (eq_scalar_count y 0) as C0.
  pose proof (eq_scalar_count y 1) as C1.
  destruct (count_eq 0 y) as [| a] eqn:E0;
    destruct (count_eq 1 y) as [| b] eqn:E1.
  - rewrite U. reflexivity.
  - destruct U as (c & -> & _). reflexivity.
  - destruct U as (c & -> & _). reflexivity.
  - destruct U as (c0 & c1 & -> & Hc0 & Hc1).
    rewrite (is_integral_binary Hbin). cbn [negb].
    rewrite (eq_scalar_congr y Hc0), (eq_scalar_congr y Hc1).
    rewrite C0, C1.
    destruct Hbad as [Hbad | Hbad]; [simpl in Hbad; lia |].
    destruct (Nat.leb_spec (S a) (S b)) as [L | L].
    + rewrite Nat.min_l in Hbad by lia. rewrite Nat.max_r in Hbad by lia.
      rewrite n_samples_ten.
      destruct (Nat.ltb_spec (S b) (10 * S a)) as [G | G];
        [reflexivity | lia].
    + rewrite Nat.min_r in Hbad by lia. rewrite Nat.max_l in Hbad by lia.
      rewrite n_samples_ten.
      destruct (Nat.ltb_spec (S a) (10 * S b)) as [G | G];
        [reflexivity | lia].
Qed.

(** The balancer refuses 0/1 labels with a value error, for every
    outcome of the random choice and whatever the table: when one of the
    two values does not occur (no fraud, or nothing but fraud), and when
    there are fewer than ten majority rows for every minority row. *)
Theorem under_sample_refusals (rnd : rng) (d : Dataset) :
  binary (labels d) ->
  Nat.min (count_eq 0 (labels d)) (count_eq 1 (labels d)) = 0
  \/ Nat.max (count_eq 0 (labels d)) (count_eq 1 (labels d))
     < 10 * Nat.min (count_eq 0 (labels d)) (count_eq 1 (labels d)) ->
  CreditProcessor._under_sample rnd d = Raise ValueError.
Proof.
  intros Hbin Hbad. unfold CreditProcessor._under_sample.
  rewrite fit_resample_binary_refused by assumption. reflexivity.
Qed.

Lemma take_out_of_range (A : Type) (t : list A) (idx : list nat) :
  Exists (fun i => length t <= i) idx ->
  np.take t idx = Raise IndexError.
Proof.
  induction idx as [| i idx IH]; intro H.
  - inversion H.
  - cbn [np.take]. destruct (nth_error t i) as [r |] eqn:E; [| reflexivity].
    inversion H as [? ? Hi | ? ? Hidx]; subst.
    + apply nth_error_None in Hi. congruence.
    + rewrite (IH Hidx). reflexivity.
Qed.

Lemma flatnonzero_from_has (s : nat) (m : list bool) (i : nat) :
  i < length m -> nth i m false = true ->
  In (s + i) (np.flatnonzero_from s m).
Proof.
  revert s i. induction m as [| b m IH]; intros s i Hi Ht.
  - cbn [length] in Hi. lia.
  - cbn [np.flatnonzero_from]. destruct i as [| i].
    + cbn [nth] in Ht. rewrite Ht, Nat.add_0_r. left. reflexivity.
    + cbn [nth length] in Ht, Hi.
      replace (s + S i) with (S s + i) by lia.
      assert (G : In (S s + i) (np.flatnonzero_from (S s) m))
        by (apply IH; [lia | exact Ht]).
      destruct b; [right; exact G | exact G].
Qed.

Lemma eq_scalar_has (y : list Q) (c : Q) (i : nat) :
  i < length y -> Qeq_bool (nth i y 0%Q) c = true ->
  In i (np.flatnonzero (np.eq_scalar y c)).
Proof.
  intros Hi Hc. unfold np.flatnonzero, np.eq_scalar.
  change i with (0 + i). apply flatnonzero_from_has.
  - rewrite length_map. exact Hi.
  - rewrite nth_indep with (d' := Qeq_bool 0 c)
      by (rewrite length_map; exact Hi).
    rewrite (map_nth (fun l => Qeq_bool l c)). exact Hc.
Qed.

(** The balancer never compares the table with the labels.  On 0/1
    labels it would accept, a table with more rows than labels is not
    refused: the rows past the last label are ignored, and the result is
    that of the table cut to the labels.  A table with fewer rows than
    labels is refused with an index error as soon as a row of the
    minority class, which is kept whole, lies past the end of the
    table. *)
Theorem under_sample_does_not_check_alignment (rnd : rng) (d : Dataset) :
  data d <> [] ->
  binary (labels d) ->
  let n0 := count_eq 0 (labels d) in
  let n1 := count_eq 1 (labels d) in
  0 < Nat.min n0 n1 ->
  10 * Nat.min n0 n1 <= Nat.max n0 n1 ->
  (length (labels d) <= length (data d) ->
   exists d',
     CreditProcessor._under_sample rnd d = Ok d'
     /\ CreditProcessor._under_sample rnd
          {| data := firstn (length (labels d)) (data d);
             labels := labels d |} = Ok d'
     /\ length (data d') = 11 * Nat.min n0 n1
     /\ length (labels d') = 11 * Nat.min n0 n1)
  /\ ((exists i,
          length (data d) <= i /\ i < length (labels d)
          /\ Qeq_bool (nth i (labels d) 0%Q)
                      (if n0 <=? n1 then 0%Q else 1%Q) = true) ->
      CreditProcessor._under_sample rnd d = Raise IndexError).
Proof.
  intros NX Hbin n0 n1 Hm HM.
  pose proof (fit_resample_positions rnd NX Hbin Hm HM) as E.
  pose proof (resampled_positions_bound rnd (labels d) HM) as B.
  split.
  - intro Hle.
    set (cut := {| data := firstn (length (labels d)) (data d);
                   labels := labels d |}).
    assert (Hcut : length (data cut) = length (labels cut)).
    { unfold cut. cbn [data labels]. rewrite length_firstn. lia. }
    destruct (under_sample_spec rnd cut Hcut Hbin Hm HM)
      as (d' & idx & R & _ & _ & _ & L1 & L2 & _).
    exists d'. split; [| split; [exact R | split; [exact L1 | exact L2]]].
    rewrite <- R. unfold CreditProcessor._under_sample.
    pose proof (fit_resample_binary rnd (data cut) Hcut Hbin Hm HM) as E2.
    rewrite E, E2. unfold cut. cbn [data labels].
    assert (BX : Forall (fun i => i < length (data d))
                   (resampled_positions rnd (labels d))).
    { eapply Forall_impl; [| exact B]. intros i Hi. cbv beta in Hi |- *. lia. }
    rewrite take_map_nth with (d := @nil Q) by exact BX.
    cbn [Py.bind fst snd]. f_equal. f_equal.
    unfold rows_at. apply map_ext_in. intros i Hi.
    rewrite Forall_forall in B. specialize (B i Hi).
    rewrite nth_firstn.
    destruct (Nat.ltb_spec i (length (labels d))) as [_ | G];
      [reflexivity | lia].
  - intros (i & Hout & Hin & Hc).
    unfold CreditProcessor._under_sample. rewrite E.
    rewrite take_out_of_range; [reflexivity |].
    apply Exists_exists. exists i. split; [| exact Hout].
    unfold resampled_positions. rewrite !eq_scalar_count.
    fold n0. fold n1.
    destruct (n0 <=? n1); apply in_or_app.
    + left. apply eq_scalar_has; assumption.
    + right. apply eq_scalar_has; assumption.
Qed.

Lemma firstn_app_exact (A : Type) (l1 l2 : list A) (n : nat) :
  length l1 = n -> firstn n (l1 ++ l2) = l1.
Proof.
  intros <-. rewrite firstn_app, Nat.sub_diag, firstn_all. cbn [firstn].
  apply app_nil_r.
Qed.

Lemma skipn_app_exact (A : Type) (l1 l2 : list A) (n : nat) :
  length l1 = n -> skipn n (l1 ++ l2) = l2.
Proof.
  intros <-. rewrite skipn_app, Nat.sub_diag, skipn_all. reflexivity.
Qed.

Lemma rows_at_flatnonzero (X : table) (m : list bool) :
  length m <= length X ->
  rows_at X (np.flatnonzero m) = np.mask_rows X m.
Proof.
  intro H. exact (map_nth_flatnonzero [] m X [] H).
Qed.

(** The balanced data set is sorted by class.  With fraud (label 0) as
    the minority, as in the fraud file, the balancer returns the [m]
    fraud rows first, in the order they had, and the [10 * m] sampled
    normal rows after them; with label 1 as the minority the [10 * m]
    sampled rows of label 0 come first and the [m] minority rows last,
    in the order they had. *)
Theorem under_sample_output_sorted_by_class (rnd : rng) (d : Dataset) :
  length (data d) = length (labels d) ->
  binary (labels d) ->
  let n0 := count_eq 0 (labels d) in
  let n1 := count_eq 1 (labels d) in
  0 < Nat.min n0 n1 ->
  10 * Nat.min n0 n1 <= Nat.max n0 n1 ->
  exists d',
    CreditProcessor._under_sample rnd d = Ok d'
    /\ (n0 <= n1 ->
        firstn n0 (data d')
        = np.mask_rows (data d) (np.eq_scalar (labels d) 0)
        /\ Forall (fun l => Qeq_bool l 0 = true) (firstn n0 (labels d'))
        /\ Forall (fun l => Qeq_bool l 1 = true) (skipn n0 (labels d')))
    /\ (n1 < n0 ->
        skipn (10 * n1) (data d')
        = np.mask_rows (data d) (np.eq_scalar (labels d) 1)
        /\ Forall (fun l => Qeq_bool l 0 = true)
                  (firstn (10 * n1) (labels d'))
        /\ Forall (fun l => Qeq_bool l 1 = true)
                  (skipn (10 * n1) (labels d'))).
Proof.
  intros HX Hbin n0 n1 Hm HM.
  pose proof (fit_resample_binary rnd (data d) HX Hbin Hm HM) as E.
  set (y := labels d) in *.
  exists {| data := rows_at (data d) (resampled_positions rnd y);
            labels := values_at y (resampled_positions rnd y) |}.
  split.
  { unfold CreditProcessor._under_sample. fold y. rewrite E. reflexivity. }
  cbn [data labels].
  pose proof (eq_scalar_positions y 0) as P0.
  pose proof (eq_scalar_positions y 1) as P1.
  pose proof (eq_scalar_count y 0) as C0. fold n0 in C0.
  pose proof (eq_scalar_count y 1) as C1. fold n1 in C1.
  assert (M0 : length (np.eq_scalar y 0) <= length (data d))
    by (unfold np.eq_scalar; rewrite length_map, HX; apply Nat.le_refl).
  assert (M1 : length (np.eq_scalar y 1) <= length (data d))
    by (unfold np.eq_scalar; rewrite length_map, HX; apply Nat.le_refl).
  pose proof (rows_at_flatnonzero (data d) (np.eq_scalar y 0) M0) as R0.
  pose proof (rows_at_flatnonzero (data d) (np.eq_scalar y 1) M1) as R1.
  unfold resampled_positions.
  set (idx0 := np.flatnonzero (np.eq_scalar y 0)) in *.
  set (idx1 := np.flatnonzero (np.eq_scalar y 1)) in *.
  assert (Z0 : Forall (fun i => Qeq_bool (nth i y 0%Q) 0 = true) idx0).
  { eapply Forall_impl; [| exact P0]. intros i [_ Hi]. exact Hi. }
  assert (O1 : Forall (fun i => Qeq_bool (nth i y 0%Q) 1 = true) idx1).
  { eapply Forall_impl; [| exact P1]. intros i [_ Hi]. exact Hi. }
  rewrite C0, C1.
  destruct (Nat.leb_spec n0 n1) as [L | L].
  - split; [| intro; lia]. intros _.
    assert (K : 10 * n0 <= length idx1) by lia.
    pose proof (@sampled_positions rnd _ _ K) as S. cbv zeta in S.
    rewrite C1 in S. destruct S as (_ & SL & SI & _).
    set (s1 := map (fun p => nth p idx1 0)
                   (np.draw rnd (10 * n0) (seq 0 n1))) in *.
    unfold rows_at, values_at. rewrite !map_app.
    fold (rows_at (data d) idx0). fold (rows_at (data d) s1).
    fold (values_at y idx0). fold (values_at y s1).
    assert (L0 : length (rows_at (data d) idx0) = n0)
      by (rewrite rows_at_length; exact C0).
    assert (L0' : length (values_at y idx0) = n0)
      by (rewrite values_at_length; exact C0).
    rewrite (firstn_app_exact _ _ L0), (firstn_app_exact _ _ L0').
    rewrite (skipn_app_exact _ _ L0').
    split; [exact R0 |]. split.
    + apply values_at_Forall. exact Z0.
    + apply values_at_Forall. exact (incl_Forall SI O1).
  - split; [intro; lia |]. intros _.
    assert (K : 10 * n1 <= length idx0) by lia.
    pose proof (@sampled_positions rnd _ _ K) as S. cbv zeta in S.
    rewrite C0 in S. destruct S as (_ & SL & SI & _).
    set (s0 := map (fun p => nth p idx0 0)
                   (np.draw rnd (10 * n1) (seq 0 n0))) in *.
    unfold rows_at, values_at. rewrite !map_app.
    fold (rows_at (data d) idx1). fold (rows_at (data d) s0).
    fold (values_at y idx1). fold (values_at y s0).
    assert (L0 : length (rows_at (data d) s0) = 10 * n1)
      by (rewrite rows_at_length; exact SL).
    assert (L0' : length (values_at y s0) = 10 * n1)
      by (rewrite values_at_length; exact SL).
    rewrite (skipn_app_exact _ _ L0), (firstn_app_exact _ _ L0').
    rewrite (skipn_app_exact _ _ L0').
    split; [exact R1 |]. split.
    + apply values_at_Forall. exact (incl_Forall SI Z0).
    + apply values_at_Forall. exact O1.
Qed.

(** ** The splitters: when they raise *)

Lemma train_test_split_misaligned (rnd : rng) (stratify : bool)
    (X : table) (y : list Q) :
  length y <> length X ->
  sklearn.train_test_split rnd (2 # 10) stratify X y = Raise ValueError.
Proof.
  intro H. unfold sklearn.train_test_split.
  destruct (Nat.eqb_spec (length y) (length X)) as [E | _];
    [contradiction | reflexivity].
Qed.

Lemma plain_split_Ok (rnd : rng) (d : Dataset) :
  length (labels d) = length (data d) -> 2 <= length (data d) ->
  exists s, ExampleData.__train_split_data rnd d = Ok s.
Proof.
  intros E N. unfold ExampleData.__train_split_data.
  destruct (@train_test_split_Ok rnd false (data d) (labels d) E N)
    as [[[[a b] c] e] R]; [discriminate |].
  rewrite R. eexists. reflexivity.
Qed.

(** The plain split of [ExampleData] returns exactly when the label
    vector is as long as the table and there are two rows at least; in
    every other case it raises a value error.  No outcome of the shuffle
    makes it raise. *)
Theorem plain_split_returns_iff (rnd : rng) (d : Dataset) :
  (length (labels d) = length (data d) /\ 2 <= length (data d) <->
   exists s, ExampleData.__train_split_data rnd d = Ok s)
  /\ (length (labels d) <> length (data d) \/ length (data d) < 2 ->
      ExampleData.__train_split_data rnd d = Raise ValueError).
Proof.
  split; [split |].
  - intros [E N]. exact (plain_split_Ok rnd d E N).
  - intros [s H].
    destruct (train_split_data_inv rnd d (or_intror H)) as (E & N & _).
    split; assumption.
  - unfold ExampleData.__train_split_data. intros [H | H].
    + rewrite train_test_split_misaligned by exact H. reflexivity.
    + rewrite train_test_split_small by exact H. reflexivity.
Qed.

Lemma insert_unique_has (x : Q) (l : list Q) :
  exists c, In c (np.insert_unique x l) /\ (c == x)%Q.
Proof.
  induction l as [| y l IH]; cbn [np.insert_unique].
  - exists x. split; [left; reflexivity | reflexivity].
  - destruct (x ?= y)%Q eqn:E.
    + apply Qeq_alt in E. exists y.
      split; [left; reflexivity | symmetry; exact E].
    + exists x. split; [left; reflexivity | reflexivity].
    + destruct IH as (c & Hc & Ec). exists c.
      split; [right; exact Hc | exact Ec].
Qed.

Lemma insert_unique_keeps (x c : Q) (l : list Q) :
  In c l -> In c (np.insert_unique x l).
Proof.
  induction l as [| y l IH]; intro H; [contradiction |].
  cbn [np.insert_unique]. destruct (x ?= y)%Q.
  - exact H.
  - right. exact H.
  - destruct H as [-> | H]; [left; reflexivity | right; exact (IH H)].
Qed.

(** Every value of [y] has its class in [np.unique y]. *)
Lemma unique_has_class (y : list Q) (x : Q) :
  In x y -> exists c, In c (np.unique y) /\ (c == x)%Q.
Proof.
  induction y as [| a y IH]; intro H; [contradiction |].
  cbn [np.unique fold_right]. fold (np.unique y).
  destruct H as [-> | H].
  - apply insert_unique_has.
  - destruct (IH H) as (c & Hc & Ec). exists c.
    split; [apply insert_unique_keeps; exact Hc | exact Ec].
Qed.

Lemma count_eq_positive_In (x : Q) (y : list Q) :
  0 < count_eq x y -> exists l, In l y /\ (l == x)%Q.
Proof.
  unfold count_eq. intro H.
  destruct (filter (fun l => Qeq_bool l x) y) as [| l f] eqn:E;
    [simpl in H; lia |].
  assert (Hin : In l (filter (fun l => Qeq_bool l x) y))
    by (rewrite E; left; reflexivity).
  apply filter_In in Hin. destruct Hin as [Hin Hl].
  exists l. split; [exact Hin | apply Qeq_bool_iff; exact Hl].
Qed.

Lemma count_eq_congr (c c' : Q) (y : list Q) :
  (c == c')%Q -> count_eq c y = count_eq c' y.
Proof.
  intro H. unfold count_eq. f_equal. apply filter_ext.
  intro l. apply Qeq_bool_congr. exact H.
Qed.

(** The stratified split of [BasePreprocessor] refuses a label that
    occurs only once: whatever else holds of the data set, and for every
    outcome of the shuffle, it raises a value error. *)
Theorem stratified_split_refuses_lone_class (rnd : rng) (d : Dataset)
    (x : Q) :
  count_eq x (labels d) = 1 ->
  _train_split_data rnd d = Raise ValueError.
Proof.
  intro H1. unfold _train_split_data, sklearn.train_test_split.
  destruct (negb (length (labels d) =? length (data d))); [reflexivity |].
  destruct (_ =? 0); [reflexivity |].
  assert (S : sklearn.stratify_ok (labels d)
                (length (data d) - sklearn.n_test_of (2 # 10) (length (data d)))
                (sklearn.n_test_of (2 # 10) (length (data d))) = false).
  { unfold sklearn.stratify_ok.
    destruct (@count_eq_positive_In x (labels d)) as (l & Hl & El);
      [rewrite H1; lia |].
    destruct (unique_has_class _ _ Hl) as (c & Hc & Ec).
    assert (F : forallb (fun c0 => 2 <=? sklearn.count_class (labels d) c0)
                        (np.unique (labels d)) = false).
    { destruct (forallb _ _) eqn:E; [| reflexivity].
      rewrite forallb_forall in E. specialize (E c Hc).
      unfold sklearn.count_class in E.
      rewrite eq_scalar_count in E.
      rewrite (@count_eq_congr c x (labels d)) in E
        by (rewrite Ec; exact El).
      rewrite H1 in E. discriminate E. }
    rewrite F. reflexivity. }
  rewrite S. reflexivity.
Qed.

(** ** The normalisers: attained bounds, test cells, refusals *)

Lemma Qmin_cases (a b : Q) : Qmin a b = a \/ Qmin a b = b.
Proof.
  unfold Qmin, GenericMinMax.gmin. destruct (a ?= b)%Q; auto.
Qed.

Lemma Qmax_cases (a b : Q) : Qmax a b = a \/ Qmax a b = b.
Proof.
  unfold Qmax, GenericMinMax.gmax. destruct (a ?= b)%Q; auto.
Qed.

Lemma fold_left_Qmin_In (l : list Q) (x : Q) :
  In (fold_left Qmin l x) (x :: l).
Proof.
  revert x. induction l as [| a l IH]; intro x; cbn [fold_left].
  - left. reflexivity.
  - destruct (IH (Qmin x a)) as [H | H].
    + rewrite <- H.
      destruct (Qmin_cases x a) as [E | E]; rewrite E.
      * left. reflexivity.
      * right. left. reflexivity.
    + right. right. exact H.
Qed.

Lemma fold_left_Qmax_In (l : list Q) (x : Q) :
  In (fold_left Qmax l x) (x :: l).
Proof.
  revert x. induction l as [| a l IH]; intro x; cbn [fold_left].
  - left. reflexivity.
  - destruct (IH (Qmax x a)) as [H | H].
    + rewrite <- H.
      destruct (Qmax_cases x a) as [E | E]; rewrite E.
      * left. reflexivity.
      * right. left. reflexivity.
    + right. right. exact H.
Qed.

(** The extrema of a table with different extrema are cells of it. *)
Lemma reduce_min_max_attained (t : table) :
  (tf.reduce_min t < tf.reduce_max t)%Q ->
  (exists r, In r t /\ In (tf.reduce_min t) r)
  /\ (exists r, In r t /\ In (tf.reduce_max t) r).
Proof.
  unfold tf.reduce_min, tf.reduce_max. intro H.
  destruct (concat t) as [| x l] eqn:E.
  - exfalso. revert H. apply Qlt_irrefl.
  - split; apply in_concat; rewrite E.
    + apply fold_left_Qmin_In.
    + apply fold_left_Qmax_In.
Qed.

Lemma cast_congr (F : FloatOps) (x y : Q) :
  (forall a b, (a <= b)%Q -> (cast_float32 a <= cast_float32 b)%Q) ->
  (x == y)%Q -> (cast_float32 x == cast_float32 y)%Q.
Proof.
  intros Hmono E. apply Qle_antisym; apply Hmono; rewrite E; apply Qle_refl.
Qed.

(** Min-max normalisation attains both ends of the unit interval on the
    training table: when the minimum of the training table is below its
    maximum, some cell of the normalised training table is 0 (a cell that
    held the minimum) and some cell is 1 (one that held the maximum). *)
Theorem min_max_attains_zero_and_one (F : FloatOps) (s : Split) :
  (forall x y, (x <= y)%Q -> (cast_float32 x <= cast_float32 y)%Q) ->
  (cast_float32 0 == 0)%Q ->
  (cast_float32 1 == 1)%Q ->
  (tf.reduce_min (train_data s) < tf.reduce_max (train_data s))%Q ->
  (exists r x,
      In r (train_data (ECGProcessor._normalize s))
      /\ In x r /\ (x == 0)%Q)
  /\ (exists r x,
         In r (train_data (ECGProcessor._normalize s))
         /\ In x r /\ (x == 1)%Q).
Proof.
  intros Hmono H0 H1 Hlt. rewrite ecg_normalize_eq. cbn [train_data].
  destruct (reduce_min_max_attained _ Hlt) as [(r0 & R0 & C0) (r1 & R1 & C1)].
  set (lo := tf.reduce_min (train_data s)) in *.
  set (hi := tf.reduce_max (train_data s)) in *.
  split.
  - exists (map (min_max_scale lo hi) r0), (min_max_scale lo hi lo).
    split; [apply in_map; exact R0 |].
    split; [apply in_map; exact C0 |].
    unfold min_max_scale. rewrite <- H0. apply cast_congr; [exact Hmono |].
    field. lra.
  - exists (map (min_max_scale lo hi) r1), (min_max_scale lo hi hi).
    split; [apply in_map; exact R1 |].
    split; [apply in_map; exact C1 |].
    unfold min_max_scale. rewrite <- H1. apply cast_congr; [exact Hmono |].
    field. lra.
Qed.

Lemma nth_map_map (f : Q -> Q) (t : table) (i j : nat) :
  i < length t -> j < length (nth i t []) ->
  nth j (nth i (map (map f) t) []) 0%Q = f (nth j (nth i t []) 0%Q).
Proof.
  intros Hi Hj.
  rewrite nth_indep with (d' := map f []) by (rewrite length_map; exact Hi).
  rewrite (map_nth (map f)).
  rewrite nth_indep with (d' := f 0%Q) by (rewrite length_map; exact Hj).
  apply map_nth.
Qed.

(** Where a normalised test cell lies is decided by where the cell lay
    relative to the training table: a test cell within the range of the
    training table ends in the unit interval, one at or above the
    training maximum ends at or above 1, one at or below the training
    minimum ends at or below 0. *)
Theorem min_max_test_cell_position (F : FloatOps) (s : Split) :
  (forall x y, (x <= y)%Q -> (cast_float32 x <= cast_float32 y)%Q) ->
  (cast_float32 0 == 0)%Q ->
  (cast_float32 1 == 1)%Q ->
  (tf.reduce_min (train_data s) < tf.reduce_max (train_data s))%Q ->
  forall i j,
    i < length (test_data s) -> j < length (nth i (test_data s) []) ->
    let lo := tf.reduce_min (train_data s) in
    let hi := tf.reduce_max (train_data s) in
    let x := nth j (nth i (test_data s) []) 0%Q in
    let x' := nth j (nth i (test_data (ECGProcessor._normalize s)) []) 0%Q in
    ((lo <= x)%Q -> (x <= hi)%Q -> (0 <= x')%Q /\ (x' <= 1)%Q)
    /\ ((hi <= x)%Q -> (1 <= x')%Q)
    /\ ((x <= lo)%Q -> (x' <= 0)%Q).
Proof.
  intros Hmono H0 H1 Hlt i j Hi Hj lo hi x x'.
  assert (Ex : x' = min_max_scale lo hi x).
  { unfold x'. rewrite ecg_normalize_eq. cbn [test_data].
    apply nth_map_map; assumption. }
  rewrite Ex. unfold min_max_scale.
  assert (Hpos : (0 < hi - lo)%Q) by (unfold lo, hi; lra).
  split; [| split].
  - intros A B. destruct (min_max_fraction Hlt A B) as [P Q].
    split.
    + rewrite <- H0. apply Hmono. exact P.
    + rewrite <- H1. apply Hmono. exact Q.
  - intro A. rewrite <- H1. apply Hmono.
    apply Qle_shift_div_l; [exact Hpos | lra].
  - intro A. rewrite <- H0. apply Hmono.
    apply Qle_shift_div_r; [exact Hpos | lra].
Qed.

Lemma col_last_raises_IndexError (t : table) (e : exn) :
  np.col_last t = Raise e -> e = IndexError.
Proof.
  induction t as [| r t IH]; cbn [np.col_last]; [discriminate |].
  destruct r as [| c r]; [intro H; injection H as <-; reflexivity |].
  destruct (np.col_last t) as [v | e']; cbn [Py.bind]; [discriminate |].
  intro H. injection H as <-. apply IH. reflexivity.
Qed.

Lemma col_last_empty_row (t : table) :
  Exists (fun r => r = []) t -> np.col_last t = Raise IndexError.
Proof.
  intro H. destruct (np.col_last t) as [v | e] eqn:E.
  - apply col_last_Ok_inv in E. rewrite Forall_forall in E.
    apply Exists_exists in H. destruct H as (r & Hr & ->).
    exfalso. exact (E [] Hr eq_refl).
  - apply col_last_raises_IndexError in E. rewrite E. reflexivity.
Qed.

(** The fraud normaliser returns exactly on non-empty train and test
    tables whose rows have a last column.  A row without columns, in
    either table, makes it raise an index error; with columns in place,
    an empty train or test table makes it raise the value error of the
    scaler. *)
Theorem fraud_normalizer_returns_iff (F : FloatOps) (s : Split) :
  (train_data s <> [] /\ test_data s <> []
   /\ Forall (fun r => r <> []) (train_data s)
   /\ Forall (fun r => r <> []) (test_data s)
   <-> exists s', CreditProcessor._normalize s = Ok s')
  /\ (Exists (fun r => r = []) (train_data s)
      \/ Exists (fun r => r = []) (test_data s) ->
      CreditProcessor._normalize s = Raise IndexError)
  /\ (Forall (fun r => r <> []) (train_data s) ->
      Forall (fun r => r <> []) (test_data s) ->
      train_data s = [] \/ test_data s = [] ->
      CreditProcessor._normalize s = Raise ValueError).
Proof.
  split; [split | split].
  - intros (A & B & C & D). apply credit_normalize_Ok; assumption.
  - intros [s' H]. apply credit_normalize_inv in H.
    destruct H as (_ & _ & A & B & C & D & _). repeat split; assumption.
  - intro H. unfold CreditProcessor._normalize.
    destruct (np.col_last (train_data s)) as [v | e] eqn:E.
    + destruct H as [H | H].
      * rewrite (col_last_empty_row H) in E. discriminate E.
      * cbn [Py.bind]. rewrite (col_last_empty_row H). reflexivity.
    + apply col_last_raises_IndexError in E. rewrite E. reflexivity.
  - intros C D H. unfold CreditProcessor._normalize.
    rewrite (col_last_Ok C), (col_last_Ok D). cbn [Py.bind].
    destruct (train_data s) as [| r tr] eqn:Etr; [reflexivity |].
    destruct H as [H | H]; [discriminate H |]. rewrite H.
    cbn [map sklearn.fit Py.bind sklearn.transform].
    destruct (np.set_last_col (r :: tr) _) as [u | e] eqn:Eu;
      [reflexivity |].
    exfalso.
    pose proof (@set_last_col_map
      (fun x => ((x - sklearn.mean (last r 0 :: map (fun r0 => last r0 0) tr))
                 / (if Qeq_bool
                         (np_sqrt (sklearn.var
                            (last r 0 :: map (fun r0 => last r0 0) tr))) 0
                    then 1
                    else np_sqrt (sklearn.var
                            (last r 0 :: map (fun r0 => last r0 0) tr))))%Q)
      (r :: tr) _ (col_last_Ok C)) as S1.
    cbn [map] in S1. cbn [sklearn.mean_ sklearn.scale_] in Eu.
    rewrite S1 in Eu. discriminate Eu.
Qed.

(** ** The constructors *)

(** A constructor that finds no file raises the not-found error after
    the one read it attempted, and the factory hands this on unchanged:
    for a known key whose file is missing the factory raises the same
    error as for an unknown key, and only the attempted read tells the
    two apart. *)
Theorem missing_file_propagates (F : FloatOps) (w : World) :
  (files w (credit_data_path (config w)) = None ->
   CreditProcessor.__init__ w
   = ([ReadFile (credit_data_path (config w))], Raise FileNotFoundError)
   /\ data_factory w "creditcard_data"
      = ([ReadFile (credit_data_path (config w))], Raise FileNotFoundError))
  /\ (files w (ecg_data_path (config w)) = None ->
      ECGProcessor.__init__ w
      = ([ReadFile (ecg_data_path (config w))], Raise FileNotFoundError)
      /\ data_factory w "ecg_data"
         = ([ReadFile (ecg_data_path (config w))], Raise FileNotFoundError)).
Proof.
  split; intro H.
  - assert (E : CreditProcessor.__init__ w
                = ([ReadFile (credit_data_path (config w))],
                   Raise FileNotFoundError)).
    { unfold CreditProcessor.__init__, BasePreprocessor.__init__, read_table.
      rewrite H. reflexivity. }
    split; [exact E |].
    change (data_factory w "creditcard_data")
      with (CreditProcessor.__init__ w). exact E.
  - assert (E : ECGProcessor.__init__ w
                = ([ReadFile (ecg_data_path (config w))],
                   Raise FileNotFoundError)).
    { unfold ECGProcessor.__init__, BasePreprocessor.__init__, read_table.
      rewrite H. reflexivity. }
    split; [exact E |].
    change (data_factory w "ecg_data") with (ECGProcessor.__init__ w).
    exact E.
Qed.

(** The stages a constructed preprocessor went through. *)
Lemma credit_init_inv (F : FloatOps) (w : World) (p : BasePreprocessor.t) :
  snd (CreditProcessor.__init__ w) = Ok p ->
  exists d s,
    files w (credit_data_path (config w)) = Some (raw_data p)
    /\ CreditProcessor.load (raw_data p) = Ok d
    /\ CreditProcessor._under_sample (rng_under_sample w) d = Ok (dataset p)
    /\ _train_split_data (rng_split w) (dataset p) = Ok s
    /\ CreditProcessor._normalize s = Ok (split p)
    /\ _split_normal_and_anomalies (split p) = Ok (groups p)
    /\ name p = "Credit Card"%string.
Proof.
  unfold CreditProcessor.__init__, BasePreprocessor.__init__, read_table.
  cbn [snd]. intro H.
  destruct (files w (credit_data_path (config w))) as [raw |] eqn:Ef;
    [| discriminate H].
  cbn [Py.bind] in H.
  apply bind_Ok in H. destruct H as (d & Hd & H).
  apply bind_Ok in H. destruct H as (balanced & Hb & H).
  apply bind_Ok in H. destruct H as (s & Hs & H).
  apply bind_Ok in H. destruct H as (s' & Hn & H).
  apply bind_Ok in H. destruct H as (g & Hg & H).
  injection H as <-. cbn [raw_data dataset split groups name].
  exists d, s. repeat split; assumption.
Qed.

Lemma ecg_init_inv (F : FloatOps) (w : World) (p : BasePreprocessor.t) :
  snd (ECGProcessor.__init__ w) = Ok p ->
  exists s,
    files w (ecg_data_path (config w)) = Some (raw_data p)
    /\ ECGProcessor.load (raw_data p) = Ok (dataset p)
    /\ _train_split_data (rng_split w) (dataset p) = Ok s
    /\ split p = ECGProcessor._normalize s
    /\ _split_normal_and_anomalies (split p) = Ok (groups p)
    /\ name p = "Electrocardiogram"%string.
Proof.
  unfold ECGProcessor.__init__, BasePreprocessor.__init__, read_table.
  cbn [snd]. intro H.
  destruct (files w (ecg_data_path (config w))) as [raw |] eqn:Ef;
    [| discriminate H].
  cbn [Py.bind] in H.
  apply bind_Ok in H. destruct H as (d & Hd & H).
  apply bind_Ok in H. destruct H as (s & Hs & H).
  apply bind_Ok in H. destruct H as (g & Hg & H).
  injection H as <-. cbn [raw_data dataset split groups name].
  exists s. repeat split; assumption.
Qed.

Lemma constructed_aligned (F : FloatOps) (w : World) (p : BasePreprocessor.t) :
  snd (CreditProcessor.__init__ w) = Ok p
  \/ snd (ECGProcessor.__init__ w) = Ok p ->
  aligned (split p)
  /\ _split_normal_and_anomalies (split p) = Ok (groups p).
Proof.
  intros [H | H].
  - apply credit_init_inv in H.
    destruct H as (d & s & _ & _ & _ & Hs & Hn & Hg & _).
    split; [| exact Hg].
    apply (@credit_normalize_aligned F s (split p)); [| exact Hn].
    eapply train_split_data_aligned. left. exact Hs.
  - apply ecg_init_inv in H.
    destruct H as (s & _ & _ & Hs & -> & Hg & _).
    split; [| exact Hg].
    apply ecg_normalize_aligned.
    eapply train_split_data_aligned. left. exact Hs.
Qed.

(** What [get_all_data] hands out for a constructed preprocessor of
    either class: the train and the test table, and four groups of which
    normal-train and anomaly-train are the rows of the train table with a
    non-zero and with a zero label, in the order of the train table, and
    together a rearrangement of it; likewise for test. *)
Theorem get_all_data_of_constructed (F : FloatOps) (w : World)
    (p : BasePreprocessor.t) :
  snd (CreditProcessor.__init__ w) = Ok p
  \/ snd (ECGProcessor.__init__ w) = Ok p ->
  exists nt nte ant ante,
    get_all_data p
    = (train_data (split p), test_data (split p), nt, nte, ant, ante)
    /\ nt = np.mask_rows (train_data (split p))
                         (np.astype_bool (train_labels (split p)))
    /\ ant = np.mask_rows (train_data (split p))
               (np.invert (np.astype_bool (train_labels (split p))))
    /\ nte = np.mask_rows (test_data (split p))
                          (np.astype_bool (test_labels (split p)))
    /\ ante = np.mask_rows (test_data (split p))
                (np.invert (np.astype_bool (test_labels (split p))))
    /\ Permutation (nt ++ ant) (train_data (split p))
    /\ Permutation (nte ++ ante) (test_data (split p)).
Proof.
  intro H. destruct (@constructed_aligned F w p H) as [[A B] G].
  rewrite (split_normal_and_anomalies_Ok _ A B) in G.
  injection G as G.
  exists (normal_train (groups p)), (normal_test (groups p)),
         (anom_train (groups p)), (anom_test (groups p)).
  split; [reflexivity |].
  rewrite <- G. cbn [normal_train normal_test anom_train anom_test].
  repeat split.
  - apply mask_rows_partition. rewrite astype_bool_length. exact A.
  - apply mask_rows_partition. rewrite astype_bool_length. exact B.
Qed.

(** On a constructed preprocessor of either class the rebalancing
    accessor never raises: for every state of the random generator it
    returns a feature matrix and a label vector of the same length. *)
Theorem get_normalized_data_of_constructed (F : FloatOps) (w : World)
    (p : BasePreprocessor.t) :
  snd (CreditProcessor.__init__ w) = Ok p
  \/ snd (ECGProcessor.__init__ w) = Ok p ->
  forall rnd,
    exists data labels,
      get_normalized_data rnd (split p) = Ok (data, labels)
      /\ length data = length labels.
Proof.
  intros H rnd. destruct (@constructed_aligned F w p H) as [[A B] _].
  pose proof (get_normalized_data_eq rnd (split p) A B) as E.
  cbv zeta in E. rewrite E.
  eexists. eexists. split; [reflexivity |].
  rewrite rows_at_length, values_at_length. reflexivity.
Qed.

Lemma ecg_normalize_lengths (F : FloatOps) (s : Split) :
  length (train_data (ECGProcessor._normalize s)) = length (train_data s)
  /\ length (test_data (ECGProcessor._normalize s)) = length (test_data s).
Proof.
  rewrite ecg_normalize_eq. cbn [train_data test_data].
  split; apply length_map.
Qed.

Lemma credit_normalize_lengths (F : FloatOps) (s s' : Split) :
  CreditProcessor._normalize s = Ok s' ->
  length (train_data s') = length (train_data s)
  /\ length (test_data s') = length (test_data s).
Proof.
  intro H. apply credit_normalize_inv in H.
  destruct H as (scaler & _ & _ & _ & _ & _ & ->).
  cbn [train_data test_data]. split; apply length_map.
Qed.

(** The sizes a constructed preprocessor ends with.  The ECG
    preprocessor deals every row of its file: the raw table is the file,
    train and test together have as many rows as the file, and test has a
    fifth of them, rounded up.  The fraud preprocessor deals every row of
    the balanced data set, which it keeps as its data, in the same
    proportion. *)
Theorem constructed_sizes (F : FloatOps) (w : World)
    (p : BasePreprocessor.t) :
  (snd (ECGProcessor.__init__ w) = Ok p ->
   let n := length (raw_data p) in
   files w (ecg_data_path (config w)) = Some (raw_data p)
   /\ length (data (dataset p)) = n
   /\ length (train_data (split p)) + length (test_data (split p)) = n
   /\ length (test_data (split p)) = (n + 4) / 5
   /\ 2 <= n)
  /\ (snd (CreditProcessor.__init__ w) = Ok p ->
      let n := length (data (dataset p)) in
      files w (credit_data_path (config w)) = Some (raw_data p)
      /\ length (train_data (split p)) + length (test_data (split p)) = n
      /\ length (test_data (split p)) = (n + 4) / 5
      /\ 2 <= n).
Proof.
  split; intros H n.
  - apply ecg_init_inv in H.
    destruct H as (s & Hf & Hd & Hs & -> & _ & _).
    destruct (ecg_load_aligned _ Hd) as [D1 D2].
    destruct (train_split_data_inv _ _ (or_introl Hs)) as (E & N & ->).
    destruct (split_at_counts (data (dataset p)) (labels (dataset p))
                (rng_split w) E) as (Ltr & Lte & _).
    cbv zeta in Ltr, Lte.
    set (s := split_at (data (dataset p)) (labels (dataset p))
                (split_indices (rng_split w) (length (data (dataset p)))))
      in *.
    destruct (ecg_normalize_lengths F s) as [Ntr Nte].
    rewrite Ntr, Nte, Ltr, Lte. unfold n. rewrite <- D1.
    destruct (fifth_bounds (length (data (dataset p)))) as [B _].
    repeat split; try assumption; lia.
  - apply credit_init_inv in H.
    destruct H as (d & s & Hf & _ & _ & Hs & Hn & _ & _).
    destruct (train_split_data_inv _ _ (or_introl Hs)) as (E & N & ->).
    destruct (split_at_counts (data (dataset p)) (labels (dataset p))
                (rng_split w) E) as (Ltr & Lte & _).
    cbv zeta in Ltr, Lte.
    set (s := split_at (data (dataset p)) (labels (dataset p))
                (split_indices (rng_split w) (length (data (dataset p)))))
      in *.
    destruct (@credit_normalize_lengths F s (split p) Hn) as [Ntr Nte].
    rewrite Ntr, Nte, Ltr, Lte. fold n.
    destruct (fifth_bounds n) as [B _].
    repeat split; try assumption; lia.
Qed.

(** The example data set, from the downloaded table on.  The constructor
    returns exactly when every row has a last column and there are two
    rows at least; a row without columns makes it raise an index error,
    fewer than two rows a value error.  What it constructs keeps the
    downloaded table, deals all its rows to train and test, a fifth of
    them rounded up to test, with labels as long as the tables, and
    [get_all_training_data] hands out groups that rearrange train and
    test. *)
Theorem example_data_constructor (F : FloatOps) (rnd : rng)
    (values : table) :
  (Forall (fun r => r <> []) values /\ 2 <= length values <->
   exists p, ExampleData.__init__ rnd values = Ok p)
  /\ (Exists (fun r => r = []) values ->
      ExampleData.__init__ rnd values = Raise IndexError)
  /\ (Forall (fun r => r <> []) values -> length values < 2 ->
      ExampleData.__init__ rnd values = Raise ValueError)
  /\ (forall p,
         ExampleData.__init__ rnd values = Ok p ->
         let n := length values in
         let s := ExampleData.split p in
         ExampleData.raw_data p = values
         /\ length (train_data s) + length (test_data s) = n
         /\ length (test_data s) = (n + 4) / 5
         /\ length (train_data s) = length (train_labels s)
         /\ length (test_data s) = length (test_labels s)
         /\ exists nt nte ant ante,
              ExampleData.get_all_training_data p
              = (train_data s, test_data s, nt, nte, ant, ante)
              /\ Permutation (nt ++ ant) (train_data s)
              /\ Permutation (nte ++ ante) (test_data s)).
Proof.
  assert (Inv : forall p,
    ExampleData.__init__ rnd values = Ok p ->
    exists lab s0,
      np.col_last values = Ok lab
      /\ ExampleData.__train_split_data rnd
           {| data := np.drop_last_col values; labels := lab |} = Ok s0
      /\ ExampleData.split p = ECGProcessor._normalize s0
      /\ _split_normal_and_anomalies (ExampleData.split p)
         = Ok (ExampleData.groups p)
      /\ ExampleData.raw_data p = values).
  { intros p H. unfold ExampleData.__init__ in H.
    apply bind_Ok in H. destruct H as (lab & Hl & H).
    apply bind_Ok in H. destruct H as (s0 & Hs & H).
    apply bind_Ok in H. destruct H as (g & Hg & H).
    injection H as <-.
    exists lab, s0. repeat split; assumption. }
  split; [split | split; [| split]].
  - intros [C N]. unfold ExampleData.__init__.
    rewrite (col_last_Ok C). cbn [Py.bind].
    set (d := {| data := np.drop_last_col values;
                 labels := map (fun r => last r 0%Q) values |}).
    assert (E : length (labels d) = length (data d)).
    { unfold d, np.drop_last_col. cbn [data labels].
      rewrite !length_map. reflexivity. }
    assert (N' : 2 <= length (data d)).
    { unfold d, np.drop_last_col. cbn [data]. rewrite length_map. exact N. }
    destruct (plain_split_Ok rnd d E N') as [s0 Hs].
    rewrite Hs. cbn [Py.bind].
    pose proof (train_split_data_aligned rnd d (or_intror Hs)) as A.
    apply (ecg_normalize_aligned F) in A. destruct A as [A B].
    change (ExampleData.__normalize s0) with (ECGProcessor._normalize s0).
    change (ExampleData.__split_normal_and_anomalies
              (ECGProcessor._normalize s0))
      with (_split_normal_and_anomalies (ECGProcessor._normalize s0)).
    rewrite (split_normal_and_anomalies_Ok _ A B). cbn [Py.bind].
    eexists. reflexivity.
  - intros [p H]. destruct (Inv p H) as (lab & s0 & Hl & Hs & _).
    split; [exact (col_last_Ok_inv _ Hl) |].
    destruct (train_split_data_inv rnd _ (or_intror Hs)) as (_ & N & _).
    unfold np.drop_last_col in N. cbn [data] in N.
    rewrite length_map in N. exact N.
  - intro H. unfold ExampleData.__init__.
    rewrite (col_last_empty_row H). reflexivity.
  - intros C N. unfold ExampleData.__init__.
    rewrite (col_last_Ok C). cbn [Py.bind].
    unfold ExampleData.__train_split_data. cbn [data labels].
    rewrite train_test_split_small; [reflexivity |].
    unfold np.drop_last_col. rewrite length_map. exact N.
  - intros p H n s.
    destruct (Inv p H) as (lab & s0 & Hl & Hs & Hn & Hg & Hr).
    destruct (train_split_data_inv rnd _ (or_intror Hs)) as (E & N & Es0).
    cbn [data labels] in E, N, Es0.
    pose proof (train_split_data_aligned rnd _ (or_intror Hs)) as A0.
    pose proof (ecg_normalize_aligned F A0) as A.
    destruct (ecg_normalize_lengths F s0) as [Ntr Nte].
    destruct (split_at_counts (np.drop_last_col values) lab rnd E)
      as (Ltr & Lte & _).
    cbv zeta in Ltr, Lte. rewrite <- Es0 in Ltr, Lte.
    assert (Hlen : length (np.drop_last_col values) = n)
      by (unfold np.drop_last_col; apply length_map).
    rewrite Hlen in Ltr, Lte.
    destruct (fifth_bounds n) as [Bn _].
    unfold s. rewrite Hn in *. destruct A as [A B].
    split; [exact Hr |].
    split; [rewrite Ntr, Nte, Ltr, Lte; lia |].
    split; [rewrite Nte; exact Lte |].
    split; [exact A |]. split; [exact B |].
    rewrite (split_normal_and_anomalies_Ok _ A B) in Hg.
    injection Hg as Hg.
    exists (normal_train (ExampleData.groups p)),
           (normal_test (ExampleData.groups p)),
           (anom_train (ExampleData.groups p)),
           (anom_test (ExampleData.groups p)).
    split.
    { unfold ExampleData.get_all_training_data. rewrite Hn. reflexivity. }
    rewrite <- Hg. cbn [normal_train normal_test anom_train anom_test].
    split.
    + apply mask_rows_partition. rewrite astype_bool_length. exact A.
    + apply mask_rows_partition. rewrite astype_bool_length. exact B.
Qed.

(** ** Loading *)

Lemma nth_map_in (A B : Type) (f : A -> B) (l : list A) (i : nat)
    (d : A) (d' : B) :
  i < length l -> nth i (map f l) d' = f (nth i l d).
Proof.
  intro H. rewrite nth_indep with (d' := f d) by (rewrite length_map; exact H).
  apply map_nth.
Qed.

Lemma inverted_label_is_zero (c : Q) :
  Qeq_bool (1 - c) 0 = Qeq_bool c 1.
Proof.
  destruct (Qeq_bool c 1) eqn:E.
  - apply Qeq_bool_iff in E. apply Qeq_bool_iff. rewrite E. reflexivity.
  - destruct (Qeq_bool (1 - c) 0) eqn:E'; [| reflexivity].
    apply Qeq_bool_iff in E'.
    assert (H : (c == 1)%Q) by lra.
    apply Qeq_bool_iff in H. congruence.
Qed.

(** What loading makes of the raw table.  The fraud loader takes as
    features every column but the first (the time) and the last (the
    class), and as label one minus the class, so that exactly the rows of
    class 1, the frauds, get the label 0 that the partitioner reads as
    anomaly.  The ECG loader takes every column but the last as features
    and the last as the label, unchanged.  Either loader returns exactly
    when every row has a last column. *)
Theorem loaders_select_features_and_labels (raw : table) :
  (Forall (fun r => r <> []) raw <->
   exists d, CreditProcessor.load raw = Ok d)
  /\ (Forall (fun r => r <> []) raw <->
      exists d, ECGProcessor.load raw = Ok d)
  /\ (forall d i,
         CreditProcessor.load raw = Ok d -> i < length raw ->
         let r := nth i raw [] in
         nth i (data d) [] = removelast (tl r)
         /\ nth i (labels d) 0%Q = (1 - last r 0)%Q
         /\ Qeq_bool (nth i (labels d) 0%Q) 0 = Qeq_bool (last r 0%Q) 1)
  /\ (forall d i,
         ECGProcessor.load raw = Ok d -> i < length raw ->
         let r := nth i raw [] in
         nth i (data d) [] = removelast r
         /\ nth i (labels d) 0%Q = last r 0%Q).
Proof.
  split; [| split; [| split]].
  - split.
    + intro C. unfold CreditProcessor.load. rewrite (col_last_Ok C).
      eexists. reflexivity.
    + intros [d H]. unfold CreditProcessor.load in H. bind_inv H.
      exact (col_last_Ok_inv _ Ha).
  - split.
    + intro C. unfold ECGProcessor.load. rewrite (col_last_Ok C).
      eexists. reflexivity.
    + intros [d H]. unfold ECGProcessor.load in H. bind_inv H.
      exact (col_last_Ok_inv _ Ha).
  - intros d i H Hi r. unfold CreditProcessor.load in H. bind_inv H.
    pose proof (col_last_Ok (col_last_Ok_inv _ Ha)) as E.
    rewrite E in Ha. injection Ha as <-. injection H as <-.
    cbn [data labels].
    assert (D : nth i (np.inner_cols raw) [] = removelast (tl r))
      by exact (@nth_map_in _ _ (fun r0 : list Q => removelast (tl r0))
                  raw i [] [] Hi).
    assert (L : nth i (map (fun c => (1 - c)%Q)
                         (map (fun x : list Q => last x 0%Q) raw)) 0%Q
                = (1 - last r 0)%Q).
    { rewrite map_map.
      exact (@nth_map_in _ _ (fun x : list Q => (1 - last x 0)%Q)
               raw i [] 0%Q Hi). }
    split; [exact D |]. split; [exact L |].
    rewrite L. apply inverted_label_is_zero.
  - intros d i H Hi r. unfold ECGProcessor.load in H. bind_inv H.
    pose proof (col_last_Ok (col_last_Ok_inv _ Ha)) as E.
    rewrite E in Ha. injection Ha as <-. injection H as <-.
    cbn [data labels]. split.
    + exact (@nth_map_in _ _ (@removelast Q) raw i [] [] Hi).
    + exact (@nth_map_in _ _ (fun x : list Q => last x 0%Q) raw i [] 0%Q Hi).
Qed.

(** * The further properties at concrete inputs *)



Lemma under_sample_output_sorted_by_class_witness :
  binary (labels small_fraud)
  /\ exists d',
       CreditProcessor._under_sample rng_zero small_fraud = Ok d'
       /\ firstn 2 (data d') = [[0]; [1]]%Q
       /\ Forall (fun l => Qeq_bool l 1 = true) (skipn 2 (labels d')).
Proof.
  assert (Hlen : length (data small_fraud) = length (labels small_fraud))
    by reflexivity.
  assert (Hbin : binary (labels small_fraud))
    by (apply binary_check; reflexivity).
  assert (Hm : 0 < Nat.min (count_eq 0 (labels small_fraud))
                           (count_eq 1 (labels small_fraud)))
    by (vm_compute; lia).
  assert (HM : 10 * Nat.min (count_eq 0 (labels small_fraud))
                            (count_eq 1 (labels small_fraud))
               <= Nat.max (count_eq 0 (labels small_fraud))
                          (count_eq 1 (labels small_fraud)))
    by (vm_compute; lia).
  split; [exact Hbin |].
  destruct (@under_sample_output_sorted_by_class rng_zero small_fraud
              Hlen Hbin Hm HM) as (d' & E & Hmin & _).
  assert (Hle : count_eq 0 (labels small_fraud)
                <= count_eq 1 (labels small_fraud))
    by (vm_compute; lia).
  destruct (Hmin Hle) as (R & _ & O).
  exists d'. split; [exact E |]. split; [exact R | exact O].
Defined.

Lemma stratified_split_refuses_lone_class_witness :
  count_eq 0 (labels lone_fraud) = 1
  /\ _train_split_data rng_zero lone_fraud = Raise ValueError.
Proof.
  assert (H : count_eq 0 (labels lone_fraud) = 1) by reflexivity.
  split; [exact H |].
  exact (@stratified_split_refuses_lone_class rng_zero lone_fraud 0%Q H).
Defined.

Lemma min_max_attains_zero_and_one_witness :
  (tf.reduce_min (train_data small_split)
   < tf.reduce_max (train_data small_split))%Q
  /\ exists r x,
       In r (train_data (@ECGProcessor._normalize exact_ops small_split))
       /\ In x r /\ (x == 0)%Q.
Proof.
  assert (Hlt : (tf.reduce_min (train_data small_split)
                 < tf.reduce_max (train_data small_split))%Q)
    by reflexivity.
  split; [exact Hlt |].
  exact (proj1 (@min_max_attains_zero_and_one exact_ops small_split
                  (fun x y H => H) (Qeq_refl 0) (Qeq_refl 1) Hlt)).
Defined.

Lemma min_max_test_cell_position_witness :
  (tf.reduce_max (train_data small_split)
   <= nth 0 (nth 0 (test_data small_split) []) 0)%Q
  /\ (1 <= nth 0 (nth 0 (test_data
                           (@ECGProcessor._normalize exact_ops small_split))
                     []) 0)%Q.
Proof.
  assert (Hlt : (tf.reduce_min (train_data small_split)
                 < tf.reduce_max (train_data small_split))%Q)
    by reflexivity.
  assert (Hi : 0 < length (test_data small_split)) by (vm_compute; lia).
  assert (Hj : 0 < length (nth 0 (test_data small_split) []))
    by (vm_compute; lia).
  assert (Hx : (tf.reduce_max (train_data small_split)
                <= nth 0 (nth 0 (test_data small_split) []) 0)%Q)
    by (vm_compute; discriminate).
  split; [exact Hx |].
  exact (proj1 (proj2 (@min_max_test_cell_position exact_ops small_split
                         (fun x y H => H) (Qeq_refl 0) (Qeq_refl 1) Hlt
                         0 0 Hi Hj)) Hx).
Defined.

Lemma get_all_data_of_constructed_witness :
  exists p nt ant,
    snd (@CreditProcessor.__init__ exact_ops small_world) = Ok p
    /\ nt = normal_train (groups p) /\ ant = anom_train (groups p)
    /\ Permutation (nt ++ ant) (train_data (split p)).
Proof.
  destruct (snd (@CreditProcessor.__init__ exact_ops small_world))
    as [p | e] eqn:E.
  - destruct (@get_all_data_of_constructed exact_ops small_world p
                (or_introl E))
      as (nt & nte & ant & ante & G & _ & _ & _ & _ & P & _).
    unfold get_all_data in G. injection G as G1 G2 G3 G4.
    exists p, nt, ant. split; [reflexivity |].
    split; [symmetry; exact G1 |]. split; [symmetry; exact G3 | exact P].
  - exfalso. revert E. vm_compute. discriminate.
Defined.

Lemma get_normalized_data_of_constructed_witness :
  exists p data labels,
    snd (@ECGProcessor.__init__ exact_ops small_world) = Ok p
    /\ get_normalized_data rng_zero (split p) = Ok (data, labels)
    /\ length data = length labels.
Proof.
  destruct (snd (@ECGProcessor.__init__ exact_ops small_world))
    as [p | e] eqn:E.
  - destruct (@get_normalized_data_of_constructed exact_ops small_world p
                (or_intror E) rng_zero) as (data & labels & G & L).
    exists p, data, labels. split; [reflexivity |].
    split; [exact G | exact L].
  - exfalso. revert E. vm_compute. discriminate.
Defined.

Lemma get_normalized_data_raises_iff_lengths_differ_witness :
  Forall (fun r => length r = 2) (train_data cancelling_split)
  /\ Forall (fun r => length r = 2) (test_data cancelling_split)
  /\ length (train_data cancelling_split)
     <> length (train_labels cancelling_split)
  /\ exists data labels,
       get_normalized_data rng_zero cancelling_split = Ok (data, labels)
       /\ length data = length labels
       /\ Forall (fun r => length r = 2) data.
Proof.
  assert (Wtr : Forall (fun r => length r = 2) (train_data cancelling_split))
    by (repeat constructor).
  assert (Wte : Forall (fun r => length r = 2) (test_data cancelling_split))
    by (repeat constructor).
  split; [exact Wtr |]. split; [exact Wte |].
  split; [vm_compute; lia |].
  exact (proj1 (@get_normalized_data_raises_iff_lengths_differ rng_zero
                  cancelling_split 2 Wtr Wte) eq_refl).
Defined.

Lemma under_sample_refusals_witness :
  binary (labels short_majority)
  /\ Nat.max (count_eq 0 (labels short_majority))
             (count_eq 1 (labels short_majority))
     < 10 * Nat.min (count_eq 0 (labels short_majority))
                    (count_eq 1 (labels short_majority))
  /\ CreditProcessor._under_sample rng_zero short_majority
     = Raise ValueError.
Proof.
  assert (Hbin : binary (labels short_majority))
    by (apply binary_check; reflexivity).
  assert (Hbad : Nat.max (count_eq 0 (labels short_majority))
                         (count_eq 1 (labels short_majority))
                 < 10 * Nat.min (count_eq 0 (labels short_majority))
                                (count_eq 1 (labels short_majority)))
    by (vm_compute; lia).
  split; [exact Hbin |]. split; [exact Hbad |].
  exact (@under_sample_refusals rng_zero short_majority Hbin
           (or_intror Hbad)).
Defined.

Lemma under_sample_does_not_check_alignment_witness :
  length (labels surplus_rows) = 22 /\ length (data surplus_rows) = 27
  /\ exists d',
       CreditProcessor._under_sample rng_zero surplus_rows = Ok d'
       /\ length (data d') = 22 /\ length (labels d') = 22.
Proof.
  assert (NX : data surplus_rows <> []) by discriminate.
  assert (Hbin : binary (labels surplus_rows))
    by (apply binary_check; reflexivity).
  assert (Hm : 0 < Nat.min (count_eq 0 (labels surplus_rows))
                           (count_eq 1 (labels surplus_rows)))
    by (vm_compute; lia).
  assert (HM : 10 * Nat.min (count_eq 0 (labels surplus_rows))
                            (count_eq 1 (labels surplus_rows))
               <= Nat.max (count_eq 0 (labels surplus_rows))
                          (count_eq 1 (labels surplus_rows)))
    by (vm_compute; lia).
  assert (Hle : length (labels surplus_rows) <= length (data surplus_rows))
    by (vm_compute; lia).
  split; [reflexivity |]. split; [reflexivity |].
  destruct (proj1 (@under_sample_does_not_check_alignment rng_zero
                     surplus_rows NX Hbin Hm HM) Hle)
    as (d' & R & _ & L1 & L2).
  exists d'. split; [exact R |]. split; [exact L1 | exact L2].
Defined.

(** Labels without a row: the two frauds of [missing_rows] sit at the
    positions 20 and 21 of a table of 20 rows. *)
Example under_sample_index_error_on_missing_rows :
  CreditProcessor._under_sample rng_zero missing_rows = Raise IndexError.
Proof. vm_compute. reflexivity. Qed.
